(** * no_rendering_mode.py: the CARLA no-rendering-mode visualizer

    A shallow embedding of [PythonAPI/no_rendering_mode.py] and the
    properties of its module registry, input handler, world view and frame
    loop.

    Conventions of the embedding.
    - Python [int] is [Z]; Python [float] is IEEE-754 binary64, i.e. Rocq's
      primitive [float]; a variable that holds either (the zoom factors, the
      HUD's [server_fps]) is a [py_num].
    - Python exceptions are values of [exn]; a computation is a function from
      the interpreter state to an outcome, a new state and the calls it made
      into pygame, logging and the process (its trace).
    - Objects live in a heap and are named by references; the registry
      [module_manager.modules] is a list of references, and a weak reference
      resolves to nothing once its heap cell is gone.
    - What the collaborators answer (the simulator's actor list and map, the
      pygame event queue and mouse, the clocks' frame rates, the installed
      fonts) is an input of the function that asks for it.  The simulator
      queries and Python's own conversions may raise; calls into pygame are
      recorded with their arguments and are assumed to return.
    - The callback the simulator runs on its own ticks is a computation of
      its own, [ModuleWorld.on_world_tick]; [main] is the main thread.
    - The file declares [global scale_x] after a first use in
      [_parse_events], which Python 2.7 and 3.5 (the interpreters the egg
      lookup at the top of the file targets) accept with a warning; the
      declaration then covers the whole function body, which is what is
      modelled. *)

From Stdlib Require Import ZArith Floats String Ascii List Lia Bool DecimalString.
From stdpp Require Import base tactics option list.
Import ListNotations.

Local Open Scope string_scope.
Local Open Scope list_scope.
Local Open Scope Z_scope.
Local Set Warnings "-inexact-float".

(** ** Python values *)

(** The exception classes the program can meet.  [SystemExit] and
    [KeyboardInterrupt] derive from [BaseException] only, so that
    [except Exception] lets them through. *)
Inductive exn : Type :=
  | SystemExit
  | KeyboardInterrupt
  | RuntimeError
  | ValueError
  | OverflowError
  | TypeError
  | AttributeError
  | IndexError.

Definition is_Exception (e : exn) : bool :=
  match e with
  | SystemExit | KeyboardInterrupt => false
  | _ => true
  end.

Definition exn_eqb (a b : exn) : bool :=
  match a, b with
  | SystemExit, SystemExit | KeyboardInterrupt, KeyboardInterrupt
  | RuntimeError, RuntimeError | ValueError, ValueError
  | OverflowError, OverflowError | TypeError, TypeError
  | AttributeError, AttributeError | IndexError, IndexError => true
  | _, _ => false
  end.

(** The result of an expression that may raise. *)
Inductive result (A : Type) : Type :=
  | Ok (a : A)
  | Err (e : exn).
Arguments Ok {A} a.
Arguments Err {A} e.

(** A number: [int] or [float]. *)
Inductive py_num : Type :=
  | PyInt (z : Z)
  | PyFloat (f : float).

(** The magnitude [m * 2^e] of a finite float, cut to its integer part. *)
Definition trunc_magnitude (m : positive) (e : Z) : Z :=
  if 0 <=? e then Z.pos m * 2 ^ e else Z.pos m / 2 ^ (- e).

(** [int(f)] for a float: the integer part, rounding toward zero;
    [ValueError] on NaN, [OverflowError] on an infinity. *)
Definition int_of_float (f : float) : result Z :=
  match Prim2SF f with
  | S754_zero _ => Ok 0
  | S754_infinity _ => Err OverflowError
  | S754_nan => Err ValueError
  | S754_finite s m e =>
      Ok (if s then - trunc_magnitude m e else trunc_magnitude m e)
  end.

(** [int(v)] for a number. *)
Definition py_int (v : py_num) : result Z :=
  match v with
  | PyInt z => Ok z
  | PyFloat f => int_of_float f
  end.

(** [float(z)] for an int: the nearest double, ties to even;
    [OverflowError] when the int is too large. *)
Definition float_of_int (z : Z) : result float :=
  match binary_normalize prec emax z 0 false with
  | S754_infinity _ => Err OverflowError
  | sf => Ok (SF2Prim sf)
  end.

Definition py_float (v : py_num) : result float :=
  match v with
  | PyInt z => float_of_int z
  | PyFloat f => Ok f
  end.

(** Binary arithmetic: [int op int] stays an int, anything with a float is
    computed on doubles. *)
Definition py_arith (zop : Z -> Z -> Z) (fop : float -> float -> float)
    (a b : py_num) : result py_num :=
  match a, b with
  | PyInt x, PyInt y => Ok (PyInt (zop x y))
  | _, _ =>
      match py_float a, py_float b with
      | Ok x, Ok y => Ok (PyFloat (fop x y))
      | Err e, _ => Err e
      | _, Err e => Err e
      end
  end.

Definition py_add : py_num -> py_num -> result py_num := py_arith Z.add PrimFloat.add.
Definition py_sub : py_num -> py_num -> result py_num := py_arith Z.sub PrimFloat.sub.
Definition py_mul : py_num -> py_num -> result py_num := py_arith Z.mul PrimFloat.mul.

Arguments int_of_float : simpl never.
Arguments float_of_int : simpl never.
Arguments py_int : simpl never.
Arguments py_add : simpl never.
Arguments py_sub : simpl never.
Arguments py_mul : simpl never.

(** ** Python strings *)

(** [needle in hay]: substring containment. *)
Fixpoint py_in (needle hay : string) : bool :=
  String.prefix needle hay ||
  match hay with
  | EmptyString => false
  | String _ rest => py_in needle rest
  end.

(** [s.split(sep)] for a one-character separator. *)
Fixpoint py_split (sep : ascii) (s : string) : list string :=
  match s with
  | EmptyString => [EmptyString]
  | String c rest =>
      if Ascii.eqb c sep then EmptyString :: py_split sep rest
      else match py_split sep rest with
           | [] => [String c EmptyString]
           | w :: ws => String c w :: ws
           end
  end.

Definition is_space (c : ascii) : bool :=
  let n := nat_of_ascii c in
  (Nat.eqb n 32 || (Nat.leb 9 n && Nat.leb n 13))%bool.

Fixpoint lstrip (s : string) : string :=
  match s with
  | String c rest => if is_space c then lstrip rest else s
  | EmptyString => EmptyString
  end.

Fixpoint rstrip (s : string) : string :=
  match s with
  | EmptyString => EmptyString
  | String c rest =>
      match rstrip rest with
      | EmptyString => if is_space c then EmptyString else String c EmptyString
      | r => String c r
      end
  end.

Definition digit_of (c : ascii) : option Z :=
  let n := nat_of_ascii c in
  if (Nat.leb 48 n && Nat.leb n 57)%bool then Some (Z.of_nat n - 48) else None.

Fixpoint digits_value (acc : Z) (s : string) : option Z :=
  match s with
  | EmptyString => Some acc
  | String c rest =>
      match digit_of c with
      | Some d => digits_value (10 * acc + d) rest
      | None => None
      end
  end.

Definition unsigned_value (s : string) : option Z :=
  match s with
  | EmptyString => None
  | _ => digits_value 0 s
  end.

(** [int(s)] for a string, base ten: surrounding white space, an optional
    sign, at least one digit; [ValueError] otherwise. *)
Definition int_of_str (s : string) : result Z :=
  let body := rstrip (lstrip s) in
  let parsed :=
    match body with
    | String "-" rest => option_map Z.opp (unsigned_value rest)
    | String "+" rest => unsigned_value rest
    | _ => unsigned_value body
    end in
  match parsed with
  | Some z => Ok z
  | None => Err ValueError
  end.

Fixpoint spaces (n : nat) : string :=
  match n with
  | O => EmptyString
  | S k => String " " (spaces k)
  end.

(** ['% 16d' % v]: the number as an int, a blank in the place of a plus
    sign, padded on the left to sixteen characters. *)
Definition format_space_16d (v : py_num) : result string :=
  match py_int v with
  | Err e => Err e
  | Ok z =>
      let digits := NilZero.string_of_uint (N.to_uint (Z.abs_N z)) in
      let sign := if z <? 0 then "-" else " " in
      let signed := (sign ++ digits)%string in
      Ok (spaces (16 - String.length signed)%nat ++ signed)%string
  end.

Arguments py_in : simpl never.
Arguments int_of_str : simpl never.
Arguments format_space_16d : simpl never.

(** ** The collaborators *)

(** What the simulator client answers. *)
Module carla.

Record Location : Type := { x : float; y : float; z : float }.

Record Actor : Type := {
  type_id : string;
  get_location : result Location  (* actor.get_location() *)
}.

Record Waypoint : Type := { transform_location : Location }.

Record Map : Type := {
  generate_waypoints : result (list Waypoint)  (* generate_waypoints(10.0) *)
}.

(** The handle [client.get_world()] returns. *)
Inductive World : Type := world_of (host : string) (port : Z).

(** What the server answers to the four calls of the connection:
    [carla.Client(host, port)], [client.set_timeout(timeout)],
    [client.get_world()] and [world.on_tick(callback)]. *)
Record Server : Type := {
  Client : result unit;
  set_timeout : result unit;
  get_world : result unit;
  on_tick : result unit
}.

Record Timestamp : Type := { frame_count : Z; elapsed_seconds : float }.

End carla.

(** What pygame hands to the program and what the program asks of it. *)
Module pygame.

(** An event of the queue.  A [MOUSEBUTTONDOWN] carries, besides its
    button, what [pygame.mouse.get_pos()] answers while it is handled. *)
Inductive Event : Type :=
  | QUIT
  | KEYUP (key : Z)
  | MOUSEBUTTONDOWN (button : Z) (get_pos : Z * Z)
  | OTHER.

Definition K_ESCAPE : Z := 27.

Definition color : Type := Z * Z * Z.

(** Surfaces, by the call that made them. *)
Inductive Surface : Type :=
  | display (size : Z * Z)                     (* display.set_mode *)
  | surface (size : Z * Z)                     (* pygame.Surface *)
  | scale (src : Surface) (size : Z * Z)       (* transform.scale *)
  | text (font : string) (s : string) (c : color).  (* font.render *)

(** A clock as one frame sees it: the rate [get_fps()] reports. *)
Record Clock : Type := { get_fps : float }.

End pygame.

(** A reference to an object of the heap. *)
Abbreviation ref := nat.

(** The calls the program makes, in the order it makes them.  [tick_call]
    and [render_call] mark the dispatch of [module.tick(clock)] and
    [module.render(display)] on the object of that reference. *)
Inductive call : Type :=
  | pygame_init
  | set_mode (size : Z * Z)
  | set_caption (s : string)
  | flip
  | pygame_quit
  | tick_busy_loop (fps : Z)
  | on_tick (weak_self : ref)
  | logging_info (s : string)
  | logging_error (s : string)
  | print (s : string)
  | fill (target : pygame.Surface) (c : pygame.color)
  | set_alpha (target : pygame.Surface) (a : Z)
  | blit (target src : pygame.Surface) (pos : Z * Z)
  | draw_lines (target : pygame.Surface) (c : pygame.color) (closed : bool)
      (points : list (Z * Z)) (width : Z)
  | draw_circle (target : pygame.Surface) (c : pygame.color) (pos : Z * Z)
      (radius width : Z)
  | tick_call (module : ref) (clock : pygame.Clock)
  | render_call (module : ref) (target : pygame.Surface).

(** What the collaborators answer during one method call of a module. *)
Record inputs : Type := {
  event_get : list pygame.Event;             (* pygame.event.get() *)
  mouse_get_pressed : bool * bool * bool;    (* pygame.mouse.get_pressed() *)
  mouse_get_pos : Z * Z;                     (* pygame.mouse.get_pos() *)
  get_actors : result (list carla.Actor);    (* self.world.get_actors() *)
  get_map : result carla.Map                 (* self.world.get_map() *)
}.

(** ** Objects and the interpreter state *)

Module HUD.
Record t : Type := {
  name : string;
  dim : Z * Z;
  server_fps : py_num;
  frame_number : Z;
  simulation_time : Z;
  _show_info : bool;
  _info_text : list string;
  _server_clock : nat;        (* a pygame Clock: its tick() calls so far *)
  _font_mono : string
}.

Definition set_server_fps (v : py_num) (h : t) : t :=
  {| name := name h; dim := dim h; server_fps := v;
     frame_number := frame_number h; simulation_time := simulation_time h;
     _show_info := _show_info h; _info_text := _info_text h;
     _server_clock := _server_clock h; _font_mono := _font_mono h |}.

Definition set_info_text (l : list string) (h : t) : t :=
  {| name := name h; dim := dim h; server_fps := server_fps h;
     frame_number := frame_number h; simulation_time := simulation_time h;
     _show_info := _show_info h; _info_text := l;
     _server_clock := _server_clock h; _font_mono := _font_mono h |}.

Definition set_server_clock (n : nat) (h : t) : t :=
  {| name := name h; dim := dim h; server_fps := server_fps h;
     frame_number := frame_number h; simulation_time := simulation_time h;
     _show_info := _show_info h; _info_text := _info_text h;
     _server_clock := n; _font_mono := _font_mono h |}.
End HUD.

Module World.
Record t : Type := {
  name : string;
  surface : pygame.Surface;
  world : option carla.World  (* unset until the connection is made *)
}.

Definition set_world (w : carla.World) (o : t) : t :=
  {| name := name o; surface := surface o; world := Some w |}.
End World.

Module Input.
Record t : Type := {
  name : string;
  mouse_pos : Z * Z
}.

Definition set_mouse_pos (p : Z * Z) (o : t) : t :=
  {| name := name o; mouse_pos := p |}.
End Input.

Inductive object : Type :=
  | hud (o : HUD.t)
  | world (o : World.t)
  | input (o : Input.t).

(** [module.name] *)
Definition name_of (o : object) : string :=
  match o with
  | hud h => HUD.name h
  | world w => World.name w
  | input i => Input.name i
  end.

(** The heap, the registry [module_manager.modules] and the four globals of
    the pan and zoom state. *)
Record state : Type := {
  heap : list (option object);
  modules : list ref;
  offset_x : Z;
  offset_y : Z;
  scale_x : py_num;
  scale_y : py_num
}.

Definition set_heap (f : list (option object) -> list (option object)) (s : state) : state :=
  {| heap := f (heap s); modules := modules s;
     offset_x := offset_x s; offset_y := offset_y s;
     scale_x := scale_x s; scale_y := scale_y s |}.

Definition set_modules (f : list ref -> list ref) (s : state) : state :=
  {| heap := heap s; modules := f (modules s);
     offset_x := offset_x s; offset_y := offset_y s;
     scale_x := scale_x s; scale_y := scale_y s |}.

Definition set_offset_x (v : Z) (s : state) : state :=
  {| heap := heap s; modules := modules s;
     offset_x := v; offset_y := offset_y s;
     scale_x := scale_x s; scale_y := scale_y s |}.

Definition set_offset_y (v : Z) (s : state) : state :=
  {| heap := heap s; modules := modules s;
     offset_x := offset_x s; offset_y := v;
     scale_x := scale_x s; scale_y := scale_y s |}.

Definition set_scale_x (v : py_num) (s : state) : state :=
  {| heap := heap s; modules := modules s;
     offset_x := offset_x s; offset_y := offset_y s;
     scale_x := v; scale_y := scale_y s |}.

Definition set_scale_y (v : py_num) (s : state) : state :=
  {| heap := heap s; modules := modules s;
     offset_x := offset_x s; offset_y := offset_y s;
     scale_x := scale_x s; scale_y := v |}.

(** The state when the module has been loaded: an empty registry and the
    globals of lines 172-175. *)
Definition initial_state : state :=
  {| heap := []; modules := [];
     offset_x := 250; offset_y := 250;
     scale_x := PyInt 1; scale_y := PyInt 1 |}.

(** ** Computations *)

(** How a computation ends: it returns, it raises, or it goes wrong, which
    is what a reference to no object does and no Python program can do. *)
Inductive outcome (A : Type) : Type :=
  | Return (a : A)
  | Raise (e : exn)
  | Wrong.
Arguments Return {A} a.
Arguments Raise {A} e.
Arguments Wrong {A}.

Definition M (A : Type) : Type := state -> outcome A * state * list call.

Definition ret {A} (a : A) : M A := fun s => (Return a, s, []).

Definition bind {A B} (m : M A) (k : A -> M B) : M B := fun s =>
  match m s with
  | (Return a, s1, t1) =>
      match k a s1 with
      | (r, s2, t2) => (r, s2, t1 ++ t2)
      end
  | (Raise e, s1, t1) => (Raise e, s1, t1)
  | (Wrong, s1, t1) => (Wrong, s1, t1)
  end.

Declare Scope py_scope.
Delimit Scope py_scope with py.
Notation "x <- m ;; k" := (bind m (fun x => k))
  (at level 100, m at next level, right associativity) : py_scope.
Notation "m ;; k" := (bind m (fun _ => k))
  (at level 100, right associativity) : py_scope.
Local Open Scope py_scope.

Definition raise {A} (e : exn) : M A := fun s => (Raise e, s, []).
Definition wrong {A} : M A := fun s => (Wrong, s, []).
Definition gets {A} (f : state -> A) : M A := fun s => (Return (f s), s, []).
Definition modify (f : state -> state) : M unit := fun s => (Return tt, f s, []).
Definition emit (c : call) : M unit := fun s => (Return tt, s, [c]).

(** An expression that may raise, as a computation. *)
Definition lift {A} (r : result A) : M A :=
  match r with
  | Ok a => ret a
  | Err e => raise e
  end.

(** [try: body / except <classes>: handler] *)
Definition try_except {A} (body : M A) (classes : exn -> bool) (handler : exn -> M A) : M A :=
  fun s =>
    match body s with
    | (Raise e, s1, t1) =>
        if classes e then
          match handler e s1 with
          | (r, s2, t2) => (r, s2, t1 ++ t2)
          end
        else (Raise e, s1, t1)
    | other => other
    end.

(** [for x in l: body(x)] without [break]. *)
Fixpoint for_each {A} (l : list A) (body : A -> M unit) : M unit :=
  match l with
  | [] => ret tt
  | a :: rest => body a ;; for_each rest body
  end.

(** The object a reference names, if it is still there. *)
Definition object_at (s : state) (r : ref) : option object := mjoin (heap s !! r).

Definition deref (r : ref) : M object := fun s =>
  match object_at s r with
  | Some o => (Return o, s, [])
  | None => (Wrong, s, [])
  end.

Definition store (r : ref) (o : object) : M unit :=
  modify (set_heap (fun h => <[r := Some o]> h)).

Definition alloc (o : object) : M ref := fun s =>
  (Return (length (heap s)), set_heap (fun h => h ++ [Some o]) s, []).

(** [self], inside a method of the class. *)
Definition self_hud (self : ref) : M HUD.t :=
  o <- deref self ;; match o with hud h => ret h | _ => wrong end.
Definition self_world (self : ref) : M World.t :=
  o <- deref self ;; match o with world w => ret w | _ => wrong end.
Definition self_input (self : ref) : M Input.t :=
  o <- deref self ;; match o with input i => ret i | _ => wrong end.

(** Running a computation. *)
Definition outcome_of {A} (m : M A) (s : state) : outcome A := fst (fst (m s)).
Definition state_of {A} (m : M A) (s : state) : state := snd (fst (m s)).
Definition trace_of {A} (m : M A) (s : state) : list call := snd (m s).

(** ** The program *)

Definition MODULE_WORLD : string := "World".
Definition MODULE_HUD : string := "Hud".
Definition MODULE_INPUT : string := "Input".

(** The methods every registered module answers to. *)
Class ModuleMethods : Type := {
  module_tick : inputs -> ref -> pygame.Clock -> M unit;
  module_render : inputs -> ref -> pygame.Surface -> M unit
}.

(** *** ModuleManager (lines 65-88)

    The one instance, [module_manager], keeps its list in the [modules]
    field of the state.  The loops of [tick] and [render] walk the list as
    it is when the pass begins: a module that empties it ([exit_game])
    raises, which ends the pass.  The [k]-th call of a pass is answered by
    the collaborators with [io k]. *)
Module ModuleManager.

Definition register_module (module : ref) : M unit :=
  modify (set_modules (fun l => l ++ [module])).

Definition clear_modules : M unit :=
  modify (set_modules (fun _ => [])).

Section passes.
Context `{ModuleMethods}.

Fixpoint tick_from (io : nat -> inputs) (k : nat) (ms : list ref)
    (clock : pygame.Clock) : M unit :=
  match ms with
  | [] => ret tt
  | module :: rest =>
      emit (tick_call module clock) ;;
      module_tick (io k) module clock ;;
      tick_from io (S k) rest clock
  end.

Definition tick (io : nat -> inputs) (clock : pygame.Clock) : M unit :=
  ms <- gets modules ;;
  tick_from io 0 ms clock.

Fixpoint render_from (io : nat -> inputs) (k : nat) (ms : list ref)
    (display : pygame.Surface) : M unit :=
  match ms with
  | [] => ret tt
  | module :: rest =>
      emit (render_call module display) ;;
      module_render (io k) module display ;;
      render_from io (S k) rest display
  end.

Definition render (io : nat -> inputs) (display : pygame.Surface) : M unit :=
  emit (fill display (0, 0, 0)) ;;
  ms <- gets modules ;;
  render_from io 0 ms display.
End passes.

Fixpoint get_module_in (ms : list ref) (name : string) : M (option ref) :=
  match ms with
  | [] => ret None
  | module :: rest =>
      o <- deref module ;;
      if String.eqb (name_of o) name then ret (Some module)
      else get_module_in rest name
  end.

Definition get_module (name : string) : M (option ref) :=
  ms <- gets modules ;;
  get_module_in ms name.

End ModuleManager.

(** *** exit_game (lines 339-342); [sys.exit()] raises [SystemExit]. *)
Definition exit_game {A} : M A :=
  ModuleManager.clear_modules ;;
  emit pygame_quit ;;
  raise SystemExit.

(** *** ModuleHUD (lines 95-165) *)
Module ModuleHUD.

(** The font name line 106 picks among the installed [fonts]. *)
Definition _init_hud_params (installed : list string) : result string :=
  let fonts := List.filter (fun x => py_in "mono" x) installed in
  let default_font := "ubuntumono" in
  if existsb (String.eqb default_font) fonts then Ok default_font
  else match fonts with
       | f :: _ => Ok f
       | [] => Err IndexError
       end.

(** [__init__], with [_init_data_params]: the parameters of the latter are
    named (height, width) and receive (width, height), so that [dim] is
    (width, height). *)
Definition __init__ (installed : list string) (name : string) (width height : Z) : M ref :=
  mono <- lift (_init_hud_params installed) ;;
  alloc (hud {| HUD.name := name; HUD.dim := (width, height);
                HUD.server_fps := PyInt 0; HUD.frame_number := 0;
                HUD.simulation_time := 0; HUD._show_info := true;
                HUD._info_text := []; HUD._server_clock := 0%nat;
                HUD._font_mono := mono |}).

(** [rate] is what [self._server_clock.get_fps()] answers after the
    tick. *)
Definition on_world_tick (self : ref) (timestamp : carla.Timestamp) (rate : float) : M unit :=
  h <- self_hud self ;;
  store self (hud (HUD.set_server_clock (S (HUD._server_clock h)) h)) ;;
  h <- self_hud self ;;
  store self (hud (HUD.set_server_fps (PyFloat rate) h)).

Definition tick (self : ref) (clock : pygame.Clock) : M unit :=
  h <- self_hud self ;;
  if negb (HUD._show_info h) then ret tt
  else
    server <- lift (format_space_16d (HUD.server_fps h)) ;;
    client <- lift (format_space_16d (PyFloat (pygame.get_fps clock))) ;;
    store self (hud (HUD.set_info_text
      [("Server:  " ++ server ++ " FPS")%string;
       ("Client:  " ++ client ++ " FPS")%string] h)).

(** The loop of lines 139-165.  [_info_text] only ever holds strings
    ([tick] is its one writer), so the branches for lists and tuples are
    never taken. *)
Fixpoint render_items (h : HUD.t) (display : pygame.Surface)
    (items : list string) (v_offset : Z) : M unit :=
  match items with
  | [] => ret tt
  | item :: rest =>
      if v_offset + 18 >? snd (HUD.dim h) then ret tt
      else
        (if String.eqb item "" then ret tt
         else emit (blit display
                      (pygame.text (HUD._font_mono h) item (255, 255, 255))
                      (8, v_offset))) ;;
        render_items h display rest (v_offset + 18)
  end.

Definition render (self : ref) (display : pygame.Surface) : M unit :=
  h <- self_hud self ;;
  if HUD._show_info h then
    let info_surface := pygame.surface (220, snd (HUD.dim h)) in
    emit (set_alpha info_surface 100) ;;
    emit (blit display info_surface (0, 0)) ;;
    render_items h display (HUD._info_text h) 4
  else ret tt.

End ModuleHUD.

(** What [hud_module.on_world_tick(timestamp)] does on the object that
    [get_module] found: the HUD has the method; on a [ModuleWorld] it is a
    static method of two parameters, so one argument is a [TypeError]; a
    [ModuleInput] has no such attribute, and neither has [None]. *)
Definition call_on_world_tick (target : option ref) (timestamp : carla.Timestamp)
    (rate : float) : M unit :=
  match target with
  | None => raise AttributeError
  | Some r =>
      o <- deref r ;;
      match o with
      | hud _ => ModuleHUD.on_world_tick r timestamp rate
      | world _ => raise TypeError
      | input _ => raise AttributeError
      end
  end.

(** *** ModuleWorld (lines 178-240) *)
Module ModuleWorld.

Definition __init__ (server : carla.Server) (name host : string) (port : Z)
    (timeout : float) (surface : pygame.Surface) : M ref :=
  self <- alloc (world {| World.name := name; World.surface := surface;
                          World.world := None |}) ;;
  try_except
    (lift (carla.Client server) ;;
     lift (carla.set_timeout server) ;;
     lift (carla.get_world server) ;;
     w <- self_world self ;;
     store self (world (World.set_world (carla.world_of host port) w)) ;;
     let weak_self := self in
     lift (carla.on_tick server) ;;
     emit (on_tick weak_self))
    is_Exception
    (fun ex =>
       emit (logging_error "Failed connecting to CARLA server") ;;
       exit_game) ;;
  ret self.

Definition tick (self : ref) (clock : pygame.Clock) : M unit := ret tt.

(** The callback the simulator runs on each of its ticks.  [weak_self()]
    is the object of the reference if it is still in the heap. *)
Definition on_world_tick (weak_self : ref) (timestamp : carla.Timestamp)
    (rate : float) : M unit :=
  referent <- gets (fun s => object_at s weak_self) ;;
  match referent with
  | None => ret tt
  | Some self =>
      hud_module <- ModuleManager.get_module MODULE_HUD ;;
      call_on_world_tick hud_module timestamp rate
  end.

Fixpoint waypoint_points (waypoint_list : list carla.Waypoint) : result (list (Z * Z)) :=
  match waypoint_list with
  | [] => Ok []
  | waypoint :: rest =>
      let location := carla.transform_location waypoint in
      match int_of_float (carla.x location), int_of_float (carla.y location) with
      | Ok px, Ok py =>
          match waypoint_points rest with
          | Ok l => Ok ((px, py) :: l)
          | Err e => Err e
          end
      | Err e, _ => Err e
      | _, Err e => Err e
      end
  end.

Definition render_map (self : ref) (display : pygame.Surface) (town_map : carla.Map) : M unit :=
  waypoint_list <- lift (carla.generate_waypoints town_map) ;;
  point_list <- lift (waypoint_points waypoint_list) ;;
  w <- self_world self ;;
  emit (draw_lines (World.surface w) (255, 0, 255) false point_list 1).

Definition render_actors (self : ref) (display : pygame.Surface)
    (actors : list carla.Actor) (filter : string) (color : pygame.color) : M unit :=
  let filtered_actors := List.filter (fun actor => py_in filter (carla.type_id actor)) actors in
  let radius := 2 in
  let width := 1 in
  for_each filtered_actors (fun actor =>
    actor_location <- lift (carla.get_location actor) ;;
    px <- lift (int_of_float (carla.x actor_location)) ;;
    py <- lift (int_of_float (carla.y actor_location)) ;;
    w <- self_world self ;;
    emit (draw_circle (World.surface w) color (px, py) radius width)).

Definition render (io : inputs) (self : ref) (display : pygame.Surface) : M unit :=
  w <- self_world self ;;
  match World.world w with
  | None => raise AttributeError
  | Some _ =>
      actors <- lift (get_actors io) ;;
      town_map <- lift (get_map io) ;;
      emit (fill (World.surface w) (0, 0, 0)) ;;
      render_map self display town_map ;;
      render_actors self display actors "vehicle" (255, 0, 0) ;;
      render_actors self display actors "traffic_light" (0, 255, 0) ;;
      render_actors self display actors "speed_limit" (0, 0, 255) ;;
      sx <- gets scale_x ;;
      wx <- lift (py_mul (PyInt 1280) sx) ;;
      width <- lift (py_int wx) ;;
      sy <- gets scale_y ;;
      hy <- lift (py_mul (PyInt 720) sy) ;;
      height <- lift (py_int hy) ;;
      let result_surface := pygame.scale (World.surface w) (width, height) in
      ox <- gets offset_x ;;
      oy <- gets offset_y ;;
      emit (blit display result_surface (ox, oy))
  end.

End ModuleWorld.

(** *** ModuleInput (lines 247-300) *)
Module ModuleInput.

Definition __init__ (name : string) : M ref :=
  alloc (input {| Input.name := name; Input.mouse_pos := (0, 0) |}).

Definition render (self : ref) (display : pygame.Surface) : M unit := ret tt.

(** The body of the loop of [_parse_events], for one event. *)
Definition handle_event (self : ref) (event : pygame.Event) : M unit :=
  match event with
  | pygame.QUIT => exit_game
  | pygame.KEYUP key =>
      if key =? pygame.K_ESCAPE then exit_game else ret tt
  | pygame.MOUSEBUTTONDOWN button pos =>
      i <- self_input self ;;
      store self (input (Input.set_mouse_pos pos i)) ;;
      (if button =? 4 then
         emit (print "mouse wheel up") ;;
         sx <- gets scale_x ;;
         sx' <- lift (py_add sx (PyFloat 0.1)) ;;
         modify (set_scale_x sx') ;;
         sy <- gets scale_y ;;
         sy' <- lift (py_add sy (PyFloat 0.1)) ;;
         modify (set_scale_y sy')
       else ret tt) ;;
      (if button =? 5 then
         sx <- gets scale_x ;;
         sx' <- lift (py_sub sx (PyFloat 0.1)) ;;
         modify (set_scale_x sx') ;;
         sy <- gets scale_y ;;
         sy' <- lift (py_sub sy (PyFloat 0.1)) ;;
         modify (set_scale_y sy')
       else ret tt)
  | pygame.OTHER => ret tt
  end.

Definition _parse_events (io : inputs) (self : ref) : M unit :=
  for_each (event_get io) (handle_event self).

(** [keys = pygame.key.get_pressed()], read and not used. *)
Definition _parse_keys (io : inputs) (self : ref) : M unit := ret tt.

Definition _parse_mouse (io : inputs) (self : ref) : M unit :=
  if fst (fst (mouse_get_pressed io)) then
    let '(x, y) := mouse_get_pos io in
    i <- self_input self ;;
    ox <- gets offset_x ;;
    modify (set_offset_x (ox + (x - fst (Input.mouse_pos i)))) ;;
    i <- self_input self ;;
    oy <- gets offset_y ;;
    modify (set_offset_y (oy + (y - snd (Input.mouse_pos i)))) ;;
    i <- self_input self ;;
    store self (input (Input.set_mouse_pos (x, y) i))
  else ret tt.

Definition parse_input (io : inputs) (self : ref) : M unit :=
  _parse_events io self ;;
  _parse_keys io self ;;
  _parse_mouse io self.

Definition tick (io : inputs) (self : ref) (clock : pygame.Clock) : M unit :=
  parse_input io self.

End ModuleInput.

(** [module.tick(clock)] and [module.render(display)]: the method of the
    object's class. *)
#[export] Instance class_methods : ModuleMethods := {|
  module_tick io r clock :=
    o <- deref r ;;
    match o with
    | hud _ => ModuleHUD.tick r clock
    | world _ => ModuleWorld.tick r clock
    | input _ => ModuleInput.tick io r clock
    end;
  module_render io r display :=
    o <- deref r ;;
    match o with
    | hud _ => ModuleHUD.render r display
    | world _ => ModuleWorld.render io r display
    | input _ => ModuleInput.render r display
    end
|}.

(** *** The frame loop and main (lines 310-393) *)

(** What one turn of the [while True] loop meets: the loop's clock as this
    frame reads it, and the collaborators' answers to the calls of the tick
    pass and of the render pass. *)
Record frame : Type := {
  clock : pygame.Clock;
  tick_inputs : nat -> inputs;
  render_inputs : nat -> inputs
}.

(** The surroundings of one run: the simulator's answers to the connection,
    the installed fonts, and the frames played.  The loop has no exit of its
    own; [game_loop] returning means that every frame given has been played
    and the loop goes on. *)
Record environment : Type := {
  server : carla.Server;
  installed_fonts : list string;
  frames : list frame
}.

(** [args], as [main] completes it. *)
Record Args : Type := {
  debug : bool;
  host : string;
  port : Z;
  res : string;
  description : string;
  width : Z;
  height : Z
}.

Fixpoint run_frames (fs : list frame) (display : pygame.Surface) : M unit :=
  match fs with
  | [] => ret tt
  | f :: rest =>
      emit (tick_busy_loop 60) ;;
      ModuleManager.tick (tick_inputs f) (clock f) ;;
      ModuleManager.render (render_inputs f) display ;;
      emit flip ;;
      run_frames rest display
  end.

Definition game_loop (env : environment) (args : Args) : M unit :=
  emit pygame_init ;;
  let display := pygame.display (width args, height args) in
  emit (set_mode (width args, height args)) ;;
  emit (set_caption (description args)) ;;
  input_module <- ModuleInput.__init__ MODULE_INPUT ;;
  world_module <- ModuleWorld.__init__ (server env) MODULE_WORLD (host args) (port args)
                    2.0 (pygame.surface (width args, height args)) ;;
  hud_module <- ModuleHUD.__init__ (installed_fonts env) MODULE_HUD (width args) (height args) ;;
  ModuleManager.register_module input_module ;;
  ModuleManager.register_module hud_module ;;
  ModuleManager.register_module world_module ;;
  run_frames (frames env) display.

(** The command line as argparse returns it. *)
Record CommandLine : Type := {
  cli_debug : bool;
  cli_host : string;
  cli_port : Z;
  cli_res : string
}.

Definition default_command_line : CommandLine :=
  {| cli_debug := false; cli_host := "127.0.0.1"; cli_port := 2000;
     cli_res := "1280x720" |}.

Fixpoint ints_of (l : list string) : result (list Z) :=
  match l with
  | [] => Ok []
  | s :: rest =>
      match int_of_str s with
      | Err e => Err e
      | Ok z =>
          match ints_of rest with
          | Ok zs => Ok (z :: zs)
          | Err e => Err e
          end
      end
  end.

Definition str_of_int (z : Z) : string :=
  let sign := if z <? 0 then "-" else "" in
  (sign ++ NilZero.string_of_uint (N.to_uint (Z.abs_N z)))%string.

Definition newline : string := String "010" EmptyString.

Definition __doc__ : string :=
  (newline ++ "Welcome to CARLA No Rendering Mode Visualizer" ++ newline ++
   newline ++ "    ESC         : quit" ++ newline)%string.

Definition main (env : environment) (cli : CommandLine) : M unit :=
  let description := "CARLA No Rendering Mode Visualizer" in
  sizes <- lift (ints_of (py_split "x" (cli_res cli))) ;;
  match sizes with
  | [w; h] =>
      let args := {| debug := cli_debug cli; host := cli_host cli;
                     port := cli_port cli; res := cli_res cli;
                     description := description; width := w; height := h |} in
      emit (logging_info ("listening to server " ++ host args ++ ":" ++
                          str_of_int (port args))%string) ;;
      emit (print __doc__) ;;
      try_except (game_loop env args)
        (exn_eqb KeyboardInterrupt)
        (fun _ => emit (print (newline ++ "Cancelled by user. Bye!")%string))
  | _ => raise ValueError
  end.

(** * The vocabulary of the properties *)

(** The name under which the object of a reference is registered. *)
Definition registered_name (s : state) (r : ref) : option string :=
  name_of <$> object_at s r.

(** Every registered reference names an object: what Python guarantees of
    the elements of a list. *)
Definition registry_sound (s : state) : Prop :=
  Forall (fun r => is_Some (object_at s r)) (modules s).

(** [v == 0] *)
Definition py_is_zero (v : py_num) : bool :=
  match v with
  | PyInt z => z =? 0
  | PyFloat f => PrimFloat.eqb f 0
  end.

(** [v < 0] *)
Definition py_is_negative (v : py_num) : bool :=
  match v with
  | PyInt z => z <? 0
  | PyFloat f => PrimFloat.ltb f 0
  end.

(** The program's state once its input handler exists, and that state after
    the handler has met [n] wheel-down events in one poll. *)
Definition input_ready : state :=
  state_of (ModuleInput.__init__ MODULE_INPUT) initial_state.

Definition wheel_down (n : nat) : state :=
  state_of (for_each (repeat (pygame.MOUSEBUTTONDOWN 5 (0, 0)) n)
              (ModuleInput.handle_event 0%nat)) input_ready.

(** The exact value of a finite float, as a numerator and a positive
    denominator. *)
Definition exact_value (f : float) : option (Z * Z) :=
  match Prim2SF f with
  | S754_zero _ => Some (0, 1)
  | S754_finite s m e =>
      let n := if s then Z.neg m else Z.pos m in
      Some (if 0 <=? e then (n * 2 ^ e, 1) else (n, 2 ^ (- e)))
  | _ => None
  end.

(** The actor answers with a location whose x and y have the integer parts
    [p]. *)
Definition located (actor : carla.Actor) (p : Z * Z) : Prop :=
  exists location,
    carla.get_location actor = Ok location /\
    int_of_float (carla.x location) = Ok (fst p) /\
    int_of_float (carla.y location) = Ok (snd p).

(** The three filters of [render] with their colours, in the order of the
    calls. *)
Definition actor_filters : list (string * pygame.color) :=
  [("vehicle", (255, 0, 0)); ("traffic_light", (0, 255, 0)); ("speed_limit", (0, 0, 255))].

(** The marker [render_actors] draws for an actor whose integer position is
    [p]. *)
Definition marker (w : World.t) (color : pygame.color) (p : Z * Z) : call :=
  draw_circle (World.surface w) color p 2 1.

(** The marks of the passes' dispatches. *)
Definition is_dispatch (c : call) : bool :=
  match c with
  | tick_call _ _ | render_call _ _ => true
  | _ => false
  end.

(** Every HUD of [s] is still a HUD in [s'], with the same server rate and
    the same server clock. *)
Definition keeps_server (s s' : state) : Prop :=
  forall r h, object_at s r = Some (hud h) ->
    exists h', object_at s' r = Some (hud h') /\
               HUD.server_fps h' = HUD.server_fps h /\
               HUD._server_clock h' = HUD._server_clock h.

(** A computation is orderly when, from every state, it leaves the server
    side of every HUD alone and, if it calls [pygame.quit()], ends by raising
    [SystemExit]; when [dispatching] is off it also makes no dispatch. *)
Definition orderly {A} (dispatching : bool) (m : M A) : Prop :=
  forall s,
    (dispatching = false -> Forall (fun c => is_dispatch c = false) (trace_of m s)) /\
    keeps_server s (state_of m s) /\
    (In pygame_quit (trace_of m s) -> outcome_of m s = Raise SystemExit).

(** The dispatches of [tick] and of [render] in a trace, in order. *)
Definition tick_calls (t : list call) : list (ref * pygame.Clock) :=
  flat_map (fun c => match c with tick_call r k => [(r, k)] | _ => [] end) t.

Definition render_calls (t : list call) : list (ref * pygame.Surface) :=
  flat_map (fun c => match c with render_call r d => [(r, d)] | _ => [] end) t.

(** The calls of a trace that are not marks of dispatch: what the modules
    and the registry themselves asked of pygame and carla. *)
Definition own_calls (t : list call) : list call :=
  List.filter (fun c => negb (is_dispatch c)) t.

Arguments own_calls : simpl never.

(** The modules of [ms], each with the number of its call in the pass, the
    first being the [k]-th. *)
Definition numbered (k : nat) (ms : list ref) : list (nat * ref) :=
  combine (seq k (length ms)) ms.

(** The passes in the spec's words: [tick_all(clock)] calls [tick] on every
    registered module in registration order; [render_all(surface)] clears
    the target surface to black, then calls [render] on every module in
    registration order.  Each call is the method of the module's class, run
    on the state the calls before it have left. *)
Definition tick_all (io : nat -> inputs) (clock : pygame.Clock) : M unit :=
  ms <- gets modules ;;
  for_each (numbered 0 ms) (fun km => module_tick (io (fst km)) (snd km) clock).

Definition render_all (io : nat -> inputs) (display : pygame.Surface) : M unit :=
  emit (fill display (0, 0, 0)) ;;
  ms <- gets modules ;;
  for_each (numbered 0 ms) (fun km => module_render (io (fst km)) (snd km) display).

(** The exception of the first of the four connection calls that fails. *)
Definition connection_failure (sv : carla.Server) : option exn :=
  match carla.Client sv, carla.set_timeout sv, carla.get_world sv, carla.on_tick sv with
  | Err e, _, _, _ => Some e
  | Ok _, Err e, _, _ => Some e
  | Ok _, Ok _, Err e, _ => Some e
  | Ok _, Ok _, Ok _, Err e => Some e
  | Ok _, Ok _, Ok _, Ok _ => None
  end.

Definition standing_state (i : Input.t) (w : World.t) (h : HUD.t) (ox oy : Z) (sx sy : py_num) : state :=
  {| heap := [Some (input i); Some (world w); Some (hud h)];
     modules := [0%nat; 2%nat; 1%nat];
     offset_x := ox; offset_y := oy; scale_x := sx; scale_y := sy |}.

(** The answers that make a frame uneventful for the program's three
    modules: no event and no button for the input handler (first of the
    tick pass), a rate the HUD can print, and a fetch that succeeds with
    located actors for the world view (third of the render pass). *)
Definition idle_tick (f : frame) : Prop :=
  event_get (tick_inputs f 0%nat) = [] /\
  fst (fst (mouse_get_pressed (tick_inputs f 0%nat))) = false /\
  exists client, format_space_16d (PyFloat (pygame.get_fps (clock f))) = Ok client.

Definition calm_frame (f : frame) : Prop :=
  idle_tick f /\
  exists actors town_map waypoint_list point_list (pos : carla.Actor -> Z * Z),
    get_actors (render_inputs f 2%nat) = Ok actors /\
    get_map (render_inputs f 2%nat) = Ok town_map /\
    carla.generate_waypoints town_map = Ok waypoint_list /\
    ModuleWorld.waypoint_points waypoint_list = Ok point_list /\
    forall a, In a actors -> located a (pos a).

(** The frame in which the world view's fetch raises [e]. *)
Definition failing_frame (f : frame) (e : exn) : Prop :=
  idle_tick f /\
  (get_actors (render_inputs f 2%nat) = Err e \/
   exists actors, get_actors (render_inputs f 2%nat) = Ok actors /\
                  get_map (render_inputs f 2%nat) = Err e).

(** The HUDs that differ from [h] by their text only. *)
Definition same_but_text (h h' : HUD.t) : Prop :=
  exists text, h' = HUD.set_info_text text h.

(** The three modules as [game_loop] builds them. *)
Definition program_input : Input.t :=
  {| Input.name := MODULE_INPUT; Input.mouse_pos := (0, 0) |}.

Definition program_world (args : Args) : World.t :=
  {| World.name := MODULE_WORLD;
     World.surface := pygame.surface (width args, height args);
     World.world := Some (carla.world_of (host args) (port args)) |}.

Definition program_hud (args : Args) (mono : string) : HUD.t :=
  {| HUD.name := MODULE_HUD; HUD.dim := (width args, height args);
     HUD.server_fps := PyInt 0; HUD.frame_number := 0; HUD.simulation_time := 0;
     HUD._show_info := true; HUD._info_text := []; HUD._server_clock := 0%nat;
     HUD._font_mono := mono |}.

(** The state in which the frame loop starts. *)
Definition loop_entry (args : Args) (mono : string) : state :=
  standing_state program_input (program_world args) (program_hud args mono)
    250 250 (PyInt 1) (PyInt 1).

(** ** Sample surroundings *)

Definition sample_server : carla.Server :=
  {| carla.Client := Ok tt; carla.set_timeout := Ok tt;
     carla.get_world := Ok tt; carla.on_tick := Ok tt |}.

(** A server that cannot be reached: [get_world()] times out. *)
Definition unreachable_server : carla.Server :=
  {| carla.Client := Ok tt; carla.set_timeout := Ok tt;
     carla.get_world := Err RuntimeError; carla.on_tick := Ok tt |}.

Definition actor_at (type_id : string) (x y z : float) : carla.Actor :=
  {| carla.type_id := type_id;
     carla.get_location := Ok {| carla.x := x; carla.y := y; carla.z := z |} |}.

Definition sample_actors : list carla.Actor :=
  [actor_at "vehicle.tesla.model3" 12.7 (-3.2) 5.0;
   actor_at "traffic.traffic_light" 1.5 2.5 0;
   actor_at "traffic.speed_limit.30" (-0.5) 99.9 0;
   actor_at "walker.pedestrian.0001" 4 4 0;
   actor_at "vehicle.speed_limit" 7 8 9].

Definition sample_waypoints : list carla.Waypoint :=
  [{| carla.transform_location := {| carla.x := 0; carla.y := 0; carla.z := 0 |} |};
   {| carla.transform_location := {| carla.x := 10; carla.y := 0; carla.z := 0 |} |};
   {| carla.transform_location := {| carla.x := 10; carla.y := 10; carla.z := 0 |} |}].

Definition sample_map : carla.Map :=
  {| carla.generate_waypoints := Ok sample_waypoints |}.

(** The integer position of an actor that has one. *)
Definition sample_position (a : carla.Actor) : Z * Z :=
  match carla.get_location a with
  | Ok l =>
      match int_of_float (carla.x l), int_of_float (carla.y l) with
      | Ok px, Ok py => (px, py)
      | _, _ => (0, 0)
      end
  | Err _ => (0, 0)
  end.

Definition idle_inputs : inputs :=
  {| event_get := []; mouse_get_pressed := (false, false, false);
     mouse_get_pos := (0, 0);
     get_actors := Ok sample_actors; get_map := Ok sample_map |}.

(** The left button goes down at (100, 100) and is held to (130, 90). *)
Definition dragging_inputs : inputs :=
  {| event_get := [pygame.MOUSEBUTTONDOWN 1 (100, 100)];
     mouse_get_pressed := (true, false, false);
     mouse_get_pos := (130, 90);
     get_actors := Ok sample_actors; get_map := Ok sample_map |}.


Definition sample_clock : pygame.Clock := {| pygame.get_fps := 59.5 |}.

Definition slow_clock : pygame.Clock := {| pygame.get_fps := 30.25 |}.

Definition idle_frame : frame :=
  {| clock := sample_clock; tick_inputs := fun _ => idle_inputs;
     render_inputs := fun _ => idle_inputs |}.


Definition sample_fonts : list string := ["dejavusansmono"; "arial"].

Definition sample_env : environment :=
  {| server := sample_server; installed_fonts := sample_fonts; frames := [idle_frame] |}.


Definition unreachable_env : environment :=
  {| server := unreachable_server; installed_fonts := sample_fonts;
     frames := [idle_frame] |}.

Definition cli_800x600 : CommandLine :=
  {| cli_debug := false; cli_host := "127.0.0.1"; cli_port := 2000;
     cli_res := "800x600" |}.

(** The program after one uneventful frame. *)
Definition running_state : state :=
  Eval vm_compute in state_of (main sample_env default_command_line) initial_state.

(** The program between the construction of the world view (line 320) and
    the registration of the modules (line 325). *)
Definition before_registration : state :=
  Eval vm_compute in
    state_of (bind (ModuleInput.__init__ MODULE_INPUT) (fun _ =>
                ModuleWorld.__init__ sample_server MODULE_WORLD "127.0.0.1" 2000 2.0
                  (pygame.surface (1280, 720)))) initial_state.

Definition sample_timestamp : carla.Timestamp :=
  {| carla.frame_count := 1; carla.elapsed_seconds := 0.05 |}.

Definition default_args : Args :=
  {| debug := false; host := "127.0.0.1"; port := 2000; res := "1280x720";
     description := "CARLA No Rendering Mode Visualizer";
     width := 1280; height := 720 |}.

Definition sample_world : World.t := program_world default_args.

Definition sample_display : pygame.Surface := pygame.display (1280, 720).

(** The HUD of [running_state]. *)
Definition running_hud : HUD.t :=
  HUD.set_info_text ["Server:                 0 FPS"; "Client:                59 FPS"]
    (program_hud default_args "dejavusansmono").

(** [running_state] once the input handler has seen the button go down at
    (100, 100). *)
Definition after_click : state :=
  Eval vm_compute in
    state_of (ModuleInput._parse_events dragging_inputs 0%nat) running_state.

(** ** Vocabulary of the further properties *)

(** The integer point of a waypoint. *)
Definition waypoint_at (waypoint : carla.Waypoint) (p : Z * Z) : Prop :=
  int_of_float (carla.x (carla.transform_location waypoint)) = Ok (fst p) /\
  int_of_float (carla.y (carla.transform_location waypoint)) = Ok (snd p).

(** A waypoint one of whose x and y is a NaN or an infinity. *)
Definition waypoint_off_map (waypoint : carla.Waypoint) : Prop :=
  (exists e, int_of_float (carla.x (carla.transform_location waypoint)) = Err e) \/
  (exists e, int_of_float (carla.y (carla.transform_location waypoint)) = Err e).

(** The texts blitted in a trace, with where they go. *)
Definition text_blits (t : list call) : list (string * (Z * Z)) :=
  flat_map (fun c => match c with
                     | blit _ (pygame.text _ s _) pos => [(s, pos)]
                     | _ => []
                     end) t.

(** The events that shut the program down. *)
Definition is_quit_event (event : pygame.Event) : bool :=
  match event with
  | pygame.QUIT => true
  | pygame.KEYUP key => key =? pygame.K_ESCAPE
  | _ => false
  end.

(** The occurrences of a character in a string. *)
Fixpoint count_char (c : ascii) (s : string) : nat :=
  match s with
  | EmptyString => 0%nat
  | String a rest => ((if Ascii.eqb a c then 1 else 0) + count_char c rest)%nat
  end.

(** A discipline relates the state before a computation, the calls it made
    and the state after it, holds of doing nothing, and is kept by doing one
    thing after another. *)
Class Discipline : Type := {
  step : state -> list call -> state -> Prop;
  step_nil : forall s, step s [] s;
  step_app : forall s1 t1 s2 t2 s3,
    step s1 t1 s2 -> step s2 t2 s3 -> step s1 (t1 ++ t2) s3
}.

(** A computation respects the discipline when every run of it does. *)
Definition respects `{Discipline} {A} (m : M A) : Prop :=
  forall s, step s (trace_of m s) (state_of m s).

(** The calls of the set-up of [game_loop] and of the connection. *)
Definition is_setup (c : call) : bool :=
  match c with
  | pygame_init | set_mode _ | set_caption _ | on_tick _ => true
  | _ => false
  end.

(** No set-up call is made, and the registry is emptied if [pygame.quit()]
    is called and otherwise left as it is. *)
Definition registry_step (s : state) (t : list call) (s' : state) : Prop :=
  Forall (fun c => is_setup c = false) t /\
  ((~ In pygame_quit t /\ modules s' = modules s) \/
   (In pygame_quit t /\ modules s' = [])).

(** The simulator's ticks, each with the rate the HUD's server clock reports
    after it, delivered one after the other. *)
Definition server_ticks (weak_self : ref) (ticks : list (carla.Timestamp * float)) : M unit :=
  for_each ticks (fun tick => ModuleWorld.on_world_tick weak_self (fst tick) (snd tick)).

(** Successive ticks of the input handler, each with its own answers. *)
Definition input_ticks (self : ref) (clock : pygame.Clock) (polls : list inputs) : M unit :=
  for_each polls (fun io => ModuleInput.tick io self clock).

(** ** Further sample surroundings *)

(** No installed font has a name with 'mono' in it. *)
Definition fontless_env : environment :=
  {| server := sample_server; installed_fonts := ["arial"; "timesnewroman"];
     frames := [idle_frame] |}.

(** The wheel is turned up, the window is closed, the wheel is turned down. *)
Definition closing_inputs : inputs :=
  {| event_get := [pygame.MOUSEBUTTONDOWN 4 (3, 3); pygame.QUIT;
                   pygame.MOUSEBUTTONDOWN 5 (3, 3)];
     mouse_get_pressed := (true, false, false);
     mouse_get_pos := (3, 3);
     get_actors := Ok sample_actors; get_map := Ok sample_map |}.

(** Escape is released. *)
Definition escape_inputs : inputs :=
  {| event_get := [pygame.KEYUP pygame.K_ESCAPE; pygame.OTHER];
     mouse_get_pressed := (false, false, false);
     mouse_get_pos := (0, 0);
     get_actors := Ok sample_actors; get_map := Ok sample_map |}.

Definition escape_frame : frame :=
  {| clock := sample_clock; tick_inputs := fun _ => escape_inputs;
     render_inputs := fun _ => idle_inputs |}.

Definition escape_env : environment :=
  {| server := sample_server; installed_fonts := sample_fonts;
     frames := [idle_frame; idle_frame; escape_frame; idle_frame] |}.

(** Ctrl-C arrives while the world view asks for the map. *)
Definition interrupted_inputs : inputs :=
  {| event_get := []; mouse_get_pressed := (false, false, false);
     mouse_get_pos := (0, 0);
     get_actors := Ok sample_actors; get_map := Err KeyboardInterrupt |}.

Definition interrupted_frame : frame :=
  {| clock := sample_clock; tick_inputs := fun _ => idle_inputs;
     render_inputs := fun _ => interrupted_inputs |}.

Definition interrupted_env : environment :=
  {| server := sample_server; installed_fonts := sample_fonts;
     frames := [idle_frame; interrupted_frame; idle_frame] |}.

(** Ctrl-C arrives while [get_world()] waits for the simulator. *)
Definition interrupted_server : carla.Server :=
  {| carla.Client := Ok tt; carla.set_timeout := Ok tt;
     carla.get_world := Err KeyboardInterrupt; carla.on_tick := Ok tt |}.

Definition interrupted_connection_env : environment :=
  {| server := interrupted_server; installed_fonts := sample_fonts;
     frames := [idle_frame] |}.

(** [--res 1280]. *)
Definition cli_no_height : CommandLine :=
  {| cli_debug := false; cli_host := "127.0.0.1"; cli_port := 2000;
     cli_res := "1280" |}.

(** The wheel is turned up twice and down once. *)
Definition zooming_inputs : inputs :=
  {| event_get := [pygame.MOUSEBUTTONDOWN 4 (3, 3); pygame.MOUSEBUTTONDOWN 4 (3, 3);
                   pygame.MOUSEBUTTONDOWN 5 (3, 3)];
     mouse_get_pressed := (false, false, false);
     mouse_get_pos := (3, 3);
     get_actors := Ok sample_actors; get_map := Ok sample_map |}.

Definition zooming_frame : frame :=
  {| clock := sample_clock; tick_inputs := fun _ => zooming_inputs;
     render_inputs := fun _ => idle_inputs |}.

Definition zooming_env : environment :=
  {| server := sample_server; installed_fonts := sample_fonts;
     frames := [idle_frame; zooming_frame; zooming_frame] |}.

(** The left button is held with the pointer at [pos], and no event is
    queued. *)
Definition held_at (pos : Z * Z) : inputs :=
  {| event_get := []; mouse_get_pressed := (true, false, false);
     mouse_get_pos := pos;
     get_actors := Ok sample_actors; get_map := Ok sample_map |}.

(** * Properties *)

(** ** Running computations *)

Lemma bind_Return {A B} (m : M A) (k : A -> M B) s a s1 t1 :
  m s = (Return a, s1, t1) ->
  bind m k s = (fst (fst (k a s1)), snd (fst (k a s1)), t1 ++ snd (k a s1)).
Proof.
  intros E. unfold bind. rewrite E. destruct (k a s1) as [[r s2] t2]. reflexivity.
Qed.

Lemma bind_Raise {A B} (m : M A) (k : A -> M B) s e s1 t1 :
  m s = (Raise e, s1, t1) -> bind m k s = (Raise e, s1, t1).
Proof. intros E. unfold bind. rewrite E. reflexivity. Qed.

Lemma bind_Wrong {A B} (m : M A) (k : A -> M B) s s1 t1 :
  m s = (Wrong, s1, t1) -> bind m k s = (Wrong, s1, t1).
Proof. intros E. unfold bind. rewrite E. reflexivity. Qed.

Lemma bind_pure {A B} (m : M A) (k : A -> M B) s a :
  m s = (Return a, s, []) -> bind m k s = k a s.
Proof.
  intros E. rewrite (bind_Return _ _ _ _ _ _ E).
  destruct (k a s) as [[r s2] t2]. reflexivity.
Qed.

Lemma deref_object s r o :
  object_at s r = Some o -> deref r s = (Return o, s, []).
Proof. intros E. unfold deref. rewrite E. reflexivity. Qed.

Lemma deref_nothing s r :
  object_at s r = None -> deref r s = (Wrong, s, []).
Proof. intros E. unfold deref. rewrite E. reflexivity. Qed.

Lemma object_at_alloc s o :
  object_at (set_heap (fun h => h ++ [Some o]) s) (length (heap s)) = Some o.
Proof.
  unfold object_at. simpl. rewrite lookup_app_r by lia.
  rewrite Nat.sub_diag. reflexivity.
Qed.

Lemma object_at_store_eq s r o o' :
  object_at s r = Some o ->
  object_at (set_heap (fun h => <[r := Some o']> h) s) r = Some o'.
Proof.
  unfold object_at. simpl. intros E.
  destruct (heap s !! r) as [c|] eqn:L; [|discriminate].
  rewrite list_lookup_insert_eq; [reflexivity|].
  apply lookup_lt_Some in L. exact L.
Qed.

Lemma object_at_store_ne s r r' o' :
  r <> r' ->
  object_at (set_heap (fun h => <[r := Some o']> h) s) r' = object_at s r'.
Proof.
  unfold object_at. simpl. intros N. rewrite list_lookup_insert_ne by exact N.
  reflexivity.
Qed.

(** ** The registry lookup *)

Lemma get_module_in_spec (name : string) (s : state) (ms : list ref) :
  Forall (fun r => is_Some (object_at s r)) ms ->
  (exists before r after,
      ms = before ++ r :: after /\
      registered_name s r = Some name /\
      Forall (fun r' => registered_name s r' <> Some name) before /\
      ModuleManager.get_module_in ms name s = (Return (Some r), s, []))
  \/ (Forall (fun r' => registered_name s r' <> Some name) ms /\
      ModuleManager.get_module_in ms name s = (Return None, s, [])).
Proof.
  induction ms as [|r ms IH]; intros Hs.
  - right. split; [constructor | reflexivity].
  - inversion Hs as [|? ? [o Ho] Hrest]; subst.
    simpl. rewrite (bind_pure _ _ _ _ (deref_object _ _ _ Ho)).
    destruct (String.eqb (name_of o) name) eqn:E.
    + left. exists [], r, ms. apply String.eqb_eq in E.
      repeat split; try constructor.
      unfold registered_name. rewrite Ho. simpl. congruence.
    + apply String.eqb_neq in E.
      assert (Hr : registered_name s r <> Some name).
      { unfold registered_name. rewrite Ho. simpl. congruence. }
      destruct (IH Hrest) as [(before & r' & after & -> & Hn & Hb & Hg) | [Hall Hg]].
      * left. exists (r :: before), r', after. repeat split; auto.
      * right. split; auto.
Qed.

(** C10.  [get_module(name)] returns the first module, in registration
    order, whose name is [name], and [None] when no registered module has
    that name; it raises nothing and changes nothing. *)
Theorem get_module_first_match (name : string) (s : state) :
  registry_sound s ->
  (exists before r after,
      modules s = before ++ r :: after /\
      registered_name s r = Some name /\
      Forall (fun r' => registered_name s r' <> Some name) before /\
      ModuleManager.get_module name s = (Return (Some r), s, []))
  \/ (Forall (fun r' => registered_name s r' <> Some name) (modules s) /\
      ModuleManager.get_module name s = (Return None, s, [])).
Proof.
  intros Hs. unfold ModuleManager.get_module.
  assert (E : forall k : list ref -> M (option ref),
             bind (gets modules) k s = k (modules s) s).
  { intros k. apply bind_pure. reflexivity. }
  rewrite E. apply get_module_in_spec. exact Hs.
Qed.

(** ** The input handler *)

Lemma exit_game_run {A} s :
  @exit_game A s = (Raise SystemExit, set_modules (fun _ => []) s, [pygame_quit]).
Proof. reflexivity. Qed.

(** Handling an event leaves the pan offsets alone. *)
Lemma handle_event_offsets self event s :
  offset_x (state_of (ModuleInput.handle_event self event) s) = offset_x s /\
  offset_y (state_of (ModuleInput.handle_event self event) s) = offset_y s.
Proof.
  unfold state_of. destruct event as [|key|button pos|]; simpl.
  - split; reflexivity.
  - destruct (key =? pygame.K_ESCAPE); split; reflexivity.
  - unfold self_input, bind, deref, store, modify, gets, lift, ret, wrong, raise, emit.
    repeat (case_match; simplify_eq; simpl in *); split; reflexivity.
  - split; reflexivity.
Qed.

Lemma parse_events_offsets self events s :
  offset_x (state_of (for_each events (ModuleInput.handle_event self)) s) = offset_x s /\
  offset_y (state_of (for_each events (ModuleInput.handle_event self)) s) = offset_y s.
Proof.
  revert s. induction events as [|event rest IH]; intros s.
  - split; reflexivity.
  - pose proof (handle_event_offsets self event s) as [Hx Hy].
    unfold state_of in *. simpl. unfold bind.
    destruct (ModuleInput.handle_event self event s) as [[[[]|e|] s1] t1]; simpl in *;
      try (split; assumption).
    destruct (IH s1) as [Hx1 Hy1].
    destruct (for_each rest (ModuleInput.handle_event self) s1) as [[r2 s2] t2]; simpl in *.
    split; congruence.
Qed.

(** The poll of the mouse while the left button is held. *)
Lemma parse_mouse_held io self s i :
  fst (fst (mouse_get_pressed io)) = true ->
  object_at s self = Some (input i) ->
  ModuleInput._parse_mouse io self s =
    (Return tt,
     set_heap (fun h => <[self := Some (input (Input.set_mouse_pos (mouse_get_pos io) i))]> h)
       (set_offset_y (offset_y s + (snd (mouse_get_pos io) - snd (Input.mouse_pos i)))
          (set_offset_x (offset_x s + (fst (mouse_get_pos io) - fst (Input.mouse_pos i))) s)),
     []).
Proof.
  intros Hheld Hself. unfold ModuleInput._parse_mouse. rewrite Hheld.
  destruct (mouse_get_pos io) as [x y].
  unfold self_input, bind, deref, store, modify, gets, ret. simpl.
  unfold object_at in *. simpl. repeat (rewrite Hself; simpl). reflexivity.
Qed.

(** C5.  While the left button is held, the poll of the mouse adds to each
    pan offset the difference between the pointer's position and the last
    known one, whatever the integers, and then records the pointer's
    position as the last known one; a tick of the input handler whose events
    did not shut the program down does exactly that to the offsets it
    started with. *)
Theorem drag_adds_pointer_delta (io : inputs) (self : ref) (clock : pygame.Clock)
    (s : state) (i : Input.t) :
  fst (fst (mouse_get_pressed io)) = true ->
  object_at s self = Some (input i) ->
  (let s' := state_of (ModuleInput._parse_mouse io self) s in
   outcome_of (ModuleInput._parse_mouse io self) s = Return tt /\
   offset_x s' = offset_x s + (fst (mouse_get_pos io) - fst (Input.mouse_pos i)) /\
   offset_y s' = offset_y s + (snd (mouse_get_pos io) - snd (Input.mouse_pos i)) /\
   object_at s' self = Some (input (Input.set_mouse_pos (mouse_get_pos io) i)))
  /\
  (forall s0 t0,
     ModuleInput._parse_events io self s0 = (Return tt, s, t0) ->
     let s' := state_of (ModuleInput.tick io self clock) s0 in
     outcome_of (ModuleInput.tick io self clock) s0 = Return tt /\
     offset_x s' = offset_x s0 + (fst (mouse_get_pos io) - fst (Input.mouse_pos i)) /\
     offset_y s' = offset_y s0 + (snd (mouse_get_pos io) - snd (Input.mouse_pos i)) /\
     object_at s' self = Some (input (Input.set_mouse_pos (mouse_get_pos io) i))).
Proof.
  intros Hheld Hself.
  pose proof (parse_mouse_held io self s i Hheld Hself) as Hm.
  assert (Hstore : object_at
            (set_heap (fun h => <[self := Some (input (Input.set_mouse_pos (mouse_get_pos io) i))]> h)
               (set_offset_y (offset_y s + (snd (mouse_get_pos io) - snd (Input.mouse_pos i)))
                  (set_offset_x (offset_x s + (fst (mouse_get_pos io) - fst (Input.mouse_pos i))) s)))
            self = Some (input (Input.set_mouse_pos (mouse_get_pos io) i))).
  { apply object_at_store_eq with (o := input i). exact Hself. }
  split.
  - unfold state_of, outcome_of. rewrite Hm. simpl. repeat split; auto.
  - intros s0 t0 Hev.
    pose proof (parse_events_offsets self (event_get io) s0) as [Hx Hy].
    unfold ModuleInput._parse_events in Hev. unfold state_of in Hx, Hy.
    rewrite Hev in Hx, Hy. simpl in Hx, Hy.
    unfold state_of, outcome_of, ModuleInput.tick, ModuleInput.parse_input,
      ModuleInput._parse_events, ModuleInput._parse_keys.
    rewrite (bind_Return _ _ _ _ _ _ Hev).
    assert (Hk : forall k : unit -> M unit, bind (ret tt) k s = k tt s).
    { intros k. apply bind_pure. reflexivity. }
    rewrite Hk, Hm. simpl. rewrite <- Hx, <- Hy. repeat split; auto.
Qed.

Lemma handle_wheel_up self pos s i sx' sy' :
  object_at s self = Some (input i) ->
  py_add (scale_x s) (PyFloat 0.1) = Ok sx' ->
  py_add (scale_y s) (PyFloat 0.1) = Ok sy' ->
  ModuleInput.handle_event self (pygame.MOUSEBUTTONDOWN 4 pos) s =
    (Return tt,
     set_scale_y sy' (set_scale_x sx'
       (set_heap (fun h => <[self := Some (input (Input.set_mouse_pos pos i))]> h) s)),
     [print "mouse wheel up"]).
Proof.
  intros Hself Hx Hy. unfold ModuleInput.handle_event.
  change (4 =? 4) with true. change (4 =? 5) with false. cbv iota.
  unfold self_input, bind, deref, store, modify, gets, lift, ret, emit.
  rewrite Hself. simpl. rewrite Hx. simpl. rewrite Hy. reflexivity.
Qed.

Lemma handle_wheel_down self pos s i sx' sy' :
  object_at s self = Some (input i) ->
  py_sub (scale_x s) (PyFloat 0.1) = Ok sx' ->
  py_sub (scale_y s) (PyFloat 0.1) = Ok sy' ->
  ModuleInput.handle_event self (pygame.MOUSEBUTTONDOWN 5 pos) s =
    (Return tt,
     set_scale_y sy' (set_scale_x sx'
       (set_heap (fun h => <[self := Some (input (Input.set_mouse_pos pos i))]> h) s)),
     []).
Proof.
  intros Hself Hx Hy. unfold ModuleInput.handle_event.
  change (5 =? 4) with false. change (5 =? 5) with true. cbv iota.
  unfold self_input, bind, deref, store, modify, gets, lift, ret, emit.
  rewrite Hself. simpl. rewrite Hx. simpl. rewrite Hy. reflexivity.
Qed.

(** C4, as the code has it.  A wheel-up event replaces each zoom factor by
    its sum with the double 0.1, a wheel-down event by its difference with
    it, in Python's arithmetic (binary64 once a float is involved); on a
    float this is the rounded sum or difference whatever the float, so that
    nothing bounds the factors.  From the initial factor 1, ten wheel-down
    events leave a positive factor and the eleventh a negative one. *)
Theorem wheel_steps_zoom_in_float_arithmetic :
  (forall self pos s i sx' sy',
     object_at s self = Some (input i) ->
     py_add (scale_x s) (PyFloat 0.1) = Ok sx' ->
     py_add (scale_y s) (PyFloat 0.1) = Ok sy' ->
     let run := ModuleInput.handle_event self (pygame.MOUSEBUTTONDOWN 4 pos) in
     outcome_of run s = Return tt /\
     scale_x (state_of run s) = sx' /\ scale_y (state_of run s) = sy') /\
  (forall self pos s i sx' sy',
     object_at s self = Some (input i) ->
     py_sub (scale_x s) (PyFloat 0.1) = Ok sx' ->
     py_sub (scale_y s) (PyFloat 0.1) = Ok sy' ->
     let run := ModuleInput.handle_event self (pygame.MOUSEBUTTONDOWN 5 pos) in
     outcome_of run s = Return tt /\
     scale_x (state_of run s) = sx' /\ scale_y (state_of run s) = sy') /\
  (forall f : float,
     py_add (PyFloat f) (PyFloat 0.1) = Ok (PyFloat (f + 0.1)) /\
     py_sub (PyFloat f) (PyFloat 0.1) = Ok (PyFloat (f - 0.1))) /\
  py_add (PyInt 1) (PyFloat 0.1) = Ok (PyFloat 1.1) /\
  py_sub (PyInt 1) (PyFloat 0.1) = Ok (PyFloat 0.9) /\
  (exists f, scale_x (wheel_down 10) = PyFloat f /\ scale_y (wheel_down 10) = PyFloat f /\
             PrimFloat.ltb 0 f = true) /\
  (exists f, scale_x (wheel_down 11) = PyFloat f /\ scale_y (wheel_down 11) = PyFloat f /\
             PrimFloat.ltb f 0 = true).
Proof.
  split; [|split; [|split; [|split; [|split; [|split]]]]].
  - intros self pos s i sx' sy' Hself Hx Hy run. subst run.
    unfold outcome_of, state_of.
    rewrite (handle_wheel_up self pos s i sx' sy' Hself Hx Hy). auto.
  - intros self pos s i sx' sy' Hself Hx Hy run. subst run.
    unfold outcome_of, state_of.
    rewrite (handle_wheel_down self pos s i sx' sy' Hself Hx Hy). auto.
  - intros f. split; reflexivity.
  - vm_compute. reflexivity.
  - vm_compute. reflexivity.
  - eexists. vm_compute. repeat split; reflexivity.
  - eexists. vm_compute. repeat split; reflexivity.
Qed.

(** Against C4 as the spec words it: the steps are not exact tenths, and the
    factors never equal zero on the way down.  One wheel-down from 1 and two
    more do not give the double 0.7; ten give 2^-53 * 1.25, not zero; and
    none of the first thousand gives zero. *)
Lemma wheel_down_never_reaches_zero :
  scale_x (wheel_down 3) <> PyFloat 0.7 /\
  py_is_zero (scale_x (wheel_down 10)) = false /\
  py_is_negative (scale_x (wheel_down 11)) = true /\
  forallb (fun n => negb (py_is_zero (scale_x (wheel_down n)))) (seq 0 1000) = true.
Proof.
  split; [|split; [|split]].
  - vm_compute. intros H. discriminate H.
  - vm_compute. reflexivity.
  - vm_compute. reflexivity.
  - vm_compute. reflexivity.
Qed.

(** ** The world view's drawing *)

(** [int(f)] is the quotient of the exact value's numerator by its
    denominator, rounded toward zero. *)
Lemma int_of_float_quot (f : float) :
  int_of_float f =
    match exact_value f with
    | Some (n, d) => Ok (Z.quot n d)
    | None => match Prim2SF f with S754_nan => Err ValueError | _ => Err OverflowError end
    end.
Proof.
  unfold int_of_float, exact_value, trunc_magnitude.
  destruct (Prim2SF f) as [s|s| |s m e]; try reflexivity.
  destruct (0 <=? e) eqn:E.
  - rewrite Z.quot_1_r. destruct s; [|reflexivity].
    f_equal. rewrite <- Z.mul_opp_l. reflexivity.
  - apply Z.leb_gt in E.
    assert (Hd : 0 < 2 ^ (- e)) by (apply Z.pow_pos_nonneg; lia).
    destruct s.
    + f_equal. change (Z.neg m) with (- Z.pos m). rewrite Z.quot_opp_l by lia.
      rewrite Z.quot_div_nonneg by lia. reflexivity.
    + f_equal. rewrite Z.quot_div_nonneg by lia. reflexivity.
Qed.

Lemma prefix_append (needle hay : string) :
  String.prefix needle hay = true <-> exists after, hay = (needle ++ after)%string.
Proof.
  revert hay. induction needle as [|a needle IH]; intros hay.
  - split; [intros _; exists hay; reflexivity | intros _; destruct hay; reflexivity].
  - destruct hay as [|c hay]; simpl.
    + split; [discriminate | intros [after E]; discriminate E].
    + destruct (ascii_dec a c) as [->|N].
      * rewrite IH. split; intros [after E]; exists after; congruence.
      * split; [discriminate | intros [after E]; congruence].
Qed.

Lemma py_in_unfold (needle hay : string) :
  py_in needle hay =
    (String.prefix needle hay ||
     match hay with
     | EmptyString => false
     | String _ rest => py_in needle rest
     end).
Proof. destruct hay; reflexivity. Qed.

Lemma py_in_substring (needle hay : string) :
  py_in needle hay = true <->
  exists before after, hay = (before ++ needle ++ after)%string.
Proof.
  induction hay as [|c hay IH]; rewrite py_in_unfold, orb_true_iff, prefix_append.
  - split.
    + intros [[after E] | F]; [|discriminate]. exists "", after. exact E.
    + intros (before & after & E). left. destruct before; [|discriminate].
      exists after. exact E.
  - rewrite IH. split.
    + intros [[after E] | (before & after & ->)].
      * exists "", after. exact E.
      * exists (String c before), after. reflexivity.
    + intros (before & after & E). destruct before as [|b before].
      * left. exists after. exact E.
      * right. simpl in E. exists before, after. congruence.
Qed.

(** Two traces that differ by how their appends are nested. *)
Ltac trace_eq :=
  simpl; rewrite ?app_nil_r, <- ?app_assoc; simpl; reflexivity.

Lemma render_actors_run self display actors filter color s w (pos : carla.Actor -> Z * Z) :
  object_at s self = Some (world w) ->
  (forall a, In a actors -> located a (pos a)) ->
  ModuleWorld.render_actors self display actors filter color s =
    (Return tt, s,
     map (fun a => marker w color (pos a))
       (List.filter (fun a => py_in filter (carla.type_id a)) actors)).
Proof.
  intros Hself Hloc. unfold ModuleWorld.render_actors.
  induction actors as [|a rest IH]; [reflexivity|].
  simpl List.filter. destruct (py_in filter (carla.type_id a)) eqn:Hin.
  - destruct (Hloc a (or_introl eq_refl)) as (location & Hl & Hx & Hy).
    simpl for_each. simpl map.
    erewrite bind_Return; cycle 1.
    { unfold self_world, bind, deref, lift, ret, emit.
      rewrite Hl, Hx, Hy, Hself. reflexivity. }
    rewrite IH by (intros b Hb; apply Hloc; right; exact Hb).
    simpl. unfold marker. destruct (pos a). reflexivity.
  - apply IH. intros b Hb. apply Hloc. right. exact Hb.
Qed.

Lemma filter_map_flat_map {A B} (p : A -> bool) (f : A -> B) (l : list A) :
  map f (List.filter p l) = flat_map (fun a => if p a then [f a] else []) l.
Proof.
  induction l as [|a l IH]; [reflexivity|]. simpl.
  destruct (p a); simpl; rewrite IH; reflexivity.
Qed.

(** What [render] draws before it scales and blits, and how it ends. *)
Lemma world_render_run io self display s w cw actors town_map waypoint_list point_list
    (pos : carla.Actor -> Z * Z) :
  object_at s self = Some (world w) ->
  World.world w = Some cw ->
  get_actors io = Ok actors ->
  get_map io = Ok town_map ->
  carla.generate_waypoints town_map = Ok waypoint_list ->
  ModuleWorld.waypoint_points waypoint_list = Ok point_list ->
  (forall a, In a actors -> located a (pos a)) ->
  let drawing :=
    [fill (World.surface w) (0, 0, 0);
     draw_lines (World.surface w) (255, 0, 255) false point_list 1] ++
    flat_map (fun fc : string * pygame.color =>
       flat_map (fun a => if py_in (fst fc) (carla.type_id a)
                          then [marker w (snd fc) (pos a)] else []) actors)
      actor_filters in
  ModuleWorld.render io self display s =
    match py_mul (PyInt 1280) (scale_x s) with
    | Err e => (Raise e, s, drawing)
    | Ok vx =>
        match py_int vx with
        | Err e => (Raise e, s, drawing)
        | Ok width =>
            match py_mul (PyInt 720) (scale_y s) with
            | Err e => (Raise e, s, drawing)
            | Ok vy =>
                match py_int vy with
                | Err e => (Raise e, s, drawing)
                | Ok height =>
                    (Return tt, s,
                     drawing ++
                     [blit display (pygame.scale (World.surface w) (width, height))
                        (offset_x s, offset_y s)])
                end
            end
        end
    end.
Proof.
  intros Hself Hworld Hactors Hmap Hway Hpoints Hloc drawing.
  unfold ModuleWorld.render.
  rewrite (bind_pure _ _ s w) by (unfold self_world, bind, deref, ret; rewrite Hself; reflexivity).
  rewrite Hworld, Hactors, Hmap.
  rewrite (bind_pure _ _ s actors) by reflexivity.
  rewrite (bind_pure _ _ s town_map) by reflexivity.
  rewrite (bind_Return _ _ s tt s [fill (World.surface w) (0, 0, 0)]) by reflexivity.
  rewrite (bind_Return _ _ s tt s [draw_lines (World.surface w) (255, 0, 255) false point_list 1]);
    cycle 1.
  { unfold ModuleWorld.render_map, self_world, bind, deref, lift, ret, emit.
    rewrite Hway, Hpoints, Hself. reflexivity. }
  rewrite (bind_Return _ _ s tt s _ (render_actors_run self display actors "vehicle" _ s w pos Hself Hloc)).
  rewrite (bind_Return _ _ s tt s _ (render_actors_run self display actors "traffic_light" _ s w pos Hself Hloc)).
  rewrite (bind_Return _ _ s tt s _ (render_actors_run self display actors "speed_limit" _ s w pos Hself Hloc)).
  rewrite !filter_map_flat_map.
  subst drawing. unfold actor_filters. simpl flat_map. rewrite app_nil_r.
  unfold bind, gets, lift, ret, raise, emit.
  destruct (py_mul (PyInt 1280) (scale_x s)) as [vx|e]; simpl;
    [|trace_eq].
  destruct (py_int vx) as [width|e]; simpl;
    [|trace_eq].
  destruct (py_mul (PyInt 720) (scale_y s)) as [vy|e]; simpl;
    [|trace_eq].
  destruct (py_int vy) as [height|e]; simpl;
    [|trace_eq].
  trace_eq.
Qed.

(** C2.  With the actor list fetched and every actor located, [render]
    draws, after the map and before the blit, one circle for each filter of
    'vehicle' (red), 'traffic_light' (green), 'speed_limit' (blue), in that
    order, and each actor of the list whose [type_id] contains the filter's
    string: an actor is drawn once per filter it matches, in that filter's
    colour, and not at all for a filter it does not match.  Matching is
    substring containment. *)
Theorem actors_drawn_once_per_matching_filter io self display s w cw actors town_map
    waypoint_list point_list (pos : carla.Actor -> Z * Z) :
  object_at s self = Some (world w) ->
  World.world w = Some cw ->
  get_actors io = Ok actors ->
  get_map io = Ok town_map ->
  carla.generate_waypoints town_map = Ok waypoint_list ->
  ModuleWorld.waypoint_points waypoint_list = Ok point_list ->
  (forall a, In a actors -> located a (pos a)) ->
  (exists tail,
     trace_of (ModuleWorld.render io self display) s =
       [fill (World.surface w) (0, 0, 0);
        draw_lines (World.surface w) (255, 0, 255) false point_list 1] ++
       flat_map (fun fc : string * pygame.color =>
          flat_map (fun a => if py_in (fst fc) (carla.type_id a)
                             then [draw_circle (World.surface w) (snd fc) (pos a) 2 1]
                             else []) actors)
         [("vehicle", (255, 0, 0)); ("traffic_light", (0, 255, 0));
          ("speed_limit", (0, 0, 255))] ++
       tail /\
     (tail = [] \/
      exists size, tail = [blit display (pygame.scale (World.surface w) size)
                             (offset_x s, offset_y s)])) /\
  (forall filter a,
     py_in filter (carla.type_id a) = true <->
     exists before after, carla.type_id a = (before ++ filter ++ after)%string).
Proof.
  intros Hself Hworld Hactors Hmap Hway Hpoints Hloc. split.
  - unfold trace_of.
    rewrite (world_render_run io self display s w cw actors town_map waypoint_list
               point_list pos Hself Hworld Hactors Hmap Hway Hpoints Hloc).
    unfold actor_filters, marker.
    destruct (py_mul (PyInt 1280) (scale_x s)) as [vx|e];
      [|exists []; split; [trace_eq | left; reflexivity]].
    destruct (py_int vx) as [width|e];
      [|exists []; split; [trace_eq | left; reflexivity]].
    destruct (py_mul (PyInt 720) (scale_y s)) as [vy|e];
      [|exists []; split; [trace_eq | left; reflexivity]].
    destruct (py_int vy) as [height|e];
      [|exists []; split; [trace_eq | left; reflexivity]].
    exists [blit display (pygame.scale (World.surface w) (width, height))
              (offset_x s, offset_y s)].
    split; [trace_eq | right; eexists; reflexivity].
  - intros filter a. apply py_in_substring.
Qed.

Lemma int_of_float_exact f z :
  int_of_float f = Ok z ->
  exists n d, exact_value f = Some (n, d) /\ z = Z.quot n d.
Proof.
  rewrite int_of_float_quot. destruct (exact_value f) as [[n d]|].
  - intros E. injection E as <-. exists n, d. split; reflexivity.
  - destruct (Prim2SF f); discriminate.
Qed.

(** C3.  The marker of an actor is drawn at the integer parts of its
    location's x and y, each the exact value of the float rounded toward
    zero; z plays no part.  An actor at (12.7, -3.2, z) is drawn at
    (12, -3) whatever z. *)
Theorem marker_at_truncated_position self display actors filter color s w
    (pos : carla.Actor -> Z * Z) :
  object_at s self = Some (world w) ->
  (forall a, In a actors -> located a (pos a)) ->
  ModuleWorld.render_actors self display actors filter color s =
    (Return tt, s,
     map (fun a => draw_circle (World.surface w) color (pos a) 2 1)
       (List.filter (fun a => py_in filter (carla.type_id a)) actors)) /\
  (forall a, In a actors ->
     exists location nx dx ny dy,
       carla.get_location a = Ok location /\
       exact_value (carla.x location) = Some (nx, dx) /\
       exact_value (carla.y location) = Some (ny, dy) /\
       pos a = (Z.quot nx dx, Z.quot ny dy)) /\
  (forall type_id z,
     located {| carla.type_id := type_id;
                carla.get_location :=
                  Ok {| carla.x := 12.7; carla.y := -3.2; carla.z := z |} |}
             (12, -3)).
Proof.
  intros Hself Hloc. split; [|split].
  - apply (render_actors_run self display actors filter color s w pos Hself Hloc).
  - intros a Ha. destruct (Hloc a Ha) as (location & Hl & Hx & Hy).
    apply int_of_float_exact in Hx as (nx & dx & Ex & Qx).
    apply int_of_float_exact in Hy as (ny & dy & Ey & Qy).
    exists location, nx, dx, ny, dy. repeat split; auto.
    destruct (pos a) as [px py]. simpl in Qx, Qy. congruence.
  - intros type_id z. eexists. split; [reflexivity|].
    split; vm_compute; reflexivity.
Qed.

(** ** The window and the zoomed blit *)

Lemma trace_emit_bind {B} (c : call) (k : unit -> M B) s :
  trace_of (bind (emit c) k) s = c :: trace_of (k tt) s.
Proof. unfold trace_of, bind, emit. destruct (k tt s) as [[r s2] t2]. reflexivity. Qed.

Lemma trace_bind_pure {A B} (m : M A) (k : A -> M B) s a :
  m s = (Return a, s, []) -> trace_of (bind m k) s = trace_of (k a) s.
Proof. intros E. unfold trace_of. rewrite (bind_pure _ _ _ _ E). reflexivity. Qed.

Lemma trace_try_except {A} (body : M A) classes handler s :
  exists rest, trace_of (try_except body classes handler) s = trace_of body s ++ rest.
Proof.
  unfold trace_of, try_except. destruct (body s) as [[[a|e|] s1] t1]; simpl.
  - exists []. rewrite app_nil_r. reflexivity.
  - destruct (classes e).
    + destruct (handler e s1) as [[r s2] t2]. exists t2. reflexivity.
    + exists []. rewrite app_nil_r. reflexivity.
  - exists []. rewrite app_nil_r. reflexivity.
Qed.

Lemma res_800x600 : ints_of (py_split "x" "800x600") = Ok [800; 600].
Proof. vm_compute. reflexivity. Qed.

(** C6.  With [--res 800x600] the first thing the frame loop's set-up does
    after [pygame.init()] is to create the display of size (800, 600).
    Every [render] of the world view that returns ends by blitting, at
    (offset_x, offset_y), its surface scaled to
    (int(1280 * scale_x), int(720 * scale_y)): the size depends on the zoom
    factors alone, neither on the resolution nor on the surface's own
    size. *)
Theorem display_size_and_zoomed_blit :
  (forall env cli s,
     cli_res cli = "800x600" ->
     exists rest,
       trace_of (main env cli) s =
         [logging_info ("listening to server " ++ cli_host cli ++ ":" ++
                        str_of_int (cli_port cli))%string;
          print __doc__; pygame_init; set_mode (800, 600)] ++ rest) /\
  (forall io self display s w cw actors town_map waypoint_list point_list
          (pos : carla.Actor -> Z * Z) vx vy width height,
     object_at s self = Some (world w) ->
     World.world w = Some cw ->
     get_actors io = Ok actors ->
     get_map io = Ok town_map ->
     carla.generate_waypoints town_map = Ok waypoint_list ->
     ModuleWorld.waypoint_points waypoint_list = Ok point_list ->
     (forall a, In a actors -> located a (pos a)) ->
     py_mul (PyInt 1280) (scale_x s) = Ok vx -> py_int vx = Ok width ->
     py_mul (PyInt 720) (scale_y s) = Ok vy -> py_int vy = Ok height ->
     exists drawing,
       ModuleWorld.render io self display s =
         (Return tt, s,
          drawing ++
          [blit display (pygame.scale (World.surface w) (width, height))
             (offset_x s, offset_y s)])) /\
  (forall f z,
     py_mul (PyInt 1280) (PyFloat f) = Ok (PyFloat (1280 * f)) /\
     py_mul (PyInt 720) (PyFloat f) = Ok (PyFloat (720 * f)) /\
     py_mul (PyInt 1280) (PyInt z) = Ok (PyInt (1280 * z)) /\
     py_mul (PyInt 720) (PyInt z) = Ok (PyInt (720 * z))).
Proof.
  split; [|split].
  - intros env cli s Hres. unfold main. rewrite Hres, res_800x600.
    rewrite (trace_bind_pure _ _ s [800; 600]) by reflexivity.
    rewrite !trace_emit_bind.
    match goal with
    | |- context [try_except ?b ?c ?h] =>
        destruct (trace_try_except b c h s) as [rest ->]
    end.
    unfold game_loop. rewrite !trace_emit_bind. simpl.
    eexists. reflexivity.
  - intros io self display s w cw actors town_map waypoint_list point_list pos
      vx vy width height Hself Hworld Hactors Hmap Hway Hpoints Hloc Hvx Hw Hvy Hh.
    rewrite (world_render_run io self display s w cw actors town_map waypoint_list
               point_list pos Hself Hworld Hactors Hmap Hway Hpoints Hloc).
    rewrite Hvx, Hw, Hvy, Hh. eexists. reflexivity.
  - intros f z. repeat split; reflexivity.
Qed.

(** ** What every step of the program respects *)

Lemma keeps_server_refl s : keeps_server s s.
Proof. intros r h E. exists h. auto. Qed.

Lemma keeps_server_trans s1 s2 s3 :
  keeps_server s1 s2 -> keeps_server s2 s3 -> keeps_server s1 s3.
Proof.
  intros H12 H23 r h E. destruct (H12 r h E) as (h2 & E2 & F2 & C2).
  destruct (H23 r h2 E2) as (h3 & E3 & F3 & C3).
  exists h3. repeat split; congruence.
Qed.

Lemma keeps_server_heap s s' : heap s' = heap s -> keeps_server s s'.
Proof. intros E r h Hr. exists h. unfold object_at in *. rewrite E. auto. Qed.

Lemma keeps_server_store s self o o' :
  object_at s self = Some o ->
  (forall h, o = hud h -> exists h', o' = hud h' /\
     HUD.server_fps h' = HUD.server_fps h /\ HUD._server_clock h' = HUD._server_clock h) ->
  keeps_server s (set_heap (fun h => <[self := Some o']> h) s).
Proof.
  intros Hself Hcompat r h Hr. destruct (decide (self = r)) as [->|N].
  - rewrite Hr in Hself. injection Hself as <-.
    destruct (Hcompat h eq_refl) as (h' & -> & F & C).
    exists h'. split; [|auto]. apply object_at_store_eq with (o := hud h). exact Hr.
  - exists h. rewrite object_at_store_ne by exact N. auto.
Qed.

Lemma keeps_server_alloc s o :
  keeps_server s (set_heap (fun h => h ++ [Some o]) s).
Proof.
  intros r h Hr. exists h. split; [|auto]. unfold object_at in *.
  change (heap (set_heap (fun h => h ++ [Some o]) s)) with (heap s ++ [Some o]).
  destruct (heap s !! r) as [c|] eqn:L; [|discriminate].
  rewrite lookup_app_l by (apply lookup_lt_Some in L; exact L).
  rewrite L. exact Hr.
Qed.

Section orderly_steps.
Context {A B : Type} (d : bool).

Lemma orderly_still (r : outcome A) (Hr : True) :
  orderly d (fun s => (r, s, [])).
Proof.
  intros s. unfold trace_of, state_of, outcome_of. simpl.
  split; [intros _; constructor|]. split; [apply keeps_server_refl | intros []].
Qed.

Lemma orderly_ret (a : A) : orderly d (ret a).
Proof. apply orderly_still. exact I. Qed.

Lemma orderly_raise (e : exn) : orderly d (@raise A e).
Proof. apply orderly_still. exact I. Qed.

Lemma orderly_wrong : orderly d (@wrong A).
Proof. apply orderly_still. exact I. Qed.

Lemma orderly_lift (r : result A) : orderly d (lift r).
Proof. destruct r; [apply orderly_ret | apply orderly_raise]. Qed.

Lemma orderly_gets (f : state -> A) : orderly d (gets f).
Proof.
  intros s. unfold trace_of, state_of, outcome_of. simpl.
  split; [intros _; constructor|]. split; [apply keeps_server_refl | intros []].
Qed.

Lemma orderly_bind (m : M A) (k : A -> M B) :
  orderly d m -> (forall a, orderly d (k a)) -> orderly d (bind m k).
Proof.
  intros Hm Hk s. destruct (Hm s) as (Q1 & K1 & X1).
  unfold trace_of, state_of, outcome_of, bind in *.
  destruct (m s) as [[[a|e|] s1] t1]; simpl in *.
  2: { split; [exact Q1|]. split; [exact K1|].
       intros Hin. specialize (X1 Hin). congruence. }
  2: { split; [exact Q1|]. split; [exact K1|].
       intros Hin. specialize (X1 Hin). discriminate X1. }
  destruct (Hk a s1) as (Q2 & K2 & X2).
  unfold trace_of, state_of, outcome_of in *.
  destruct (k a s1) as [[r2 s2] t2]; simpl in *.
  split; [|split].
  - intros Hd. apply Forall_app. split; auto.
  - eapply keeps_server_trans; eassumption.
  - intros Hin. apply in_app_or in Hin as [Hin|Hin]; [|auto].
    specialize (X1 Hin). discriminate X1.
Qed.
End orderly_steps.

Lemma orderly_deref d r : orderly d (deref r).
Proof.
  intros s. unfold trace_of, state_of, outcome_of, deref.
  destruct (object_at s r); simpl;
    (split; [intros _; constructor|]; split; [apply keeps_server_refl | intros []]).
Qed.

Lemma orderly_modify d (f : state -> state) :
  (forall s, heap (f s) = heap s) -> orderly d (modify f).
Proof.
  intros Hf s. unfold trace_of, state_of, outcome_of. simpl.
  split; [intros _; constructor|].
  split; [apply keeps_server_heap, Hf | intros []].
Qed.

Lemma orderly_emit d (c : call) :
  (d = false -> is_dispatch c = false) -> c <> pygame_quit -> orderly d (emit c).
Proof.
  intros Hd Hq s. unfold trace_of, state_of, outcome_of. simpl.
  split; [intros E; constructor; auto|].
  split; [apply keeps_server_refl | intros [E|[]]; congruence].
Qed.

Lemma orderly_alloc d o : orderly d (alloc o).
Proof.
  intros s. unfold trace_of, state_of, outcome_of. simpl.
  split; [intros _; constructor|].
  split; [apply keeps_server_alloc | intros []].
Qed.

Lemma orderly_exit_game {A} d : orderly d (@exit_game A).
Proof.
  intros s. unfold trace_of, state_of, outcome_of. rewrite exit_game_run. simpl.
  split; [intros _; repeat constructor|].
  split; [apply keeps_server_heap; reflexivity | intros _; reflexivity].
Qed.

Lemma orderly_for_each {A} d (l : list A) (body : A -> M unit) :
  (forall a, orderly d (body a)) -> orderly d (for_each l body).
Proof.
  intros Hbody. induction l as [|a l IH]; simpl.
  - apply orderly_ret.
  - apply orderly_bind; [apply Hbody | intros _; exact IH].
Qed.

Lemma orderly_try_except {A} d (body : M A) classes handler :
  classes SystemExit = false ->
  orderly d body -> (forall e, orderly d (handler e)) ->
  orderly d (try_except body classes handler).
Proof.
  intros Hc Hb Hh s. destruct (Hb s) as (Q1 & K1 & X1).
  unfold trace_of, state_of, outcome_of, try_except in *.
  destruct (body s) as [[[a|e|] s1] t1]; simpl in *;
    try exact (conj Q1 (conj K1 X1)).
  destruct (classes e) eqn:Ce; simpl; [|exact (conj Q1 (conj K1 X1))].
  destruct (Hh e s1) as (Q2 & K2 & X2).
  unfold trace_of, state_of, outcome_of in *.
  destruct (handler e s1) as [[r2 s2] t2]; simpl in *.
  split; [|split].
  - intros Hd. apply Forall_app. split; auto.
  - eapply keeps_server_trans; eassumption.
  - intros Hin. apply in_app_or in Hin as [Hin|Hin]; [|auto].
    specialize (X1 Hin). injection X1 as ->. congruence.
Qed.

Lemma orderly_weaken {A} (m : M A) : orderly false m -> orderly true m.
Proof.
  intros H s. destruct (H s) as (_ & K & X).
  split; [discriminate|]. split; assumption.
Qed.

Lemma bind_assoc {A B C} (m : M A) (g : A -> M B) (k : B -> M C) s :
  bind (bind m g) k s = bind m (fun a => bind (g a) k) s.
Proof.
  unfold bind. destruct (m s) as [[[a|e|] s1] t1]; try reflexivity.
  destruct (g a s1) as [[[b|e|] s2] t2]; try reflexivity.
  destruct (k b s2) as [[r s3] t3]. rewrite app_assoc. reflexivity.
Qed.

Lemma orderly_ext {A} d (m m' : M A) :
  (forall s, m s = m' s) -> orderly d m -> orderly d m'.
Proof.
  intros E H s. unfold orderly, trace_of, state_of, outcome_of in *.
  rewrite <- E. apply H.
Qed.

Lemma orderly_self_hud d self : orderly d (self_hud self).
Proof.
  apply orderly_bind; [apply orderly_deref|].
  intros [h|w|i]; [apply orderly_ret | apply orderly_wrong | apply orderly_wrong].
Qed.

Lemma orderly_self_world d self : orderly d (self_world self).
Proof.
  apply orderly_bind; [apply orderly_deref|].
  intros [h|w|i]; [apply orderly_wrong | apply orderly_ret | apply orderly_wrong].
Qed.

Lemma orderly_self_input d self : orderly d (self_input self).
Proof.
  apply orderly_bind; [apply orderly_deref|].
  intros [h|w|i]; [apply orderly_wrong | apply orderly_wrong | apply orderly_ret].
Qed.

(** Rewriting an attribute of an input handler or of a world view in place
    touches no HUD. *)
Lemma orderly_input_update d self (f : Input.t -> Input.t) :
  orderly d (bind (self_input self) (fun i => store self (input (f i)))).
Proof.
  intros s. unfold trace_of, state_of, outcome_of, self_input, bind, deref, store, modify, ret, wrong.
  destruct (object_at s self) as [[h|w|i]|] eqn:E; simpl;
    (split; [intros _; constructor|]; split; [|intros []]);
    try apply keeps_server_refl.
  apply keeps_server_store with (o := input i); [exact E | discriminate].
Qed.

Lemma orderly_world_update d self (f : World.t -> World.t) :
  orderly d (bind (self_world self) (fun w => store self (world (f w)))).
Proof.
  intros s. unfold trace_of, state_of, outcome_of, self_world, bind, deref, store, modify, ret, wrong.
  destruct (object_at s self) as [[h|w|i]|] eqn:E; simpl;
    (split; [intros _; constructor|]; split; [|intros []]);
    try apply keeps_server_refl.
  apply keeps_server_store with (o := world w); [exact E | discriminate].
Qed.

Lemma orderly_input_update_then {B} d self (f : Input.t -> Input.t) (k : M B) :
  orderly d k ->
  orderly d (bind (self_input self) (fun i => bind (store self (input (f i))) (fun _ => k))).
Proof.
  intros Hk.
  apply (orderly_ext d (bind (bind (self_input self) (fun i => store self (input (f i))))
                          (fun _ => k))).
  - intros s. apply bind_assoc.
  - apply orderly_bind; [apply orderly_input_update | intros _; exact Hk].
Qed.

Lemma orderly_world_update_then {B} d self (f : World.t -> World.t) (k : M B) :
  orderly d k ->
  orderly d (bind (self_world self) (fun w => bind (store self (world (f w))) (fun _ => k))).
Proof.
  intros Hk.
  apply (orderly_ext d (bind (bind (self_world self) (fun w => store self (world (f w))))
                          (fun _ => k))).
  - intros s. apply bind_assoc.
  - apply orderly_bind; [apply orderly_world_update | intros _; exact Hk].
Qed.

Create HintDb orderly.
#[export] Hint Resolve orderly_ret orderly_raise orderly_wrong orderly_lift orderly_gets
  orderly_deref orderly_alloc orderly_exit_game orderly_self_hud orderly_self_world
  orderly_self_input orderly_input_update orderly_world_update : orderly.

(** Closes the orderliness of straight-line code: binds, branches on data,
    and the steps of the hint database. *)
Ltac orderly_steps :=
  repeat first
    [ match goal with |- forall _, _ => intro end
    | apply orderly_exit_game
    | apply orderly_input_update
    | apply orderly_world_update
    | apply orderly_input_update_then
    | apply orderly_world_update_then
    | apply orderly_bind
    | apply orderly_for_each
    | apply orderly_modify; reflexivity
    | apply orderly_try_except; [ reflexivity | | ]
    | apply orderly_emit; [ first [ intros _; reflexivity | discriminate ] | discriminate ]
    | solve [ auto with orderly ]
    | match goal with
      | |- orderly _ (if ?b then _ else _) => destruct b
      | |- orderly _ (match ?x with _ => _ end) => destruct x
      | |- orderly _ (let '(_, _) := ?p in _) => destruct p
      end ].

(** *** The methods of the three classes are orderly and make no dispatch *)

Lemma orderly_hud_tick self clock : orderly false (ModuleHUD.tick self clock).
Proof.
  intros s.
  unfold trace_of, state_of, outcome_of, ModuleHUD.tick, self_hud, bind, deref,
    store, modify, lift, ret, wrong, raise.
  destruct (object_at s self) as [[h|w|i]|] eqn:E; simpl;
    try (split; [intros _; constructor|]; split; [apply keeps_server_refl | intros []]).
  destruct (HUD._show_info h); simpl;
    try (split; [intros _; constructor|]; split; [apply keeps_server_refl | intros []]).
  destruct (format_space_16d (HUD.server_fps h)); simpl;
    try (split; [intros _; constructor|]; split; [apply keeps_server_refl | intros []]).
  destruct (format_space_16d (PyFloat (pygame.get_fps clock))); simpl;
    try (split; [intros _; constructor|]; split; [apply keeps_server_refl | intros []]).
  split; [intros _; constructor|]. split; [|intros []].
  apply keeps_server_store with (o := hud h); [exact E|].
  intros h0 E0. injection E0 as <-. eexists. split; [reflexivity|]. split; reflexivity.
Qed.

Lemma orderly_hud_render_items h display items v_offset :
  orderly false (ModuleHUD.render_items h display items v_offset).
Proof.
  revert v_offset. induction items as [|item rest IH]; intros v_offset; simpl.
  - apply orderly_ret.
  - destruct (v_offset + 18 >? snd (HUD.dim h)); [apply orderly_ret|].
    apply orderly_bind; [|intros _; apply IH]. orderly_steps.
Qed.

Lemma orderly_hud_render self display : orderly false (ModuleHUD.render self display).
Proof.
  unfold ModuleHUD.render. orderly_steps. apply orderly_hud_render_items.
Qed.

Lemma orderly_world_render io self display :
  orderly false (ModuleWorld.render io self display).
Proof.
  unfold ModuleWorld.render, ModuleWorld.render_map, ModuleWorld.render_actors.
  orderly_steps.
Qed.

Lemma orderly_handle_event self event :
  orderly false (ModuleInput.handle_event self event).
Proof. unfold ModuleInput.handle_event. orderly_steps. Qed.

Lemma orderly_parse_mouse io self : orderly false (ModuleInput._parse_mouse io self).
Proof. unfold ModuleInput._parse_mouse. orderly_steps. Qed.

Lemma orderly_input_tick io self clock : orderly false (ModuleInput.tick io self clock).
Proof.
  unfold ModuleInput.tick, ModuleInput.parse_input, ModuleInput._parse_events,
    ModuleInput._parse_keys.
  orderly_steps; [apply orderly_handle_event | apply orderly_parse_mouse].
Qed.

Lemma orderly_module_tick io r clock : orderly false (module_tick io r clock).
Proof.
  simpl. apply orderly_bind; [apply orderly_deref|].
  intros [h|w|i];
    [apply orderly_hud_tick | apply orderly_ret | apply orderly_input_tick].
Qed.

Lemma orderly_module_render io r display : orderly false (module_render io r display).
Proof.
  simpl. apply orderly_bind; [apply orderly_deref|].
  intros [h|w|i];
    [apply orderly_hud_render | apply orderly_world_render | apply orderly_ret].
Qed.

(** ** The passes of the registry *)

Lemma tick_calls_app t1 t2 : tick_calls (t1 ++ t2) = tick_calls t1 ++ tick_calls t2.
Proof. apply flat_map_app. Qed.

Lemma render_calls_app t1 t2 : render_calls (t1 ++ t2) = render_calls t1 ++ render_calls t2.
Proof. apply flat_map_app. Qed.

Lemma no_dispatch_calls t :
  Forall (fun c => is_dispatch c = false) t -> tick_calls t = [] /\ render_calls t = [].
Proof.
  induction 1 as [|c t Hc _ [IHt IHr]]; [split; reflexivity|].
  unfold tick_calls, render_calls in *. simpl. rewrite IHt, IHr.
  destruct c; try discriminate Hc; split; reflexivity.
Qed.

Lemma tick_from_calls io clock ms : forall k s,
  let run := ModuleManager.tick_from io k ms clock in
  (exists n, tick_calls (trace_of run s) = map (fun r => (r, clock)) (take n ms)) /\
  (outcome_of run s = Return tt ->
   tick_calls (trace_of run s) = map (fun r => (r, clock)) ms).
Proof.
  induction ms as [|module rest IH]; intros k s run; subst run.
  - split; [exists 0%nat; reflexivity | intros _; reflexivity].
  - cbn [ModuleManager.tick_from].
    pose proof (orderly_module_tick (io k) module clock) as Hm.
    set (m := module_tick (io k) module clock) in *. clearbody m.
    destruct (Hm s) as (Q & _ & _).
    destruct (no_dispatch_calls _ (Q eq_refl)) as [Qt _].
    destruct (IH (S k) (state_of m s)) as [[n Hn] Hall].
    unfold trace_of, outcome_of, state_of, bind, emit in *.
    destruct (m s) as [[[[]|e|] s1] t1]; simpl in *.
    + destruct (ModuleManager.tick_from io (S k) rest clock s1) as [[r2 s2] t2]; simpl in *.
      change (tick_call module clock :: t1 ++ t2) with ([tick_call module clock] ++ t1 ++ t2).
      rewrite !tick_calls_app, Qt. simpl. split.
      * exists (S n). simpl. rewrite Hn. reflexivity.
      * intros Hr. rewrite (Hall Hr). reflexivity.
    + rewrite Qt. split; [exists 1%nat; reflexivity | discriminate].
    + rewrite Qt. split; [exists 1%nat; reflexivity | discriminate].
Qed.

Lemma render_from_calls io display ms : forall k s,
  let run := ModuleManager.render_from io k ms display in
  (exists n, render_calls (trace_of run s) = map (fun r => (r, display)) (take n ms)) /\
  (outcome_of run s = Return tt ->
   render_calls (trace_of run s) = map (fun r => (r, display)) ms).
Proof.
  induction ms as [|module rest IH]; intros k s run; subst run.
  - split; [exists 0%nat; reflexivity | intros _; reflexivity].
  - cbn [ModuleManager.render_from].
    pose proof (orderly_module_render (io k) module display) as Hm.
    set (m := module_render (io k) module display) in *. clearbody m.
    destruct (Hm s) as (Q & _ & _).
    destruct (no_dispatch_calls _ (Q eq_refl)) as [_ Qr].
    destruct (IH (S k) (state_of m s)) as [[n Hn] Hall].
    unfold trace_of, outcome_of, state_of, bind, emit in *.
    destruct (m s) as [[[[]|e|] s1] t1]; simpl in *.
    + destruct (ModuleManager.render_from io (S k) rest display s1) as [[r2 s2] t2]; simpl in *.
      change (render_call module display :: t1 ++ t2)
        with ([render_call module display] ++ t1 ++ t2).
      rewrite !render_calls_app, Qr. simpl. split.
      * exists (S n). simpl. rewrite Hn. reflexivity.
      * intros Hr. rewrite (Hall Hr). reflexivity.
    + rewrite Qr. split; [exists 1%nat; reflexivity | discriminate].
    + rewrite Qr. split; [exists 1%nat; reflexivity | discriminate].
Qed.

Lemma own_calls_app t1 t2 : own_calls (t1 ++ t2) = own_calls t1 ++ own_calls t2.
Proof. unfold own_calls. induction t1 as [|c t1 IH]; simpl; [reflexivity|].
  rewrite IH. destruct (negb (is_dispatch c)); reflexivity.
Qed.

Lemma own_calls_all t : Forall (fun c => is_dispatch c = false) t -> own_calls t = t.
Proof.
  unfold own_calls. induction 1 as [|c t Hc _ IH]; simpl; [reflexivity|].
  rewrite Hc, IH. reflexivity.
Qed.

Lemma tick_from_runs_ticks io clock ms : forall k s,
  let run := ModuleManager.tick_from io k ms clock in
  let each := for_each (numbered k ms)
                (fun km => module_tick (io (fst km)) (snd km) clock) in
  outcome_of run s = outcome_of each s /\
  state_of run s = state_of each s /\
  own_calls (trace_of run s) = trace_of each s.
Proof.
  induction ms as [|module rest IH]; intros k s run each; subst run each.
  - repeat split; reflexivity.
  - change (numbered k (module :: rest)) with ((k, module) :: numbered (S k) rest).
    cbn [ModuleManager.tick_from for_each fst snd].
    pose proof (orderly_module_tick (io k) module clock) as Hm.
    set (m := module_tick (io k) module clock) in *. clearbody m.
    destruct (Hm s) as (Q & _ & _). specialize (Q eq_refl).
    specialize (IH (S k) (state_of m s)). cbv zeta in IH.
    set (spec := for_each (numbered (S k) rest)
                   (fun km => module_tick (io (fst km)) (snd km) clock)) in *.
    clearbody spec.
    unfold trace_of, outcome_of, state_of, bind, emit in *.
    destruct (m s) as [[[[]|e|] s1] t1]; simpl in *.
    + destruct (ModuleManager.tick_from io (S k) rest clock s1) as [[r2 s2] t2].
      destruct (spec s1) as [[r3 s3] t3]. simpl in *.
      destruct IH as (-> & -> & <-).
      split; [reflexivity|]. split; [reflexivity|].
      change (tick_call module clock :: t1 ++ t2)
        with ([tick_call module clock] ++ t1 ++ t2).
      rewrite !own_calls_app, (own_calls_all _ Q). reflexivity.
    + split; [reflexivity|]. split; [reflexivity|].
      change (tick_call module clock :: t1) with ([tick_call module clock] ++ t1).
      rewrite own_calls_app, (own_calls_all _ Q). reflexivity.
    + split; [reflexivity|]. split; [reflexivity|].
      change (tick_call module clock :: t1) with ([tick_call module clock] ++ t1).
      rewrite own_calls_app, (own_calls_all _ Q). reflexivity.
Qed.

Lemma render_from_runs_renders io display ms : forall k s,
  let run := ModuleManager.render_from io k ms display in
  let each := for_each (numbered k ms)
                (fun km => module_render (io (fst km)) (snd km) display) in
  outcome_of run s = outcome_of each s /\
  state_of run s = state_of each s /\
  own_calls (trace_of run s) = trace_of each s.
Proof.
  induction ms as [|module rest IH]; intros k s run each; subst run each.
  - repeat split; reflexivity.
  - change (numbered k (module :: rest)) with ((k, module) :: numbered (S k) rest).
    cbn [ModuleManager.render_from for_each fst snd].
    pose proof (orderly_module_render (io k) module display) as Hm.
    set (m := module_render (io k) module display) in *. clearbody m.
    destruct (Hm s) as (Q & _ & _). specialize (Q eq_refl).
    specialize (IH (S k) (state_of m s)). cbv zeta in IH.
    set (spec := for_each (numbered (S k) rest)
                   (fun km => module_render (io (fst km)) (snd km) display)) in *.
    clearbody spec.
    unfold trace_of, outcome_of, state_of, bind, emit in *.
    destruct (m s) as [[[[]|e|] s1] t1]; simpl in *.
    + destruct (ModuleManager.render_from io (S k) rest display s1) as [[r2 s2] t2].
      destruct (spec s1) as [[r3 s3] t3]. simpl in *.
      destruct IH as (-> & -> & <-).
      split; [reflexivity|]. split; [reflexivity|].
      change (render_call module display :: t1 ++ t2)
        with ([render_call module display] ++ t1 ++ t2).
      rewrite !own_calls_app, (own_calls_all _ Q). reflexivity.
    + split; [reflexivity|]. split; [reflexivity|].
      change (render_call module display :: t1) with ([render_call module display] ++ t1).
      rewrite own_calls_app, (own_calls_all _ Q). reflexivity.
    + split; [reflexivity|]. split; [reflexivity|].
      change (render_call module display :: t1) with ([render_call module display] ++ t1).
      rewrite own_calls_app, (own_calls_all _ Q). reflexivity.
Qed.

(** C9.  For every registry, the tick pass calls [tick(clock)] on the
    registered modules in registration order, and the render pass first
    fills the display with black and then calls [render(display)] on them in
    registration order.

    The calls are made: the pass of the code ends as, leaves the state of,
    and makes the calls on pygame and carla of [tick_all] (of [render_all]),
    which runs the [tick] (the [render]) of each registered module's class,
    one after the other in the order of the registry, each on the state the
    one before has left, the black fill coming first in the render pass.

    The dispatches follow the registry: those made are those of a prefix of
    the registry, and of the whole registry when the pass returns (a module
    that raises, as the input handler does on shutdown, ends the pass).
    The registry's order is the order of registration: [register_module]
    appends. *)
Theorem passes_follow_registration_order (io : nat -> inputs) (clock : pygame.Clock)
    (display : pygame.Surface) (s : state) :
  ((exists n, tick_calls (trace_of (ModuleManager.tick io clock) s) =
                map (fun r => (r, clock)) (take n (modules s))) /\
   (outcome_of (ModuleManager.tick io clock) s = Return tt ->
    tick_calls (trace_of (ModuleManager.tick io clock) s) =
      map (fun r => (r, clock)) (modules s))) /\
  (exists rest,
     trace_of (ModuleManager.render io display) s = fill display (0, 0, 0) :: rest /\
     (exists n, render_calls rest = map (fun r => (r, display)) (take n (modules s))) /\
     (outcome_of (ModuleManager.render io display) s = Return tt ->
      render_calls rest = map (fun r => (r, display)) (modules s))) /\
  (forall module,
     ModuleManager.register_module module s =
       (Return tt, set_modules (fun l => l ++ [module]) s, [])) /\
  (outcome_of (ModuleManager.tick io clock) s = outcome_of (tick_all io clock) s /\
   state_of (ModuleManager.tick io clock) s = state_of (tick_all io clock) s /\
   own_calls (trace_of (ModuleManager.tick io clock) s) =
     trace_of (tick_all io clock) s) /\
  (outcome_of (ModuleManager.render io display) s = outcome_of (render_all io display) s /\
   state_of (ModuleManager.render io display) s = state_of (render_all io display) s /\
   own_calls (trace_of (ModuleManager.render io display) s) =
     trace_of (render_all io display) s).
Proof.
  split; [|split; [|split; [reflexivity|split]]].
  - pose proof (tick_from_calls io clock (modules s) 0%nat s) as H.
    unfold ModuleManager.tick, trace_of, outcome_of in *.
    rewrite (bind_pure _ _ s (modules s)) by reflexivity. exact H.
  - pose proof (render_from_calls io display (modules s) 0%nat s) as H.
    unfold ModuleManager.render, trace_of, outcome_of, bind, emit, gets in *. simpl in *.
    destruct (ModuleManager.render_from io 0 (modules s) display s) as [[r2 s2] t2].
    simpl in *. exists t2. split; [reflexivity | exact H].
  - pose proof (tick_from_runs_ticks io clock (modules s) 0%nat s) as H.
    unfold ModuleManager.tick, tick_all, trace_of, outcome_of, state_of in *.
    rewrite !(bind_pure _ _ s (modules s)) by reflexivity. exact H.
  - pose proof (render_from_runs_renders io display (modules s) 0%nat s) as H.
    cbv zeta in H.
    set (spec := for_each (numbered 0 (modules s))
                   (fun km => module_render (io (fst km)) (snd km) display)) in *.
    assert (Hall : render_all io display s =
                   (fst (fst (spec s)), snd (fst (spec s)),
                    fill display (0, 0, 0) :: snd (spec s))).
    { unfold render_all, bind, emit, gets. fold spec.
      destruct (spec s) as [[r3 s3] t3]. reflexivity. }
    clearbody spec.
    unfold ModuleManager.render, trace_of, outcome_of, state_of, bind, emit, gets in *.
    rewrite Hall. simpl in *.
    destruct (ModuleManager.render_from io 0 (modules s) display s) as [[r2 s2] t2].
    destruct (spec s) as [[r3 s3] t3]. simpl in *.
    destruct H as (-> & -> & <-).
    split; [reflexivity|]. split; [reflexivity|]. reflexivity.
Qed.

(** *** The passes, the frame loop and main are orderly *)

Lemma orderly_tick_pass io clock : orderly true (ModuleManager.tick io clock).
Proof.
  unfold ModuleManager.tick. apply orderly_bind; [apply orderly_gets|]. intros ms.
  generalize 0%nat. induction ms as [|module rest IH]; intros k; simpl.
  - apply orderly_ret.
  - apply orderly_bind; [apply orderly_emit; discriminate|]. intros _.
    apply orderly_bind; [apply orderly_weaken, orderly_module_tick|]. intros _. apply IH.
Qed.

Lemma orderly_render_pass io display : orderly true (ModuleManager.render io display).
Proof.
  unfold ModuleManager.render.
  apply orderly_bind; [apply orderly_emit; discriminate|]. intros _.
  apply orderly_bind; [apply orderly_gets|]. intros ms.
  generalize 0%nat. induction ms as [|module rest IH]; intros k; simpl.
  - apply orderly_ret.
  - apply orderly_bind; [apply orderly_emit; discriminate|]. intros _.
    apply orderly_bind; [apply orderly_weaken, orderly_module_render|]. intros _. apply IH.
Qed.

Lemma orderly_run_frames fs display : orderly true (run_frames fs display).
Proof.
  induction fs as [|f rest IH]; simpl.
  - apply orderly_ret.
  - apply orderly_bind; [apply orderly_emit; discriminate|]. intros _.
    apply orderly_bind; [apply orderly_tick_pass|]. intros _.
    apply orderly_bind; [apply orderly_render_pass|]. intros _.
    apply orderly_bind; [apply orderly_emit; discriminate|]. intros _. exact IH.
Qed.

Lemma orderly_game_loop env args : orderly true (game_loop env args).
Proof.
  unfold game_loop, ModuleInput.__init__, ModuleWorld.__init__, ModuleHUD.__init__,
    ModuleManager.register_module.
  orderly_steps. apply orderly_run_frames.
Qed.

Lemma orderly_main env cli : orderly true (main env cli).
Proof.
  unfold main. apply orderly_bind; [apply orderly_lift|].
  intros [|w [|h [|more sizes]]]; try apply orderly_raise.
  apply orderly_bind; [apply orderly_emit; discriminate|]. intros _.
  apply orderly_bind; [apply orderly_emit; discriminate|]. intros _.
  apply orderly_try_except; [reflexivity | apply orderly_game_loop|].
  intros e. apply orderly_emit; discriminate.
Qed.

(** ** The simulator's tick callback *)

Lemma hud_on_world_tick_run r timestamp rate s h :
  object_at s r = Some (hud h) ->
  ModuleHUD.on_world_tick r timestamp rate s =
    (Return tt,
     set_heap (fun m => <[r := Some (hud (HUD.set_server_fps (PyFloat rate)
                                       (HUD.set_server_clock (S (HUD._server_clock h)) h)))]> m)
       (set_heap (fun m => <[r := Some (hud (HUD.set_server_clock (S (HUD._server_clock h)) h))]> m) s),
     []).
Proof.
  intros Hr. unfold ModuleHUD.on_world_tick.
  rewrite (bind_pure _ _ s h)
    by (unfold self_hud, bind, deref, ret; rewrite Hr; reflexivity).
  erewrite bind_Return by reflexivity. simpl.
  pose proof (object_at_store_eq s r (hud h)
                (hud (HUD.set_server_clock (S (HUD._server_clock h)) h)) Hr) as Hr'.
  unfold self_hud, bind, deref, ret, store, modify. rewrite Hr'. reflexivity.
Qed.

(** C8, as the code has it.  The callback does nothing once the world view
    is gone.  While the world view lives and the registry's lookup of 'Hud'
    finds a HUD, the callback ticks that HUD's server clock and stores the
    clock's rate as its server rate, and touches nothing else.  No step of
    the main thread (a tick pass, a render pass, the whole of [main]) changes
    a HUD's server rate or server clock; the HUD's tick writes a server line
    that reads the server rate and a client line that reads the loop's
    clock. *)
Theorem tick_callback_feeds_server_rate :
  (forall weak_self timestamp rate s,
     object_at s weak_self = None ->
     ModuleWorld.on_world_tick weak_self timestamp rate s = (Return tt, s, [])) /\
  (forall weak_self timestamp rate s self r h,
     object_at s weak_self = Some self ->
     ModuleManager.get_module MODULE_HUD s = (Return (Some r), s, []) ->
     object_at s r = Some (hud h) ->
     let run := ModuleWorld.on_world_tick weak_self timestamp rate in
     outcome_of run s = Return tt /\
     trace_of run s = [] /\
     object_at (state_of run s) r =
       Some (hud (HUD.set_server_fps (PyFloat rate)
                    (HUD.set_server_clock (S (HUD._server_clock h)) h))) /\
     (forall r', r' <> r -> object_at (state_of run s) r' = object_at s r') /\
     modules (state_of run s) = modules s) /\
  (forall io clock display env cli s,
     keeps_server s (state_of (ModuleManager.tick io clock) s) /\
     keeps_server s (state_of (ModuleManager.render io display) s) /\
     keeps_server s (state_of (main env cli) s)) /\
  (forall self clock s h server client,
     object_at s self = Some (hud h) ->
     HUD._show_info h = true ->
     format_space_16d (HUD.server_fps h) = Ok server ->
     format_space_16d (PyFloat (pygame.get_fps clock)) = Ok client ->
     ModuleHUD.tick self clock s =
       (Return tt,
        set_heap (fun m => <[self := Some (hud (HUD.set_info_text
                    [("Server:  " ++ server ++ " FPS")%string;
                     ("Client:  " ++ client ++ " FPS")%string] h))]> m) s,
        [])).
Proof.
  split; [|split; [|split]].
  - intros weak_self timestamp rate s Hgone. unfold ModuleWorld.on_world_tick.
    rewrite (bind_pure _ _ s (object_at s weak_self)) by reflexivity.
    rewrite Hgone. reflexivity.
  - intros weak_self timestamp rate s self r h Hlive Hfound Hr run. subst run.
    assert (E : ModuleWorld.on_world_tick weak_self timestamp rate s =
                ModuleHUD.on_world_tick r timestamp rate s).
    { unfold ModuleWorld.on_world_tick.
      rewrite (bind_pure _ _ s (object_at s weak_self)) by reflexivity.
      rewrite Hlive. rewrite (bind_pure _ _ s (Some r) Hfound).
      unfold call_on_world_tick.
      rewrite (bind_pure _ _ s (hud h) (deref_object _ _ _ Hr)). reflexivity. }
    unfold outcome_of, trace_of, state_of. rewrite E.
    rewrite (hud_on_world_tick_run r timestamp rate s h Hr). simpl.
    split; [reflexivity|]. split; [reflexivity|]. split; [|split; [|reflexivity]].
    + apply object_at_store_eq with (o := hud (HUD.set_server_clock (S (HUD._server_clock h)) h)).
      apply object_at_store_eq with (o := hud h). exact Hr.
    + intros r' N. rewrite !object_at_store_ne by congruence. reflexivity.
  - intros io clock display env cli s.
    split; [apply orderly_tick_pass|].
    split; [apply orderly_render_pass | apply orderly_main].
  - intros self clock s h server client Hself Hshow Hs Hc.
    unfold ModuleHUD.tick.
    rewrite (bind_pure _ _ s h)
      by (unfold self_hud, bind, deref, ret; rewrite Hself; reflexivity).
    rewrite Hshow, Hs, Hc. reflexivity.
Qed.

(** ** Shutdown *)

(** C7.  When one of the calls of the connection raises an [Exception],
    [main] logs the error and ends through [exit_game]: [pygame.quit()] is
    called, the registry is empty and [SystemExit] leaves [main]; whatever
    frames the surroundings hold, the frame loop is not entered. *)
Theorem connection_failure_shuts_down (env : environment) (cli : CommandLine)
    (w h : Z) (e : exn) :
  ints_of (py_split "x" (cli_res cli)) = Ok [w; h] ->
  connection_failure (server env) = Some e ->
  is_Exception e = true ->
  outcome_of (main env cli) initial_state = Raise SystemExit /\
  trace_of (main env cli) initial_state =
    [logging_info ("listening to server " ++ cli_host cli ++ ":" ++
                   str_of_int (cli_port cli))%string;
     print __doc__; pygame_init; set_mode (w, h);
     set_caption "CARLA No Rendering Mode Visualizer";
     logging_error "Failed connecting to CARLA server"; pygame_quit] /\
  modules (state_of (main env cli) initial_state) = [] /\
  ~ In (tick_busy_loop 60) (trace_of (main env cli) initial_state).
Proof.
  intros Hres Hfail Hexc.
  assert (Hrun : exists s',
    main env cli initial_state =
      (Raise SystemExit, s',
       [logging_info ("listening to server " ++ cli_host cli ++ ":" ++
                      str_of_int (cli_port cli))%string;
        print __doc__; pygame_init; set_mode (w, h);
        set_caption "CARLA No Rendering Mode Visualizer";
        logging_error "Failed connecting to CARLA server"; pygame_quit]) /\
    modules s' = []).
  { unfold main. rewrite Hres.
    destruct env as [[c st gw ot] fonts fs]. unfold connection_failure in Hfail.
    simpl in Hfail. unfold game_loop, ModuleWorld.__init__. simpl server.
    simpl carla.Client. simpl carla.set_timeout. simpl carla.get_world. simpl carla.on_tick.
    destruct c as [[]|e1]; [destruct st as [[]|e2]; [destruct gw as [[]|e3];
      [destruct ot as [[]|e4]; [discriminate|]|]|]|];
      injection Hfail as ->; destruct e; try discriminate Hexc;
      eexists; (split; [reflexivity | reflexivity]). }
  destruct Hrun as (s' & Hrun & Hmod).
  unfold outcome_of, trace_of, state_of. rewrite Hrun. simpl.
  repeat split; auto.
  intros Hin. repeat (destruct Hin as [Hin|Hin]; [discriminate Hin|]). exact Hin.
Qed.

(** ** The frame loop from a standing state *)

Lemma run_bind {A B} (m : M A) (k : A -> M B) s a s1 t1 r s2 t2 :
  m s = (Return a, s1, t1) -> k a s1 = (r, s2, t2) ->
  bind m k s = (r, s2, t1 ++ t2).
Proof. intros Em Ek. unfold bind. rewrite Em, Ek. reflexivity. Qed.

Lemma module_tick_at io r clock s o :
  object_at s r = Some o ->
  module_tick io r clock s =
    match o with
    | hud _ => ModuleHUD.tick r clock s
    | world _ => ModuleWorld.tick r clock s
    | input _ => ModuleInput.tick io r clock s
    end.
Proof.
  intros E. simpl. rewrite (bind_pure _ _ s o (deref_object _ _ _ E)).
  destruct o; reflexivity.
Qed.

Lemma module_render_at io r display s o :
  object_at s r = Some o ->
  module_render io r display s =
    match o with
    | hud _ => ModuleHUD.render r display s
    | world _ => ModuleWorld.render io r display s
    | input _ => ModuleInput.render r display s
    end.
Proof.
  intros E. simpl. rewrite (bind_pure _ _ s o (deref_object _ _ _ E)).
  destruct o; reflexivity.
Qed.

Lemma input_tick_idle io self clock s :
  event_get io = [] ->
  fst (fst (mouse_get_pressed io)) = false ->
  ModuleInput.tick io self clock s = (Return tt, s, []).
Proof.
  intros Hev Hpr.
  unfold ModuleInput.tick, ModuleInput.parse_input, ModuleInput._parse_events,
    ModuleInput._parse_keys, ModuleInput._parse_mouse.
  rewrite Hev, Hpr. reflexivity.
Qed.

Lemma hud_tick_run self clock s h server client :
  object_at s self = Some (hud h) ->
  HUD._show_info h = true ->
  format_space_16d (HUD.server_fps h) = Ok server ->
  format_space_16d (PyFloat (pygame.get_fps clock)) = Ok client ->
  ModuleHUD.tick self clock s =
    (Return tt,
     set_heap (fun m => <[self := Some (hud (HUD.set_info_text
                 [("Server:  " ++ server ++ " FPS")%string;
                  ("Client:  " ++ client ++ " FPS")%string] h))]> m) s,
     []).
Proof.
  intros Hself Hshow Hs Hc. unfold ModuleHUD.tick.
  rewrite (bind_pure _ _ s h)
    by (unfold self_hud, bind, deref, ret; rewrite Hself; reflexivity).
  rewrite Hshow, Hs, Hc. reflexivity.
Qed.

Lemma standing_tick_pass io clock i w h ox oy sx sy server client :
  event_get (io 0%nat) = [] ->
  fst (fst (mouse_get_pressed (io 0%nat))) = false ->
  HUD._show_info h = true ->
  format_space_16d (HUD.server_fps h) = Ok server ->
  format_space_16d (PyFloat (pygame.get_fps clock)) = Ok client ->
  ModuleManager.tick io clock (standing_state i w h ox oy sx sy) =
    (Return tt,
     standing_state i w
       (HUD.set_info_text [("Server:  " ++ server ++ " FPS")%string;
                           ("Client:  " ++ client ++ " FPS")%string] h) ox oy sx sy,
     [tick_call 0%nat clock; tick_call 2%nat clock; tick_call 1%nat clock]).
Proof.
  intros Hev Hpr Hshow Hs Hc.
  unfold ModuleManager.tick.
  rewrite (bind_pure _ _ _ [0%nat; 2%nat; 1%nat]) by reflexivity.
  cbn [ModuleManager.tick_from].
  eapply (run_bind _ _ _ tt _ [tick_call 0%nat clock]); [reflexivity|].
  eapply (run_bind _ _ _ tt _ []).
  { rewrite (module_tick_at _ _ _ _ (input i)) by reflexivity.
    apply input_tick_idle; assumption. }
  eapply (run_bind _ _ _ tt _ [tick_call 2%nat clock]); [reflexivity|].
  eapply (run_bind _ _ _ tt _ []).
  { rewrite (module_tick_at _ _ _ _ (hud h)) by reflexivity.
    eapply hud_tick_run; [reflexivity | exact Hshow | exact Hs | exact Hc]. }
  eapply (run_bind _ _ _ tt _ [tick_call 1%nat clock]); [reflexivity|].
  eapply (run_bind _ _ _ tt _ []).
  { rewrite (module_tick_at _ _ _ _ (world w)) by reflexivity. reflexivity. }
  reflexivity.
Qed.

Lemma hud_render_items_returns h display items : forall v_offset s,
  exists t, ModuleHUD.render_items h display items v_offset s = (Return tt, s, t).
Proof.
  induction items as [|item rest IH]; intros v_offset s; simpl.
  - exists []. reflexivity.
  - destruct (v_offset + 18 >? snd (HUD.dim h)); [exists []; reflexivity|].
    destruct (IH (v_offset + 18) s) as [t Ht].
    destruct (String.eqb item "").
    + exists t. rewrite (bind_pure _ _ s tt) by reflexivity. exact Ht.
    + eexists. eapply run_bind; [reflexivity | exact Ht].
Qed.

Lemma hud_render_returns self display s h :
  object_at s self = Some (hud h) ->
  exists t, ModuleHUD.render self display s = (Return tt, s, t).
Proof.
  intros Hself. unfold ModuleHUD.render.
  rewrite (bind_pure _ _ s h)
    by (unfold self_hud, bind, deref, ret; rewrite Hself; reflexivity).
  destruct (HUD._show_info h); [|exists []; reflexivity].
  destruct (hud_render_items_returns h display (HUD._info_text h) 4 s) as [t Ht].
  eexists. eapply run_bind; [reflexivity|]. eapply run_bind; [reflexivity | exact Ht].
Qed.

(** A failed fetch: [render] raises what the simulator raised, before it has
    drawn anything or changed anything. *)
Lemma world_render_fetch_fails io self display s w cw e :
  object_at s self = Some (world w) ->
  World.world w = Some cw ->
  get_actors io = Err e \/ (exists actors, get_actors io = Ok actors /\ get_map io = Err e) ->
  ModuleWorld.render io self display s = (Raise e, s, []).
Proof.
  intros Hself Hworld Hfail. unfold ModuleWorld.render.
  rewrite (bind_pure _ _ s w)
    by (unfold self_world, bind, deref, ret; rewrite Hself; reflexivity).
  rewrite Hworld. destruct Hfail as [Ha | (actors & Ha & Hm)]; rewrite Ha.
  - reflexivity.
  - rewrite (bind_pure _ _ s actors) by reflexivity. rewrite Hm. reflexivity.
Qed.

Lemma same_but_text_refl h : same_but_text h h.
Proof. exists (HUD._info_text h). destruct h. reflexivity. Qed.

Lemma same_but_text_step h h' text :
  same_but_text h h' -> same_but_text h (HUD.set_info_text text h').
Proof. intros [text' ->]. exists text. reflexivity. Qed.

Lemma same_but_text_server h h' :
  same_but_text h h' ->
  HUD._show_info h' = HUD._show_info h /\ HUD.server_fps h' = HUD.server_fps h.
Proof. intros [text ->]. split; reflexivity. Qed.

(** The render pass of the three modules is whatever the world view's
    render is, after the fill and the HUD's overlay. *)
Lemma standing_render_pass io display i w h ox oy sx sy :
  let S := standing_state i w h ox oy sx sy in
  exists pre, forall r s' t',
    ModuleWorld.render (io 2%nat) 1%nat display S = (r, s', t') ->
    ModuleManager.render io display S = (r, s', pre ++ t').
Proof.
  intros S.
  destruct (hud_render_returns 2%nat display S h eq_refl) as [th Hh].
  exists ([fill display (0, 0, 0); render_call 0%nat display; render_call 2%nat display]
          ++ th ++ [render_call 1%nat display]).
  intros r s' t' Hw. unfold ModuleManager.render.
  assert (E : ([fill display (0, 0, 0); render_call 0%nat display; render_call 2%nat display]
               ++ th ++ [render_call 1%nat display]) ++ t' =
              [fill display (0, 0, 0)] ++ [render_call 0%nat display] ++ [] ++
              [render_call 2%nat display] ++ th ++ [render_call 1%nat display] ++ t')
    by trace_eq.
  rewrite E. clear E.
  eapply (run_bind _ _ _ tt _ [fill display (0, 0, 0)]); [reflexivity|].
  rewrite (bind_pure _ _ _ [0%nat; 2%nat; 1%nat]) by reflexivity.
  cbn [ModuleManager.render_from].
  eapply (run_bind _ _ _ tt _ [render_call 0%nat display]); [reflexivity|].
  eapply (run_bind _ _ _ tt _ []).
  { rewrite (module_render_at _ _ _ _ (input i)) by reflexivity. reflexivity. }
  eapply (run_bind _ _ _ tt _ [render_call 2%nat display]); [reflexivity|].
  eapply (run_bind _ _ _ tt _ th).
  { rewrite (module_render_at _ _ _ _ (hud h)) by reflexivity. exact Hh. }
  eapply (run_bind _ _ _ tt _ [render_call 1%nat display]); [reflexivity|].
  assert (Hm : module_render (io 2%nat) 1%nat display S = (r, s', t')).
  { rewrite (module_render_at _ _ _ _ (world w)) by reflexivity. exact Hw. }
  destruct r as [[]|e|].
  - rewrite <- (app_nil_r t'). eapply run_bind; [exact Hm | reflexivity].
  - apply bind_Raise. exact Hm.
  - apply bind_Wrong. exact Hm.
Qed.

Section standing_frames.
Variables (display : pygame.Surface) (i : Input.t) (w : World.t) (cw : carla.World).
Variables (ox oy : Z) (sx sy vx vy : py_num) (width height : Z).
Hypothesis Hworld : World.world w = Some cw.
Hypothesis Hvx : py_mul (PyInt 1280) sx = Ok vx.
Hypothesis Hwidth : py_int vx = Ok width.
Hypothesis Hvy : py_mul (PyInt 720) sy = Ok vy.
Hypothesis Hheight : py_int vy = Ok height.

Let S (h : HUD.t) : state := standing_state i w h ox oy sx sy.

(** The part of a frame that does not depend on the fetch. *)
Lemma frame_until_world_render f h server :
  idle_tick f ->
  HUD._show_info h = true ->
  format_space_16d (HUD.server_fps h) = Ok server ->
  exists h' pre,
    same_but_text h h' /\
    forall (k : unit -> M unit) r s' t',
      bind (ModuleManager.render (render_inputs f) display) k (S h') = (r, s', t') ->
      bind (emit (tick_busy_loop 60))
        (fun _ => bind (ModuleManager.tick (tick_inputs f) (clock f))
           (fun _ => bind (ModuleManager.render (render_inputs f) display) k))
        (S h) = (r, s', pre ++ t').
Proof.
  intros (Hev & Hpr & client & Hc) Hshow Hs.
  exists (HUD.set_info_text [("Server:  " ++ server ++ " FPS")%string;
                             ("Client:  " ++ client ++ " FPS")%string] h).
  exists [tick_busy_loop 60; tick_call 0%nat (clock f); tick_call 2%nat (clock f);
          tick_call 1%nat (clock f)].
  split; [apply same_but_text_step, same_but_text_refl|].
  intros k r s' t' Hk.
  change ([tick_busy_loop 60; tick_call 0%nat (clock f); tick_call 2%nat (clock f);
           tick_call 1%nat (clock f)] ++ t')
    with ([tick_busy_loop 60] ++
          [tick_call 0%nat (clock f); tick_call 2%nat (clock f); tick_call 1%nat (clock f)]
          ++ t').
  eapply (run_bind _ _ _ tt _ [tick_busy_loop 60]); [reflexivity|].
  eapply run_bind; [|exact Hk].
  apply (standing_tick_pass (tick_inputs f) (clock f) i w h ox oy sx sy server client
           Hev Hpr Hshow Hs Hc).
Qed.

Lemma calm_frame_run f h server :
  calm_frame f ->
  HUD._show_info h = true ->
  format_space_16d (HUD.server_fps h) = Ok server ->
  exists h' t,
    same_but_text h h' /\
    forall rest r s2 t2,
      run_frames rest display (S h') = (r, s2, t2) ->
      run_frames (f :: rest) display (S h) = (r, s2, t ++ t2).
Proof.
  intros (Hidle & actors & town_map & wps & pts & pos & Ha & Hm & Hg & Hp & Hloc) Hshow Hs.
  destruct (frame_until_world_render f h server Hidle Hshow Hs) as (h' & pre & Hsame & Hpre).
  destruct (standing_render_pass (render_inputs f) display i w h' ox oy sx sy) as [pre2 Hpass].
  pose proof (world_render_run (render_inputs f 2%nat) 1%nat display (S h') w cw actors
                town_map wps pts pos eq_refl Hworld Ha Hm Hg Hp Hloc) as Hw.
  simpl in Hw. change (scale_x (S h')) with sx in Hw. change (scale_y (S h')) with sy in Hw.
  rewrite Hvx, Hwidth, Hvy, Hheight in Hw.
  specialize (Hpass _ _ _ Hw).
  match type of Hpass with _ = (_, _, ?t) => set (tr := t) in Hpass end.
  exists h', (pre ++ tr ++ [flip]). split; [exact Hsame|].
  intros rest r s2 t2 Hrest. cbn [run_frames].
  replace ((pre ++ tr ++ [flip]) ++ t2) with (pre ++ tr ++ [flip] ++ t2)
    by (rewrite <- !app_assoc; reflexivity).
  apply Hpre.
  eapply run_bind; [exact Hpass|].
  eapply (run_bind _ _ _ tt _ [flip]); [reflexivity | exact Hrest].
Qed.

Lemma failing_frame_run f rest h server e :
  failing_frame f e ->
  HUD._show_info h = true ->
  format_space_16d (HUD.server_fps h) = Ok server ->
  exists h' t,
    same_but_text h h' /\
    run_frames (f :: rest) display (S h) = (Raise e, S h', t).
Proof.
  intros (Hidle & Hfail) Hshow Hs.
  destruct (frame_until_world_render f h server Hidle Hshow Hs) as (h' & pre & Hsame & Hpre).
  destruct (standing_render_pass (render_inputs f) display i w h' ox oy sx sy) as [pre2 Hpass].
  pose proof (world_render_fetch_fails (render_inputs f 2%nat) 1%nat display (S h') w cw e
                eq_refl Hworld Hfail) as Hw.
  specialize (Hpass _ _ _ Hw).
  exists h'. eexists. split; [exact Hsame|].
  cbn [run_frames]. apply Hpre. apply bind_Raise. exact Hpass.
Qed.

(** Uneventful frames, then the frame whose fetch fails. *)
Lemma frames_until_failure calm f rest e : forall h server,
  Forall calm_frame calm ->
  failing_frame f e ->
  HUD._show_info h = true ->
  format_space_16d (HUD.server_fps h) = Ok server ->
  exists h' t,
    same_but_text h h' /\
    run_frames (calm ++ f :: rest) display (S h) = (Raise e, S h', t).
Proof.
  induction calm as [|c calm IH]; intros h server Hcalm Hfail Hshow Hs.
  - apply (failing_frame_run f rest h server e Hfail Hshow Hs).
  - inversion Hcalm as [|? ? Hc Hcalm']; subst.
    destruct (calm_frame_run c h server Hc Hshow Hs) as (h1 & t1 & Hsame1 & Hrun1).
    destruct (same_but_text_server h h1 Hsame1) as [Hshow1 Hfps1].
    destruct (IH h1 server Hcalm' Hfail) as (h2 & t2 & Hsame2 & Hrun2).
    { rewrite Hshow1. exact Hshow. }
    { rewrite Hfps1. exact Hs. }
    exists h2. eexists. split.
    + destruct Hsame1 as [x1 ->]. destruct Hsame2 as [x2 ->]. exists x2. reflexivity.
    + simpl app. apply Hrun1. exact Hrun2.
Qed.
End standing_frames.

Lemma game_loop_setup env args mono r s t :
  connection_failure (server env) = None ->
  ModuleHUD._init_hud_params (installed_fonts env) = Ok mono ->
  run_frames (frames env) (pygame.display (width args, height args))
    (loop_entry args mono) = (r, s, t) ->
  game_loop env args initial_state =
    (r, s,
     [pygame_init; set_mode (width args, height args);
      set_caption (description args); on_tick 1%nat] ++ t).
Proof.
  intros Hconn Hfonts Hrun. unfold game_loop, ModuleHUD.__init__. rewrite Hfonts.
  destruct env as [[c st gw ot] fonts fs]. unfold connection_failure in Hconn.
  simpl in Hconn. simpl server. simpl frames in *.
  destruct c as [[]|?]; [|discriminate]. destruct st as [[]|?]; [|discriminate].
  destruct gw as [[]|?]; [|discriminate]. destruct ot as [[]|?]; [|discriminate].
  change ([pygame_init; set_mode (width args, height args);
           set_caption (description args); on_tick 1%nat] ++ t)
    with ([pygame_init] ++ [set_mode (width args, height args)] ++
          [set_caption (description args)] ++ [] ++ [on_tick 1%nat] ++ [] ++ [] ++ [] ++ [] ++ t).
  eapply (run_bind _ _ _ tt _ [pygame_init]); [reflexivity|].
  eapply (run_bind _ _ _ tt _ [set_mode _]); [reflexivity|].
  eapply (run_bind _ _ _ tt _ [set_caption _]); [reflexivity|].
  eapply (run_bind _ _ _ 0%nat _ []); [reflexivity|].
  eapply (run_bind _ _ _ 1%nat _ [on_tick 1%nat]); [reflexivity|].
  eapply (run_bind _ _ _ 2%nat _ []); [reflexivity|].
  eapply (run_bind _ _ _ tt _ []); [reflexivity|].
  eapply (run_bind _ _ _ tt _ []); [reflexivity|].
  eapply (run_bind _ _ _ tt _ []); [reflexivity|].
  exact Hrun.
Qed.

Lemma main_passes_exception env cli w h e s' t :
  ints_of (py_split "x" (cli_res cli)) = Ok [w; h] ->
  e <> KeyboardInterrupt ->
  game_loop env
    {| debug := cli_debug cli; host := cli_host cli; port := cli_port cli;
       res := cli_res cli; description := "CARLA No Rendering Mode Visualizer";
       width := w; height := h |} initial_state = (Raise e, s', t) ->
  main env cli initial_state =
    (Raise e, s',
     [logging_info ("listening to server " ++ cli_host cli ++ ":" ++
                    str_of_int (cli_port cli))%string; print __doc__] ++ t).
Proof.
  intros Hres Hne Hloop. unfold main. rewrite Hres.
  rewrite (bind_pure _ _ _ [w; h]) by reflexivity.
  change ([logging_info ("listening to server " ++ cli_host cli ++ ":" ++
                         str_of_int (cli_port cli))%string; print __doc__] ++ t)
    with ([logging_info ("listening to server " ++ cli_host cli ++ ":" ++
                         str_of_int (cli_port cli))%string] ++ [print __doc__] ++ t).
  eapply (run_bind _ _ _ tt _ [logging_info _]); [reflexivity|].
  eapply (run_bind _ _ _ tt _ [print _]); [reflexivity|].
  unfold try_except. simpl host. simpl port. rewrite Hloop.
  destruct e; try reflexivity. congruence.
Qed.


(** ** Sample runs *)

Lemma sample_actors_located a : In a sample_actors -> located a (sample_position a).
Proof.
  intros H. simpl in H.
  repeat (destruct H as [<-|H];
          [eexists; split; [reflexivity|]; split; vm_compute; reflexivity|]).
  destruct H.
Qed.


(** Against C8 as the spec words it: the world view lives, no module is
    registered yet, and the callback raises [AttributeError] instead of
    forwarding anything. *)
Lemma tick_callback_before_registration :
  is_Some (object_at before_registration 1%nat) /\
  modules before_registration = [] /\
  ModuleWorld.on_world_tick 1%nat sample_timestamp 60 before_registration =
    (Raise AttributeError, before_registration, []).
Proof.
  split; [eexists; reflexivity|]. split; [reflexivity|]. vm_compute. reflexivity.
Qed.

Lemma idle_frame_calm : calm_frame idle_frame.
Proof.
  split.
  - split; [reflexivity|]. split; [reflexivity|].
    exists "              59". vm_compute. reflexivity.
  - exists sample_actors, sample_map, sample_waypoints, [(0, 0); (10, 0); (10, 10)],
      sample_position.
    split; [reflexivity|]. split; [reflexivity|]. split; [reflexivity|].
    split; [vm_compute; reflexivity | exact sample_actors_located].
Defined.



Lemma actors_drawn_once_per_matching_filter_witness :
  object_at running_state 1%nat = Some (world sample_world) /\
  (forall a, In a sample_actors -> located a (sample_position a)) /\
  (exists tail,
     trace_of (ModuleWorld.render idle_inputs 1%nat sample_display) running_state =
       [fill (World.surface sample_world) (0, 0, 0);
        draw_lines (World.surface sample_world) (255, 0, 255) false
          [(0, 0); (10, 0); (10, 10)] 1] ++
       flat_map (fun fc : string * pygame.color =>
          flat_map (fun a => if py_in (fst fc) (carla.type_id a)
                             then [draw_circle (World.surface sample_world) (snd fc)
                                     (sample_position a) 2 1]
                             else []) sample_actors)
         [("vehicle", (255, 0, 0)); ("traffic_light", (0, 255, 0));
          ("speed_limit", (0, 0, 255))] ++
       tail /\
     (tail = [] \/
      exists size, tail = [blit sample_display
                             (pygame.scale (World.surface sample_world) size)
                             (offset_x running_state, offset_y running_state)])) /\
  (forall filter a,
     py_in filter (carla.type_id a) = true <->
     exists before after, carla.type_id a = (before ++ filter ++ after)%string).
Proof.
  split; [reflexivity|]. split; [exact sample_actors_located|].
  apply (actors_drawn_once_per_matching_filter idle_inputs 1%nat sample_display
           running_state sample_world (carla.world_of "127.0.0.1" 2000) sample_actors
           sample_map sample_waypoints [(0, 0); (10, 0); (10, 10)] sample_position).
  - reflexivity.
  - reflexivity.
  - reflexivity.
  - reflexivity.
  - reflexivity.
  - vm_compute. reflexivity.
  - exact sample_actors_located.
Defined.

Lemma marker_at_truncated_position_witness :
  object_at running_state 1%nat = Some (world sample_world) /\
  (forall a, In a sample_actors -> located a (sample_position a)) /\
  ModuleWorld.render_actors 1%nat sample_display sample_actors "vehicle" (255, 0, 0)
    running_state =
    (Return tt, running_state,
     map (fun a => draw_circle (World.surface sample_world) (255, 0, 0)
                     (sample_position a) 2 1)
       (List.filter (fun a => py_in "vehicle" (carla.type_id a)) sample_actors)) /\
  sample_position (actor_at "vehicle.tesla.model3" 12.7 (-3.2) 5.0) = (12, -3).
Proof.
  split; [reflexivity|]. split; [exact sample_actors_located|].
  split; [|vm_compute; reflexivity].
  apply (marker_at_truncated_position 1%nat sample_display sample_actors "vehicle"
           (255, 0, 0) running_state sample_world sample_position).
  - reflexivity.
  - exact sample_actors_located.
Defined.

Lemma wheel_steps_zoom_in_float_arithmetic_witness :
  object_at input_ready 0%nat = Some (input program_input) /\
  py_add (scale_x input_ready) (PyFloat 0.1) = Ok (PyFloat 1.1) /\
  py_add (scale_y input_ready) (PyFloat 0.1) = Ok (PyFloat 1.1) /\
  outcome_of (ModuleInput.handle_event 0%nat (pygame.MOUSEBUTTONDOWN 4 (0, 0)))
    input_ready = Return tt /\
  scale_x (state_of (ModuleInput.handle_event 0%nat (pygame.MOUSEBUTTONDOWN 4 (0, 0)))
             input_ready) = PyFloat 1.1 /\
  scale_y (state_of (ModuleInput.handle_event 0%nat (pygame.MOUSEBUTTONDOWN 4 (0, 0)))
             input_ready) = PyFloat 1.1.
Proof.
  split; [reflexivity|]. split; [vm_compute; reflexivity|].
  split; [vm_compute; reflexivity|].
  apply (proj1 wheel_steps_zoom_in_float_arithmetic 0%nat (0, 0) input_ready
           program_input (PyFloat 1.1) (PyFloat 1.1)).
  - reflexivity.
  - vm_compute. reflexivity.
  - vm_compute. reflexivity.
Defined.

Lemma drag_adds_pointer_delta_witness :
  fst (fst (mouse_get_pressed dragging_inputs)) = true /\
  object_at after_click 0%nat =
    Some (input {| Input.name := MODULE_INPUT; Input.mouse_pos := (100, 100) |}) /\
  outcome_of (ModuleInput.tick dragging_inputs 0%nat sample_clock) running_state
    = Return tt /\
  offset_x (state_of (ModuleInput.tick dragging_inputs 0%nat sample_clock) running_state)
    = offset_x running_state + (130 - 100) /\
  offset_y (state_of (ModuleInput.tick dragging_inputs 0%nat sample_clock) running_state)
    = offset_y running_state + (90 - 100) /\
  object_at (state_of (ModuleInput.tick dragging_inputs 0%nat sample_clock) running_state)
    0%nat = Some (input {| Input.name := MODULE_INPUT; Input.mouse_pos := (130, 90) |}).
Proof.
  split; [reflexivity|]. split; [reflexivity|].
  apply (proj2 (drag_adds_pointer_delta dragging_inputs 0%nat sample_clock after_click
                  {| Input.name := MODULE_INPUT; Input.mouse_pos := (100, 100) |}
                  eq_refl eq_refl) running_state [] eq_refl).
Defined.

Lemma display_size_and_zoomed_blit_witness :
  cli_res cli_800x600 = "800x600" /\
  (exists rest,
     trace_of (main sample_env cli_800x600) initial_state =
       [logging_info "listening to server 127.0.0.1:2000"; print __doc__;
        pygame_init; set_mode (800, 600)] ++ rest) /\
  py_mul (PyInt 1280) (scale_x running_state) = Ok (PyInt 1280) /\
  py_mul (PyInt 720) (scale_y running_state) = Ok (PyInt 720) /\
  (exists drawing,
     ModuleWorld.render idle_inputs 1%nat sample_display running_state =
       (Return tt, running_state,
        drawing ++
        [blit sample_display (pygame.scale (World.surface sample_world) (1280, 720))
           (offset_x running_state, offset_y running_state)])).
Proof.
  split; [reflexivity|].
  split; [exact (proj1 display_size_and_zoomed_blit sample_env cli_800x600 initial_state
                   eq_refl)|].
  split; [reflexivity|]. split; [reflexivity|].
  apply (proj1 (proj2 display_size_and_zoomed_blit) idle_inputs 1%nat sample_display
           running_state sample_world (carla.world_of "127.0.0.1" 2000) sample_actors
           sample_map sample_waypoints [(0, 0); (10, 0); (10, 10)] sample_position
           (PyInt 1280) (PyInt 720) 1280 720).
  - reflexivity.
  - reflexivity.
  - reflexivity.
  - reflexivity.
  - reflexivity.
  - vm_compute. reflexivity.
  - exact sample_actors_located.
  - reflexivity.
  - reflexivity.
  - reflexivity.
  - reflexivity.
Defined.

Lemma connection_failure_shuts_down_witness :
  ints_of (py_split "x" (cli_res cli_800x600)) = Ok [800; 600] /\
  connection_failure (server unreachable_env) = Some RuntimeError /\
  is_Exception RuntimeError = true /\
  outcome_of (main unreachable_env cli_800x600) initial_state = Raise SystemExit /\
  trace_of (main unreachable_env cli_800x600) initial_state =
    [logging_info ("listening to server " ++ cli_host cli_800x600 ++ ":" ++
                   str_of_int (cli_port cli_800x600))%string;
     print __doc__; pygame_init; set_mode (800, 600);
     set_caption "CARLA No Rendering Mode Visualizer";
     logging_error "Failed connecting to CARLA server"; pygame_quit] /\
  modules (state_of (main unreachable_env cli_800x600) initial_state) = [] /\
  ~ In (tick_busy_loop 60) (trace_of (main unreachable_env cli_800x600) initial_state).
Proof.
  split; [vm_compute; reflexivity|]. split; [reflexivity|]. split; [reflexivity|].
  apply (connection_failure_shuts_down unreachable_env cli_800x600 800 600 RuntimeError).
  - vm_compute. reflexivity.
  - reflexivity.
  - reflexivity.
Defined.

Lemma tick_callback_feeds_server_rate_witness :
  object_at running_state 1%nat = Some (world sample_world) /\
  ModuleManager.get_module MODULE_HUD running_state =
    (Return (Some 2%nat), running_state, []) /\
  object_at running_state 2%nat = Some (hud running_hud) /\
  outcome_of (ModuleWorld.on_world_tick 1%nat sample_timestamp 20) running_state
    = Return tt /\
  trace_of (ModuleWorld.on_world_tick 1%nat sample_timestamp 20) running_state = [] /\
  object_at (state_of (ModuleWorld.on_world_tick 1%nat sample_timestamp 20) running_state)
    2%nat =
    Some (hud (HUD.set_server_fps (PyFloat 20)
                 (HUD.set_server_clock (S (HUD._server_clock running_hud)) running_hud))) /\
  (forall r', r' <> 2%nat ->
     object_at (state_of (ModuleWorld.on_world_tick 1%nat sample_timestamp 20) running_state)
       r' = object_at running_state r') /\
  modules (state_of (ModuleWorld.on_world_tick 1%nat sample_timestamp 20) running_state)
    = modules running_state.
Proof.
  split; [reflexivity|]. split; [vm_compute; reflexivity|]. split; [reflexivity|].
  apply (proj1 (proj2 tick_callback_feeds_server_rate) 1%nat sample_timestamp 20%float
           running_state (world sample_world) 2%nat running_hud).
  - reflexivity.
  - vm_compute. reflexivity.
  - reflexivity.
Defined.

Lemma passes_follow_registration_order_witness :
  outcome_of (ModuleManager.tick (fun _ => dragging_inputs) slow_clock) running_state
    = Return tt /\
  tick_calls (trace_of (ModuleManager.tick (fun _ => dragging_inputs) slow_clock)
                running_state)
    = map (fun r => (r, slow_clock)) (modules running_state) /\
  state_of (ModuleManager.tick (fun _ => dragging_inputs) slow_clock) running_state =
    state_of (tick_all (fun _ => dragging_inputs) slow_clock) running_state /\
  offset_x (state_of (ModuleManager.tick (fun _ => dragging_inputs) slow_clock)
              running_state) = offset_x running_state + (130 - 100) /\
  object_at (state_of (ModuleManager.tick (fun _ => dragging_inputs) slow_clock)
               running_state) 2%nat =
    Some (hud (HUD.set_info_text
                 ["Server:                 0 FPS"; "Client:                30 FPS"]
                 running_hud)) /\
  outcome_of (ModuleManager.render (fun _ => idle_inputs) sample_display) running_state
    = Return tt /\
  (exists rest,
     trace_of (ModuleManager.render (fun _ => idle_inputs) sample_display) running_state
       = fill sample_display (0, 0, 0) :: rest /\
     render_calls rest = map (fun r => (r, sample_display)) (modules running_state)) /\
  own_calls (trace_of (ModuleManager.render (fun _ => idle_inputs) sample_display)
               running_state) =
    trace_of (render_all (fun _ => idle_inputs) sample_display) running_state /\
  In (draw_lines (World.surface sample_world) (255, 0, 255) false
        [(0, 0); (10, 0); (10, 10)] 1)
    (trace_of (render_all (fun _ => idle_inputs) sample_display) running_state).
Proof.
  assert (Hticked : outcome_of (ModuleManager.tick (fun _ => dragging_inputs) slow_clock)
                      running_state = Return tt) by (vm_compute; reflexivity).
  assert (Hrendered : outcome_of (ModuleManager.render (fun _ => idle_inputs)
                                    sample_display) running_state = Return tt)
    by (vm_compute; reflexivity).
  destruct (passes_follow_registration_order (fun _ => dragging_inputs) slow_clock
              sample_display running_state)
    as ((_ & Hticks) & _ & _ & (_ & Hstate & _) & _).
  destruct (passes_follow_registration_order (fun _ => idle_inputs) sample_clock
              sample_display running_state)
    as (_ & (rest & Hfill & _ & Hrenders) & _ & _ & (_ & _ & Hcalls)).
  split; [exact Hticked|]. split; [exact (Hticks Hticked)|]. split; [exact Hstate|].
  split; [vm_compute; reflexivity|]. split; [vm_compute; reflexivity|].
  split; [exact Hrendered|].
  split; [exists rest; split; [exact Hfill | exact (Hrenders Hrendered)]|].
  split; [exact Hcalls|].
  vm_compute. repeat (first [left; reflexivity | right]).
Defined.

Lemma running_state_sound : registry_sound running_state.
Proof.
  unfold registry_sound. simpl.
  repeat (constructor; [eexists; reflexivity|]). constructor.
Defined.

Lemma get_module_first_match_witness :
  registry_sound running_state /\
  ((exists before r after,
      modules running_state = before ++ r :: after /\
      registered_name running_state r = Some MODULE_HUD /\
      Forall (fun r' => registered_name running_state r' <> Some MODULE_HUD) before /\
      ModuleManager.get_module MODULE_HUD running_state =
        (Return (Some r), running_state, []))
   \/ (Forall (fun r' => registered_name running_state r' <> Some MODULE_HUD)
         (modules running_state) /\
       ModuleManager.get_module MODULE_HUD running_state =
         (Return None, running_state, []))).
Proof.
  split; [exact running_state_sound|].
  apply (get_module_first_match MODULE_HUD running_state running_state_sound).
Defined.


(** * Further properties *)

(** ** The map skeleton *)

Lemma int_of_float_errors f e :
  int_of_float f = Err e -> e = ValueError \/ e = OverflowError.
Proof.
  unfold int_of_float. destruct (Prim2SF f); intros E; try discriminate E;
    injection E as <-; auto.
Qed.

Lemma waypoint_points_spec waypoint_list :
  match ModuleWorld.waypoint_points waypoint_list with
  | Ok point_list => Forall2 waypoint_at waypoint_list point_list
  | Err e => Exists waypoint_off_map waypoint_list /\ (e = ValueError \/ e = OverflowError)
  end.
Proof.
  induction waypoint_list as [|waypoint rest IH]; simpl; [constructor|].
  destruct (int_of_float (carla.x (carla.transform_location waypoint))) as [px|ex] eqn:Ex.
  - destruct (int_of_float (carla.y (carla.transform_location waypoint))) as [py|ey] eqn:Ey.
    + destruct (ModuleWorld.waypoint_points rest) as [l|e].
      * constructor; [split; assumption | exact IH].
      * destruct IH as [Hex He]. split; [apply Exists_cons_tl; exact Hex | exact He].
    + split; [|apply (int_of_float_errors _ _ Ey)].
      apply Exists_cons_hd. right. exists ey. exact Ey.
  - split; [|apply (int_of_float_errors _ _ Ex)].
    apply Exists_cons_hd. left. exists ex. exact Ex.
Qed.

(** X1.  [render_map] draws the map as one open magenta polyline of width 1
    on the world view's own surface, through the integer parts of the x and
    y of every waypoint, in the order of the waypoints.  If a waypoint has a
    NaN or an infinity among its x and y, it draws nothing and raises
    [ValueError] or [OverflowError]. *)
Theorem render_map_draws_waypoints_in_order self display town_map s w waypoint_list :
  object_at s self = Some (world w) ->
  carla.generate_waypoints town_map = Ok waypoint_list ->
  (exists point_list,
     Forall2 waypoint_at waypoint_list point_list /\
     ModuleWorld.render_map self display town_map s =
       (Return tt, s, [draw_lines (World.surface w) (255, 0, 255) false point_list 1]))
  \/
  (exists e,
     Exists waypoint_off_map waypoint_list /\
     (e = ValueError \/ e = OverflowError) /\
     ModuleWorld.render_map self display town_map s = (Raise e, s, [])).
Proof.
  intros Hself Hway. pose proof (waypoint_points_spec waypoint_list) as Hspec.
  unfold ModuleWorld.render_map. rewrite Hway.
  rewrite (bind_pure _ _ s waypoint_list) by reflexivity.
  destruct (ModuleWorld.waypoint_points waypoint_list) as [point_list|e].
  - left. exists point_list. split; [exact Hspec|].
    rewrite (bind_pure _ _ s point_list) by reflexivity.
    rewrite (bind_pure _ _ s w)
      by (unfold self_world, bind, deref, ret; rewrite Hself; reflexivity).
    reflexivity.
  - right. exists e. destruct Hspec as [Hex He]. repeat split; auto.
Qed.

(** ** The HUD's font and overlay *)

(** X2.  The HUD's font is 'ubuntumono' when it is installed, and otherwise
    the first installed font whose name contains 'mono'; when no installed
    font name contains 'mono' the choice raises [IndexError]. *)
Theorem mono_font_choice (installed : list string) :
  match ModuleHUD._init_hud_params installed with
  | Ok font =>
      In font installed /\ py_in "mono" font = true /\
      (In "ubuntumono" installed -> font = "ubuntumono") /\
      (~ In "ubuntumono" installed ->
       exists before after,
         installed = before ++ font :: after /\
         Forall (fun x => py_in "mono" x = false) before)
  | Err e =>
      e = IndexError /\ Forall (fun x => py_in "mono" x = false) installed
  end.
Proof.
  unfold ModuleHUD._init_hud_params.
  set (fonts := List.filter (fun x => py_in "mono" x) installed).
  assert (Hdefault : existsb (String.eqb "ubuntumono") fonts = true <->
                     In "ubuntumono" installed).
  { rewrite existsb_exists. split.
    - intros (x & Hx & E). apply String.eqb_eq in E. subst x.
      apply filter_In in Hx. tauto.
    - intros H. exists "ubuntumono". split; [|apply String.eqb_refl].
      apply filter_In. split; [exact H | vm_compute; reflexivity]. }
  destruct (existsb (String.eqb "ubuntumono") fonts) eqn:E.
  - assert (Hin : In "ubuntumono" installed) by (apply Hdefault; reflexivity).
    split; [exact Hin|]. split; [vm_compute; reflexivity|].
    split; [reflexivity | intros N; contradiction].
  - assert (Hnot : ~ In "ubuntumono" installed)
      by (intros H; apply Hdefault in H; discriminate H).
    subst fonts. clear E Hdefault.
    induction installed as [|x installed IH]; simpl.
    + split; [reflexivity | constructor].
    + destruct (py_in "mono" x) eqn:Hx.
      * split; [left; reflexivity|]. split; [exact Hx|].
        split; [intros H; contradiction|].
        intros _. exists [], installed. split; [reflexivity | constructor].
      * assert (Hnot' : ~ In "ubuntumono" installed) by (intros H; apply Hnot; right; exact H).
        specialize (IH Hnot').
        destruct (List.filter (fun x0 => py_in "mono" x0) installed) as [|f fs].
        -- destruct IH as [He Hall]. split; [exact He | constructor; assumption].
        -- destruct IH as (Hin & Hm & _ & Hfirst).
           split; [right; exact Hin|]. split; [exact Hm|].
           split; [intros H; contradiction|].
           intros _. destruct (Hfirst Hnot') as (before & after & -> & Hb).
           exists (x :: before), after. split; [reflexivity | constructor; assumption].
Qed.

Lemma no_mono_font installed :
  Forall (fun x => py_in "mono" x = false) installed ->
  ModuleHUD._init_hud_params installed = Err IndexError.
Proof.
  intros Hall. unfold ModuleHUD._init_hud_params.
  assert (E : List.filter (fun x => py_in "mono" x) installed = []).
  { induction Hall as [|x l Hx _ IH]; simpl; [reflexivity|]. rewrite Hx. exact IH. }
  rewrite E. reflexivity.
Qed.

(** X3.  When the connection succeeds and no installed font name contains
    'mono', the construction of the HUD raises [IndexError], which nothing
    catches: [main] ends with it after the window has been created and the
    tick callback registered, with no module registered, no frame played and
    [pygame.quit()] not called. *)
Theorem missing_mono_font_ends_setup (env : environment) (cli : CommandLine) (w h : Z) :
  ints_of (py_split "x" (cli_res cli)) = Ok [w; h] ->
  connection_failure (server env) = None ->
  Forall (fun x => py_in "mono" x = false) (installed_fonts env) ->
  outcome_of (main env cli) initial_state = Raise IndexError /\
  trace_of (main env cli) initial_state =
    [logging_info ("listening to server " ++ cli_host cli ++ ":" ++
                   str_of_int (cli_port cli))%string;
     print __doc__; pygame_init; set_mode (w, h);
     set_caption "CARLA No Rendering Mode Visualizer"; on_tick 1%nat] /\
  modules (state_of (main env cli) initial_state) = [].
Proof.
  intros Hres Hconn Hfonts. apply no_mono_font in Hfonts.
  assert (Hrun : exists s',
    main env cli initial_state =
      (Raise IndexError, s',
       [logging_info ("listening to server " ++ cli_host cli ++ ":" ++
                      str_of_int (cli_port cli))%string;
        print __doc__; pygame_init; set_mode (w, h);
        set_caption "CARLA No Rendering Mode Visualizer"; on_tick 1%nat]) /\
    modules s' = []).
  { unfold main. rewrite Hres. unfold game_loop, ModuleHUD.__init__.
    simpl installed_fonts. rewrite Hfonts.
    destruct env as [[c st gw ot] fonts fs]. unfold connection_failure in Hconn.
    simpl in Hconn. simpl server.
    destruct c as [[]|?]; [|discriminate]. destruct st as [[]|?]; [|discriminate].
    destruct gw as [[]|?]; [|discriminate]. destruct ot as [[]|?]; [|discriminate].
    eexists. split; reflexivity. }
  destruct Hrun as (s' & Hrun & Hmod).
  unfold outcome_of, trace_of, state_of. rewrite Hrun. simpl. auto.
Qed.

Lemma hud_render_items_lines h display items : forall v_offset s,
  exists t,
    ModuleHUD.render_items h display items v_offset s = (Return tt, s, t) /\
    Forall (fun line => fst (snd line) = 8 /\ v_offset <= snd (snd line) /\
                        snd (snd line) + 18 <= snd (HUD.dim h))
      (text_blits t) /\
    (v_offset + 18 * Z.of_nat (length items) <= snd (HUD.dim h) ->
     map fst (text_blits t) = List.filter (fun item => negb (String.eqb item "")) items).
Proof.
  induction items as [|item rest IH]; intros v_offset s.
  - exists []. split; [reflexivity|]. split; [constructor | intros _; reflexivity].
  - cbn [ModuleHUD.render_items].
    destruct (v_offset + 18 >? snd (HUD.dim h)) eqn:Hfit.
    + exists []. split; [reflexivity|]. split; [constructor|].
      intros Hall. apply Z.gtb_lt in Hfit.
      change (length (item :: rest)) with (S (length rest)) in Hall.
      rewrite Nat2Z.inj_succ in Hall. lia.
    + assert (Hle : v_offset + 18 <= snd (HUD.dim h)).
      { destruct (Z.gtb_spec (v_offset + 18) (snd (HUD.dim h))); [discriminate | lia]. }
      destruct (IH (v_offset + 18) s) as (t & Ht & Hb & Hall).
      assert (Hb' : Forall (fun line => fst (snd line) = 8 /\ v_offset <= snd (snd line) /\
                                        snd (snd line) + 18 <= snd (HUD.dim h))
                      (text_blits t)).
      { eapply Forall_impl; [exact Hb|]. intros [txt [x y]]. simpl. lia. }
      assert (Hall' : v_offset + 18 * Z.of_nat (length (item :: rest)) <= snd (HUD.dim h) ->
                      map fst (text_blits t) =
                      List.filter (fun item => negb (String.eqb item "")) rest).
      { intros H. apply Hall.
        change (length (item :: rest)) with (S (length rest)) in H.
        rewrite Nat2Z.inj_succ in H. lia. }
      simpl List.filter. destruct (String.eqb item "") eqn:Hempty; simpl negb.
      * exists t. split; [|split; [exact Hb' | exact Hall']].
        rewrite (bind_pure _ _ s tt) by reflexivity. exact Ht.
      * eexists. split; [eapply run_bind; [reflexivity | exact Ht]|].
        split.
        -- simpl. constructor; [simpl; lia | exact Hb'].
        -- intros H. simpl. f_equal. apply Hall'. exact H.
Qed.

(** X4.  The HUD's [render] always returns and changes nothing.  Each line
    of text it blits goes to x = 8 and to a y from 4 on whose row of 18
    pixels ends within the panel's height, so that no line is drawn below
    the window; when the height has room for every line, the lines drawn
    are the non-empty lines of the text, in order; a hidden HUD draws
    nothing. *)
Theorem hud_lines_stay_within_panel self display s h :
  object_at s self = Some (hud h) ->
  exists t,
    ModuleHUD.render self display s = (Return tt, s, t) /\
    Forall (fun line => fst (snd line) = 8 /\ 4 <= snd (snd line) /\
                        snd (snd line) + 18 <= snd (HUD.dim h))
      (text_blits t) /\
    (HUD._show_info h = true ->
     4 + 18 * Z.of_nat (length (HUD._info_text h)) <= snd (HUD.dim h) ->
     map fst (text_blits t) =
       List.filter (fun item => negb (String.eqb item "")) (HUD._info_text h)) /\
    (HUD._show_info h = false -> t = []).
Proof.
  intros Hself. unfold ModuleHUD.render.
  rewrite (bind_pure _ _ s h)
    by (unfold self_hud, bind, deref, ret; rewrite Hself; reflexivity).
  destruct (HUD._show_info h).
  - destruct (hud_render_items_lines h display (HUD._info_text h) 4 s) as (t & Ht & Hb & Hall).
    eexists. split; [eapply run_bind; [reflexivity|]; eapply run_bind; [reflexivity | exact Ht]|].
    split; [exact Hb|]. split; [intros _; exact Hall | discriminate].
  - exists []. split; [reflexivity|]. split; [constructor|].
    split; [discriminate | reflexivity].
Qed.

(** X5.  The HUD's [tick] makes no call and changes nothing but the text of
    its own HUD: every other object, the registry and the pan and zoom
    state stay as they are; when it raises (a rate that is a NaN or an
    infinity cannot be printed) the state is untouched. *)
Theorem hud_tick_rewrites_text_only self clock s h :
  object_at s self = Some (hud h) ->
  trace_of (ModuleHUD.tick self clock) s = [] /\
  (exists text,
     object_at (state_of (ModuleHUD.tick self clock) s) self =
       Some (hud (HUD.set_info_text text h))) /\
  (forall r, r <> self ->
     object_at (state_of (ModuleHUD.tick self clock) s) r = object_at s r) /\
  modules (state_of (ModuleHUD.tick self clock) s) = modules s /\
  offset_x (state_of (ModuleHUD.tick self clock) s) = offset_x s /\
  offset_y (state_of (ModuleHUD.tick self clock) s) = offset_y s /\
  scale_x (state_of (ModuleHUD.tick self clock) s) = scale_x s /\
  scale_y (state_of (ModuleHUD.tick self clock) s) = scale_y s /\
  (outcome_of (ModuleHUD.tick self clock) s <> Return tt ->
   state_of (ModuleHUD.tick self clock) s = s).
Proof.
  intros Hself.
  assert (Hsame : object_at s self = Some (hud (HUD.set_info_text (HUD._info_text h) h)))
    by (rewrite Hself; destruct h; reflexivity).
  unfold trace_of, state_of, outcome_of, ModuleHUD.tick.
  rewrite (bind_pure _ _ s h)
    by (unfold self_hud, bind, deref, ret; rewrite Hself; reflexivity).
  destruct (HUD._show_info h); cbn [negb]; cbv iota.
  - destruct (format_space_16d (HUD.server_fps h)) as [server|e] eqn:Hs.
    + rewrite (bind_pure _ _ s server) by reflexivity.
      destruct (format_space_16d (PyFloat (pygame.get_fps clock))) as [client|e] eqn:Hc.
      * rewrite (bind_pure _ _ s client) by reflexivity. simpl.
        split; [reflexivity|]. split.
        { eexists. apply object_at_store_eq with (o := hud h). exact Hself. }
        split; [intros r N; apply object_at_store_ne; congruence|].
        repeat (split; [reflexivity|]). intros N. contradiction N. reflexivity.
      * simpl. split; [reflexivity|]. split; [eexists; exact Hsame|].
        repeat (split; [reflexivity|]). reflexivity.
    + simpl. split; [reflexivity|]. split; [eexists; exact Hsame|].
      repeat (split; [reflexivity|]). reflexivity.
  - simpl. split; [reflexivity|]. split; [eexists; exact Hsame|].
    repeat (split; [reflexivity|]). reflexivity.
Qed.

(** ** The input handler's events *)

Lemma for_each_app {A} (l1 l2 : list A) (body : A -> M unit) s s1 t1 :
  for_each l1 body s = (Return tt, s1, t1) ->
  for_each (l1 ++ l2) body s =
    (fst (fst (for_each l2 body s1)), snd (fst (for_each l2 body s1)),
     t1 ++ snd (for_each l2 body s1)).
Proof.
  revert s t1. induction l1 as [|a l1 IH]; intros s t1 H.
  - simpl in H. injection H as <- <-. simpl.
    destruct (for_each l2 body s) as [[r s2] t2]. reflexivity.
  - simpl in H |- *. unfold bind in H |- *.
    destruct (body a s) as [[[[]|e|] sa] ta]; try discriminate H.
    destruct (for_each l1 body sa) as [[r sb] tb] eqn:E.
    injection H as -> -> <-.
    rewrite (IH sa tb E). simpl. rewrite app_assoc. reflexivity.
Qed.

(** X6.  A window-close event or the release of Escape ends the poll of the
    events then and there: the events before it have been handled, the
    registry is emptied, [pygame.quit()] is called and [SystemExit] is
    raised; the events after it are not handled and the mouse is not
    polled. *)
Theorem quit_event_ends_the_poll io self clock s before event after s1 t1 :
  event_get io = before ++ event :: after ->
  is_quit_event event = true ->
  for_each before (ModuleInput.handle_event self) s = (Return tt, s1, t1) ->
  ModuleInput._parse_events io self s =
    (Raise SystemExit, set_modules (fun _ => []) s1, t1 ++ [pygame_quit]) /\
  ModuleInput.tick io self clock s =
    (Raise SystemExit, set_modules (fun _ => []) s1, t1 ++ [pygame_quit]).
Proof.
  intros Hev Hquit Hbefore.
  assert (Hev1 : ModuleInput.handle_event self event s1 =
                 (Raise SystemExit, set_modules (fun _ => []) s1, [pygame_quit])).
  { destruct event as [|key|button pos|]; try discriminate Hquit.
    - reflexivity.
    - simpl in Hquit. simpl. rewrite Hquit. reflexivity. }
  assert (Hpoll : ModuleInput._parse_events io self s =
                  (Raise SystemExit, set_modules (fun _ => []) s1, t1 ++ [pygame_quit])).
  { unfold ModuleInput._parse_events. rewrite Hev.
    rewrite (for_each_app before (event :: after) _ s s1 t1 Hbefore).
    simpl for_each. rewrite (bind_Raise _ _ _ _ _ _ Hev1). reflexivity. }
  split; [exact Hpoll|].
  unfold ModuleInput.tick, ModuleInput.parse_input.
  apply bind_Raise. exact Hpoll.
Qed.

(** X7.  When a button other than the wheel goes down and the left button
    is then found held in the same tick, the pan offsets move by the
    pointer's travel since the press was handled (from the position
    [pygame.mouse.get_pos()] answered then), whatever position the handler
    remembered before: a click does not make the map jump.  The zoom is
    left alone. *)
Theorem drag_is_measured_from_the_press io self clock s i button press :
  object_at s self = Some (input i) ->
  event_get io = [pygame.MOUSEBUTTONDOWN button press] ->
  button <> 4 -> button <> 5 ->
  fst (fst (mouse_get_pressed io)) = true ->
  let s' := state_of (ModuleInput.tick io self clock) s in
  outcome_of (ModuleInput.tick io self clock) s = Return tt /\
  trace_of (ModuleInput.tick io self clock) s = [] /\
  offset_x s' = offset_x s + (fst (mouse_get_pos io) - fst press) /\
  offset_y s' = offset_y s + (snd (mouse_get_pos io) - snd press) /\
  object_at s' self = Some (input (Input.set_mouse_pos (mouse_get_pos io) i)) /\
  scale_x s' = scale_x s /\ scale_y s' = scale_y s.
Proof.
  intros Hself Hev H4 H5 Hheld s'. subst s'.
  set (s1 := set_heap (fun m => <[self := Some (input (Input.set_mouse_pos press i))]> m) s).
  assert (Hs1 : object_at s1 self = Some (input (Input.set_mouse_pos press i)))
    by (apply object_at_store_eq with (o := input i); exact Hself).
  assert (Hevents : ModuleInput._parse_events io self s = (Return tt, s1, [])).
  { unfold ModuleInput._parse_events. rewrite Hev. simpl for_each.
    unfold ModuleInput.handle_event.
    apply Z.eqb_neq in H4. apply Z.eqb_neq in H5. rewrite H4, H5.
    unfold self_input, bind, deref, store, modify, ret. rewrite Hself. reflexivity. }
  pose proof (parse_mouse_held io self s1 (Input.set_mouse_pos press i) Hheld Hs1) as Hm.
  assert (Htick : ModuleInput.tick io self clock s =
                  (Return tt, snd (fst (ModuleInput._parse_mouse io self s1)), [])).
  { unfold ModuleInput.tick, ModuleInput.parse_input, ModuleInput._parse_keys.
    eapply (run_bind _ _ _ tt s1 [] _ _ []); [exact Hevents|].
    eapply (run_bind _ _ _ tt s1 [] _ _ []); [reflexivity|].
    rewrite Hm. reflexivity. }
  unfold outcome_of, trace_of, state_of. rewrite Htick, Hm. simpl.
  split; [reflexivity|]. split; [reflexivity|]. split; [reflexivity|].
  split; [reflexivity|]. split; [|split; reflexivity].
  apply object_at_store_eq with (o := input (Input.set_mouse_pos press i)).
  exact Hs1.
Qed.

(** ** How runs of the program end *)

Section after_calm_frames.
Variables (display : pygame.Surface) (i : Input.t) (w : World.t) (cw : carla.World).
Variables (ox oy : Z) (sx sy vx vy : py_num) (width height : Z).
Hypothesis Hworld : World.world w = Some cw.
Hypothesis Hvx : py_mul (PyInt 1280) sx = Ok vx.
Hypothesis Hwidth : py_int vx = Ok width.
Hypothesis Hvy : py_mul (PyInt 720) sy = Ok vy.
Hypothesis Hheight : py_int vy = Ok height.

(** Uneventful frames change the HUD's text and nothing else of the state
    the next frame starts from. *)
Lemma calm_frames_run calm : forall h server,
  Forall calm_frame calm ->
  HUD._show_info h = true ->
  format_space_16d (HUD.server_fps h) = Ok server ->
  exists h' t,
    same_but_text h h' /\
    forall rest r s2 t2,
      run_frames rest display (standing_state i w h' ox oy sx sy) = (r, s2, t2) ->
      run_frames (calm ++ rest) display (standing_state i w h ox oy sx sy) = (r, s2, t ++ t2).
Proof.
  induction calm as [|c calm IH]; intros h server Hcalm Hshow Hs.
  - exists h, []. split; [apply same_but_text_refl|]. intros rest r s2 t2 H. exact H.
  - inversion Hcalm as [|? ? Hc Hcalm']; subst.
    destruct (calm_frame_run display i w cw ox oy sx sy vx vy width height
                Hworld Hvx Hwidth Hvy Hheight c h server Hc Hshow Hs)
      as (h1 & t1 & Hsame1 & Hrun1).
    destruct (same_but_text_server h h1 Hsame1) as [Hshow1 Hfps1].
    destruct (IH h1 server Hcalm') as (h2 & t2 & Hsame2 & Hrun2).
    { rewrite Hshow1. exact Hshow. }
    { rewrite Hfps1. exact Hs. }
    exists h2, (t1 ++ t2). split.
    + destruct Hsame1 as [x1 ->]. destruct Hsame2 as [x2 ->]. exists x2. reflexivity.
    + intros rest r s3 t3 H. rewrite <- app_assoc. simpl app.
      apply Hrun1. apply Hrun2. exact H.
Qed.

(** The frame in which the input handler meets a shutdown event first. *)
Lemma quit_frame_run f rest h event more :
  event_get (tick_inputs f 0%nat) = event :: more ->
  is_quit_event event = true ->
  run_frames (f :: rest) display (standing_state i w h ox oy sx sy) =
    (Raise SystemExit, set_modules (fun _ => []) (standing_state i w h ox oy sx sy),
     [tick_busy_loop 60; tick_call 0%nat (clock f); pygame_quit]).
Proof.
  intros Hev Hquit. cbn [run_frames].
  change [tick_busy_loop 60; tick_call 0%nat (clock f); pygame_quit]
    with ([tick_busy_loop 60] ++ [tick_call 0%nat (clock f); pygame_quit]).
  eapply (run_bind _ _ _ tt _ [tick_busy_loop 60]); [reflexivity|].
  apply bind_Raise. unfold ModuleManager.tick.
  rewrite (bind_pure _ _ _ [0%nat; 2%nat; 1%nat]) by reflexivity.
  cbn [ModuleManager.tick_from].
  change [tick_call 0%nat (clock f); pygame_quit]
    with ([tick_call 0%nat (clock f)] ++ [pygame_quit]).
  eapply (run_bind _ _ _ tt _ [tick_call 0%nat (clock f)]); [reflexivity|].
  apply bind_Raise.
  rewrite (module_tick_at _ _ _ _ (input i)) by reflexivity.
  unfold ModuleInput.tick, ModuleInput.parse_input. apply bind_Raise.
  unfold ModuleInput._parse_events. rewrite Hev. simpl for_each. apply bind_Raise.
  destruct event as [|key|button pos|]; try discriminate Hquit.
  - reflexivity.
  - simpl in Hquit. simpl. rewrite Hquit. reflexivity.
Qed.
End after_calm_frames.

Lemma main_catches_interrupt env cli w h s' t :
  ints_of (py_split "x" (cli_res cli)) = Ok [w; h] ->
  game_loop env
    {| debug := cli_debug cli; host := cli_host cli; port := cli_port cli;
       res := cli_res cli; description := "CARLA No Rendering Mode Visualizer";
       width := w; height := h |} initial_state = (Raise KeyboardInterrupt, s', t) ->
  main env cli initial_state =
    (Return tt, s',
     [logging_info ("listening to server " ++ cli_host cli ++ ":" ++
                    str_of_int (cli_port cli))%string; print __doc__] ++ t ++
     [print (newline ++ "Cancelled by user. Bye!")%string]).
Proof.
  intros Hres Hloop. unfold main. rewrite Hres.
  rewrite (bind_pure _ _ _ [w; h]) by reflexivity.
  change ([logging_info ("listening to server " ++ cli_host cli ++ ":" ++
                         str_of_int (cli_port cli))%string; print __doc__] ++ t ++
          [print (newline ++ "Cancelled by user. Bye!")%string])
    with ([logging_info ("listening to server " ++ cli_host cli ++ ":" ++
                         str_of_int (cli_port cli))%string] ++ [print __doc__] ++ t ++
          [print (newline ++ "Cancelled by user. Bye!")%string]).
  eapply (run_bind _ _ _ tt _ [logging_info _]); [reflexivity|].
  eapply (run_bind _ _ _ tt _ [print _]); [reflexivity|].
  unfold try_except. simpl host. simpl port. rewrite Hloop. reflexivity.
Qed.

(** X8.  After any number of uneventful frames, a frame whose first event is
    a window close or the release of Escape ends the program through
    [exit_game]: [main] ends with [SystemExit], the registry is empty, and
    the last calls are the frame's clock tick, the dispatch of the input
    handler's tick and [pygame.quit()]; in that frame the HUD and the world
    view are not ticked and nothing is rendered. *)
Theorem quit_event_shuts_down_before_rendering
    env cli w h mono calm f rest event more :
  ints_of (py_split "x" (cli_res cli)) = Ok [w; h] ->
  connection_failure (server env) = None ->
  ModuleHUD._init_hud_params (installed_fonts env) = Ok mono ->
  frames env = calm ++ f :: rest ->
  Forall calm_frame calm ->
  event_get (tick_inputs f 0%nat) = event :: more ->
  is_quit_event event = true ->
  outcome_of (main env cli) initial_state = Raise SystemExit /\
  modules (state_of (main env cli) initial_state) = [] /\
  exists t,
    trace_of (main env cli) initial_state =
      t ++ [tick_busy_loop 60; tick_call 0%nat (clock f); pygame_quit].
Proof.
  intros Hres Hconn Hfonts Hframes Hcalm Hev Hquit.
  set (args := {| debug := cli_debug cli; host := cli_host cli; port := cli_port cli;
                  res := cli_res cli; description := "CARLA No Rendering Mode Visualizer";
                  width := w; height := h |}).
  destruct (calm_frames_run (pygame.display (w, h)) program_input (program_world args)
              (carla.world_of (host args) (port args)) 250 250 (PyInt 1) (PyInt 1)
              (PyInt 1280) (PyInt 720) 1280 720 eq_refl eq_refl eq_refl eq_refl eq_refl
              calm (program_hud args mono) "               0" Hcalm eq_refl eq_refl)
    as (h' & t & _ & Hrun).
  pose proof (quit_frame_run (pygame.display (w, h)) program_input (program_world args)
                250 250 (PyInt 1) (PyInt 1) f rest h' event more Hev Hquit) as Hq.
  apply Hrun in Hq. rewrite <- Hframes in Hq.
  pose proof (game_loop_setup env args mono _ _ _ Hconn Hfonts Hq) as Hloop.
  assert (Hne : SystemExit <> KeyboardInterrupt) by discriminate.
  pose proof (main_passes_exception env cli w h SystemExit _ _ Hres Hne Hloop) as Hmain.
  unfold outcome_of, state_of, trace_of. rewrite Hmain.
  split; [reflexivity|]. split; [reflexivity|].
  exists ([logging_info ("listening to server " ++ cli_host cli ++ ":" ++
                         str_of_int (cli_port cli))%string; print __doc__;
           pygame_init; set_mode (width args, height args);
           set_caption (description args); on_tick 1%nat] ++ t).
  simpl. reflexivity.
Qed.

(** X9.  A [KeyboardInterrupt] that reaches [main] out of the frame loop
    (here: raised by the fetch, after any number of uneventful frames) is
    caught there: [main] prints the cancellation message as its last call
    and returns; [exit_game] is not run, so [pygame.quit()] is not called
    and the modules stay registered. *)
Theorem keyboard_interrupt_is_reported env cli w h mono calm f rest :
  ints_of (py_split "x" (cli_res cli)) = Ok [w; h] ->
  connection_failure (server env) = None ->
  ModuleHUD._init_hud_params (installed_fonts env) = Ok mono ->
  frames env = calm ++ f :: rest ->
  Forall calm_frame calm ->
  failing_frame f KeyboardInterrupt ->
  outcome_of (main env cli) initial_state = Return tt /\
  (exists t,
     trace_of (main env cli) initial_state =
       t ++ [print (newline ++ "Cancelled by user. Bye!")%string]) /\
  ~ In pygame_quit (trace_of (main env cli) initial_state) /\
  modules (state_of (main env cli) initial_state) = [0%nat; 2%nat; 1%nat].
Proof.
  intros Hres Hconn Hfonts Hframes Hcalm Hfail.
  set (args := {| debug := cli_debug cli; host := cli_host cli; port := cli_port cli;
                  res := cli_res cli; description := "CARLA No Rendering Mode Visualizer";
                  width := w; height := h |}).
  destruct (frames_until_failure (pygame.display (w, h)) program_input (program_world args)
              (carla.world_of (host args) (port args)) 250 250 (PyInt 1) (PyInt 1)
              (PyInt 1280) (PyInt 720) 1280 720 eq_refl eq_refl eq_refl eq_refl eq_refl
              calm f rest KeyboardInterrupt (program_hud args mono) "               0"
              Hcalm Hfail eq_refl eq_refl) as (h' & t & Hsame & Hrun).
  rewrite <- Hframes in Hrun.
  pose proof (game_loop_setup env args mono _ _ _ Hconn Hfonts Hrun) as Hloop.
  pose proof (main_catches_interrupt env cli w h _ _ Hres Hloop) as Hmain.
  assert (Hout : outcome_of (main env cli) initial_state = Return tt)
    by (unfold outcome_of; rewrite Hmain; reflexivity).
  split; [exact Hout|]. split; [|split].
  - unfold trace_of. rewrite Hmain.
    exists ([logging_info ("listening to server " ++ cli_host cli ++ ":" ++
                           str_of_int (cli_port cli))%string; print __doc__] ++
            [pygame_init; set_mode (width args, height args);
             set_caption (description args); on_tick 1%nat] ++ t).
    simpl. rewrite <- ?app_assoc. reflexivity.
  - intros Hin. destruct (orderly_main env cli initial_state) as (_ & _ & Hexit).
    rewrite (Hexit Hin) in Hout. discriminate Hout.
  - unfold state_of. rewrite Hmain. reflexivity.
Qed.

(** X10.  A [KeyboardInterrupt] raised by one of the calls of the connection
    is not a connection failure: the handler of [ModuleWorld.__init__]
    catches [Exception] only, so no error is logged and [exit_game] is not
    run; [main] prints the cancellation message and returns, with nothing
    registered and no frame played. *)
Theorem interrupt_during_connection_is_not_a_failure env cli w h :
  ints_of (py_split "x" (cli_res cli)) = Ok [w; h] ->
  connection_failure (server env) = Some KeyboardInterrupt ->
  outcome_of (main env cli) initial_state = Return tt /\
  trace_of (main env cli) initial_state =
    [logging_info ("listening to server " ++ cli_host cli ++ ":" ++
                   str_of_int (cli_port cli))%string;
     print __doc__; pygame_init; set_mode (w, h);
     set_caption "CARLA No Rendering Mode Visualizer";
     print (newline ++ "Cancelled by user. Bye!")%string] /\
  modules (state_of (main env cli) initial_state) = [].
Proof.
  intros Hres Hfail.
  assert (Hrun : exists s',
    main env cli initial_state =
      (Return tt, s',
       [logging_info ("listening to server " ++ cli_host cli ++ ":" ++
                      str_of_int (cli_port cli))%string;
        print __doc__; pygame_init; set_mode (w, h);
        set_caption "CARLA No Rendering Mode Visualizer";
        print (newline ++ "Cancelled by user. Bye!")%string]) /\
    modules s' = []).
  { unfold main. rewrite Hres.
    destruct env as [[c st gw ot] fonts fs]. unfold connection_failure in Hfail.
    simpl in Hfail. unfold game_loop, ModuleWorld.__init__. simpl server.
    simpl carla.Client. simpl carla.set_timeout. simpl carla.get_world. simpl carla.on_tick.
    destruct c as [[]|e1]; [destruct st as [[]|e2]; [destruct gw as [[]|e3];
      [destruct ot as [[]|e4]; [discriminate|]|]|]|];
      injection Hfail as ->; eexists; (split; [reflexivity | reflexivity]). }
  destruct Hrun as (s' & Hrun & Hmod).
  unfold outcome_of, trace_of, state_of. rewrite Hrun. simpl. auto.
Qed.

(** ** The resolution *)

Lemma py_split_length sep s : length (py_split sep s) = S (count_char sep s).
Proof.
  induction s as [|a s IH]; [reflexivity|]. simpl.
  destruct (Ascii.eqb a sep); simpl.
  - rewrite IH. reflexivity.
  - destruct (py_split sep s) as [|piece pieces]; [discriminate IH | exact IH].
Qed.

Lemma ints_of_spec l :
  match ints_of l with
  | Ok zs => length zs = length l
  | Err e => e = ValueError
  end.
Proof.
  induction l as [|s l IH]; simpl; [reflexivity|].
  unfold int_of_str at 1.
  match goal with
  | |- context [match ?p with Some z => Ok z | None => Err ValueError end] =>
      destruct p as [z|]
  end; [|reflexivity].
  destruct (ints_of l) as [zs|e]; simpl; [congruence | exact IH].
Qed.

(** X11.  [--res] must hold exactly one 'x' with an integer on each side:
    whenever the pieces between the 'x's are not exactly two integers,
    [main] raises [ValueError] before it has logged, printed or opened
    anything; and a resolution that is accepted contains exactly one
    'x'. *)
Theorem malformed_resolution_is_rejected_first :
  (forall env cli s,
     (forall w h, ints_of (py_split "x" (cli_res cli)) <> Ok [w; h]) ->
     main env cli s = (Raise ValueError, s, [])) /\
  (forall res w h,
     ints_of (py_split "x" res) = Ok [w; h] -> count_char "x" res = 1%nat) /\
  (forall env cli s,
     count_char "x" (cli_res cli) <> 1%nat ->
     main env cli s = (Raise ValueError, s, [])).
Proof.
  assert (Reject : forall env cli s,
            (forall w h, ints_of (py_split "x" (cli_res cli)) <> Ok [w; h]) ->
            main env cli s = (Raise ValueError, s, [])).
  { intros env cli s Hbad. unfold main.
    pose proof (ints_of_spec (py_split "x" (cli_res cli))) as Hspec.
    destruct (ints_of (py_split "x" (cli_res cli))) as [zs|e].
    - rewrite (bind_pure _ _ s zs) by reflexivity.
      destruct zs as [|w [|h [|more zs]]]; try reflexivity.
      exfalso. apply (Hbad w h). reflexivity.
    - subst e. reflexivity. }
  assert (One : forall res w h,
            ints_of (py_split "x" res) = Ok [w; h] -> count_char "x" res = 1%nat).
  { intros res w h H. pose proof (ints_of_spec (py_split "x" res)) as Hspec.
    rewrite H in Hspec. rewrite py_split_length in Hspec. simpl in Hspec. lia. }
  split; [exact Reject|]. split; [exact One|].
  intros env cli s Hcount. apply Reject. intros w h H. apply Hcount.
  apply (One _ w h H).
Qed.

(** ** What the steps of the program keep *)

Section disciplined_steps.
Context `{D : Discipline}.

Lemma respects_still {A} (r : outcome A) : respects (fun s => (r, s, [])).
Proof. intros s. apply step_nil. Qed.

Lemma respects_ret {A} (a : A) : respects (ret a).
Proof. apply respects_still. Qed.

Lemma respects_raise {A} (e : exn) : respects (@raise A e).
Proof. apply respects_still. Qed.

Lemma respects_wrong {A} : respects (@wrong A).
Proof. apply respects_still. Qed.

Lemma respects_lift {A} (r : result A) : respects (lift r).
Proof. destruct r; [apply respects_ret | apply respects_raise]. Qed.

Lemma respects_gets {A} (f : state -> A) : respects (gets f).
Proof. intros s. apply step_nil. Qed.

Lemma respects_deref r : respects (deref r).
Proof. intros s. unfold trace_of, state_of, deref. destruct (object_at s r); apply step_nil. Qed.

Lemma respects_bind {A B} (m : M A) (k : A -> M B) :
  respects m -> (forall a, respects (k a)) -> respects (bind m k).
Proof.
  intros Hm Hk s. specialize (Hm s). unfold trace_of, state_of, bind in *.
  destruct (m s) as [[[a|e|] s1] t1]; simpl in *; try exact Hm.
  specialize (Hk a s1). unfold trace_of, state_of in Hk.
  destruct (k a s1) as [[r2 s2] t2]; simpl in *.
  eapply step_app; eassumption.
Qed.

Lemma respects_for_each {A} (l : list A) (body : A -> M unit) :
  (forall a, respects (body a)) -> respects (for_each l body).
Proof.
  intros Hbody. induction l as [|a l IH]; simpl.
  - apply respects_ret.
  - apply respects_bind; [apply Hbody | intros _; exact IH].
Qed.

Lemma respects_try_except {A} (body : M A) classes handler :
  respects body -> (forall e, respects (handler e)) ->
  respects (try_except body classes handler).
Proof.
  intros Hb Hh s. specialize (Hb s). unfold trace_of, state_of, try_except in *.
  destruct (body s) as [[[a|e|] s1] t1]; simpl in *; try exact Hb.
  destruct (classes e); simpl; [|exact Hb].
  specialize (Hh e s1). unfold trace_of, state_of in Hh.
  destruct (handler e s1) as [[r2 s2] t2]; simpl in *.
  eapply step_app; eassumption.
Qed.

Lemma respects_emit (c : call) : (forall s, step s [c] s) -> respects (emit c).
Proof. intros H s. apply H. Qed.

Lemma respects_modify (f : state -> state) :
  (forall s, step s [] (f s)) -> respects (modify f).
Proof. intros H s. apply H. Qed.

Lemma respects_store r o :
  (forall s f, step s [] (set_heap f s)) -> respects (store r o).
Proof. intros H s. apply H. Qed.

Lemma respects_alloc o :
  (forall s f, step s [] (set_heap f s)) -> respects (alloc o).
Proof. intros H s. apply H. Qed.

Lemma respects_exit_game {A} :
  (forall s, step s [pygame_quit] (set_modules (fun _ => []) s)) ->
  respects (@exit_game A).
Proof.
  intros H s. unfold trace_of, state_of. rewrite exit_game_run. apply H.
Qed.

Lemma respects_self_hud self : respects (self_hud self).
Proof.
  apply respects_bind; [apply respects_deref|].
  intros [h|w|i]; [apply respects_ret | apply respects_wrong | apply respects_wrong].
Qed.

Lemma respects_self_world self : respects (self_world self).
Proof.
  apply respects_bind; [apply respects_deref|].
  intros [h|w|i]; [apply respects_wrong | apply respects_ret | apply respects_wrong].
Qed.

Lemma respects_self_input self : respects (self_input self).
Proof.
  apply respects_bind; [apply respects_deref|].
  intros [h|w|i]; [apply respects_wrong | apply respects_wrong | apply respects_ret].
Qed.
End disciplined_steps.

Create HintDb respects.
#[export] Hint Resolve respects_ret respects_raise respects_wrong respects_lift
  respects_gets respects_deref respects_self_hud respects_self_world
  respects_self_input : respects.

(** Closes the respect of straight-line code, given a tactic for the side
    conditions of its calls and writes. *)
Ltac respects_steps side :=
  repeat first
    [ match goal with |- forall _, _ => intro end
    | apply respects_exit_game; solve [side]
    | apply respects_bind
    | apply respects_for_each
    | apply respects_try_except
    | apply respects_modify; solve [side]
    | apply respects_store; solve [side]
    | apply respects_alloc; solve [side]
    | apply respects_emit; solve [side]
    | solve [ auto with respects ]
    | match goal with
      | |- respects (if ?b then _ else _) => destruct b
      | |- respects (match ?x with _ => _ end) => destruct x
      | |- respects (let '(_, _) := ?p in _) => destruct p
      end ].

(** The render side of the three classes, under a discipline that every
    call which is neither a set-up call nor [pygame.quit()] respects. *)
Section disciplined_frames.
Context `{D : Discipline}.
Hypothesis Hcall : forall c s, is_setup c = false -> c <> pygame_quit -> step s [c] s.

Lemma respects_hud_render self display : respects (ModuleHUD.render self display).
Proof.
  unfold ModuleHUD.render.
  apply respects_bind; [apply respects_self_hud|]. intros h.
  destruct (HUD._show_info h); [|apply respects_ret].
  apply respects_bind; [apply respects_emit; intros s; apply Hcall; [reflexivity | discriminate]|].
  intros _.
  apply respects_bind; [apply respects_emit; intros s; apply Hcall; [reflexivity | discriminate]|].
  intros _. generalize 4. induction (HUD._info_text h) as [|item rest IH]; intros v; simpl.
  - apply respects_ret.
  - destruct (v + 18 >? snd (HUD.dim h)); [apply respects_ret|].
    apply respects_bind; [|intros _; apply IH].
    destruct (String.eqb item ""); [apply respects_ret|].
    apply respects_emit. intros s. apply Hcall; [reflexivity | discriminate].
Qed.

Lemma respects_world_render io self display : respects (ModuleWorld.render io self display).
Proof.
  unfold ModuleWorld.render, ModuleWorld.render_map, ModuleWorld.render_actors.
  respects_steps ltac:(intros; apply Hcall; [reflexivity | discriminate]).
Qed.

Lemma respects_module_render io r display : respects (module_render io r display).
Proof.
  simpl. apply respects_bind; [apply respects_deref|].
  intros [h|w|i];
    [apply respects_hud_render | apply respects_world_render | apply respects_ret].
Qed.

Lemma respects_render_pass io display : respects (ModuleManager.render io display).
Proof.
  unfold ModuleManager.render.
  apply respects_bind; [apply respects_emit; intros s; apply Hcall; [reflexivity | discriminate]|].
  intros _. apply respects_bind; [apply respects_gets|]. intros ms.
  generalize 0%nat. induction ms as [|module rest IH]; intros k; simpl.
  - apply respects_ret.
  - apply respects_bind;
      [apply respects_emit; intros s; apply Hcall; [reflexivity | discriminate]|].
    intros _. apply respects_bind; [apply respects_module_render|]. intros _. apply IH.
Qed.

(** The tick side and the frame loop, under a discipline that writes to the
    heap and to the pan offsets respect, and that the handling of an event
    respects. *)
Hypothesis Hheap : forall s f, step s [] (set_heap f s).
Hypothesis Hoffset_x : forall s v, step s [] (set_offset_x v s).
Hypothesis Hoffset_y : forall s v, step s [] (set_offset_y v s).
Hypothesis Hevent : forall self event, respects (ModuleInput.handle_event self event).

Lemma respects_hud_tick self clock : respects (ModuleHUD.tick self clock).
Proof.
  unfold ModuleHUD.tick. respects_steps ltac:(intros; apply Hheap).
Qed.

Lemma respects_input_tick io self clock : respects (ModuleInput.tick io self clock).
Proof.
  unfold ModuleInput.tick, ModuleInput.parse_input, ModuleInput._parse_events,
    ModuleInput._parse_keys, ModuleInput._parse_mouse.
  apply respects_bind; [apply respects_for_each; intros event; apply Hevent|]. intros _.
  apply respects_bind; [apply respects_ret|]. intros _.
  respects_steps ltac:(intros; first [apply Hheap | apply Hoffset_x | apply Hoffset_y]).
Qed.

Lemma respects_module_tick io r clock : respects (module_tick io r clock).
Proof.
  simpl. apply respects_bind; [apply respects_deref|].
  intros [h|w|i];
    [apply respects_hud_tick | apply respects_ret | apply respects_input_tick].
Qed.

Lemma respects_tick_pass io clock : respects (ModuleManager.tick io clock).
Proof.
  unfold ModuleManager.tick. apply respects_bind; [apply respects_gets|]. intros ms.
  generalize 0%nat. induction ms as [|module rest IH]; intros k; simpl.
  - apply respects_ret.
  - apply respects_bind;
      [apply respects_emit; intros s; apply Hcall; [reflexivity | discriminate]|].
    intros _. apply respects_bind; [apply respects_module_tick|]. intros _. apply IH.
Qed.

Lemma respects_run_frames fs display : respects (run_frames fs display).
Proof.
  induction fs as [|f rest IH]; simpl.
  - apply respects_ret.
  - apply respects_bind;
      [apply respects_emit; intros s; apply Hcall; [reflexivity | discriminate]|].
    intros _. apply respects_bind; [apply respects_tick_pass|]. intros _.
    apply respects_bind; [apply respects_render_pass|]. intros _.
    apply respects_bind;
      [apply respects_emit; intros s; apply Hcall; [reflexivity | discriminate]|].
    intros _. exact IH.
Qed.
End disciplined_frames.

(** *** Rendering changes nothing *)

#[local] Instance unchanged : Discipline := {|
  step s t s' := s' = s;
  step_nil s := eq_refl;
  step_app s1 t1 s2 t2 s3 H12 H23 := eq_trans H23 H12
|}.

(** X12.  Rendering reads the state and never writes it: after the render
    pass of any registry, and after the [render] of the world view or of the
    HUD alone, the heap, the registry and the pan and zoom state are what
    they were, whether the rendering returned or raised. *)
Theorem rendering_changes_nothing (io : nat -> inputs) (display : pygame.Surface)
    (s : state) :
  state_of (ModuleManager.render io display) s = s /\
  (forall k self, state_of (ModuleWorld.render (io k) self display) s = s) /\
  (forall self, state_of (ModuleHUD.render self display) s = s).
Proof.
  assert (Hcall : forall c s0, is_setup c = false -> c <> pygame_quit ->
                               @step unchanged s0 [c] s0) by (intros; reflexivity).
  split; [|split].
  - apply (@respects_render_pass unchanged Hcall io display s).
  - intros k self. apply (@respects_world_render unchanged Hcall (io k) self display s).
  - intros self. apply (@respects_hud_render unchanged Hcall self display s).
Qed.

(** *** The zoom stays uniform *)

#[local] Instance uniform_zoom : Discipline := {|
  step s t s' := scale_x s = scale_y s -> scale_x s' = scale_y s';
  step_nil s := fun H => H;
  step_app s1 t1 s2 t2 s3 H12 H23 := fun H => H23 (H12 H)
|}.

Lemma handle_event_keeps_zoom_uniform self event :
  @respects uniform_zoom _ (ModuleInput.handle_event self event).
Proof.
  intros s. unfold step, uniform_zoom, trace_of, state_of.
  destruct s as [hp ms ox oy sx sy]. simpl. intros <-.
  destruct event as [|key|button pos|]; simpl.
  - reflexivity.
  - destruct (key =? pygame.K_ESCAPE); reflexivity.
  - unfold self_input, bind, deref, store, modify, gets, lift, ret, wrong, raise, emit,
      object_at. simpl.
    repeat (case_match; simplify_eq; simpl in *); congruence.
  - reflexivity.
Qed.

Lemma frames_keep_zoom_uniform fs display :
  @respects uniform_zoom _ (run_frames fs display).
Proof.
  apply (@respects_run_frames uniform_zoom).
  - intros c s _ _ H. exact H.
  - intros s f H. exact H.
  - intros s v H. exact H.
  - intros s v H. exact H.
  - exact handle_event_keeps_zoom_uniform.
Qed.

(** X14.  The two zoom factors are always equal: every wheel event changes
    both by the same step (or, when the step cannot be taken, neither), and
    nothing else writes them; so a run of [main] that starts with equal
    factors, as the program does, ends with equal factors, however it
    ends. *)
Theorem zoom_stays_uniform env cli s :
  scale_x s = scale_y s ->
  scale_x (state_of (main env cli) s) = scale_y (state_of (main env cli) s).
Proof.
  revert s. change (@respects uniform_zoom _ (main env cli)).
  unfold main. apply respects_bind; [apply respects_lift|].
  intros [|w [|h [|more sizes]]]; try apply respects_raise.
  apply respects_bind; [apply respects_emit; intros s H; exact H|]. intros _.
  apply respects_bind; [apply respects_emit; intros s H; exact H|]. intros _.
  apply respects_try_except; [|intros e; apply respects_emit; intros s H; exact H].
  unfold game_loop, ModuleInput.__init__, ModuleWorld.__init__, ModuleHUD.__init__,
    ModuleManager.register_module.
  respects_steps ltac:(intros; intros H; exact H).
  apply frames_keep_zoom_uniform.
Qed.

(** *** The registry during the frame loop *)

Lemma registry_step_nil s : registry_step s [] s.
Proof. split; [constructor|]. left. split; [intros [] | reflexivity]. Qed.

Lemma registry_step_app s1 t1 s2 t2 s3 :
  registry_step s1 t1 s2 -> registry_step s2 t2 s3 -> registry_step s1 (t1 ++ t2) s3.
Proof.
  intros [F1 H1] [F2 H2]. split; [apply Forall_app; split; assumption|].
  destruct H2 as [[N2 M2] | [I2 M2]].
  - destruct H1 as [[N1 M1] | [I1 M1]].
    + left. split; [|congruence]. intros Hin. apply in_app_or in Hin. tauto.
    + right. split; [apply in_or_app; left; exact I1 | congruence].
  - right. split; [apply in_or_app; right; exact I2 | exact M2].
Qed.

#[local] Instance registry_kept : Discipline := {|
  step := registry_step;
  step_nil := registry_step_nil;
  step_app := registry_step_app
|}.

Lemma registry_step_call c s :
  is_setup c = false -> c <> pygame_quit -> registry_step s [c] s.
Proof.
  intros Hc Hq. split; [constructor; [exact Hc | constructor]|].
  left. split; [|reflexivity]. intros [E|[]]. congruence.
Qed.

Lemma registry_step_silent s s' : modules s' = modules s -> registry_step s [] s'.
Proof. intros E. split; [constructor|]. left. split; [intros [] | exact E]. Qed.

Lemma handle_event_keeps_registry self event :
  @respects registry_kept _ (ModuleInput.handle_event self event).
Proof.
  unfold ModuleInput.handle_event.
  respects_steps ltac:(first
    [ intros; apply registry_step_silent; reflexivity
    | intros; apply registry_step_call; [reflexivity | discriminate]
    | intros; split; [repeat constructor|]; right; split; [left|]; reflexivity ]).
Qed.

Lemma frames_keep_registry fs display :
  @respects registry_kept _ (run_frames fs display).
Proof.
  apply (@respects_run_frames registry_kept).
  - intros c s Hc Hq. apply registry_step_call; assumption.
  - intros s f. apply registry_step_silent. reflexivity.
  - intros s v. apply registry_step_silent. reflexivity.
  - intros s v. apply registry_step_silent. reflexivity.
  - exact handle_event_keeps_registry.
Qed.

(** X17.  The frame loop never repeats the set-up ([pygame.init()], the
    creation or the caption of the window, the registration of the tick
    callback), and it changes the registry in one way only: the registry is
    emptied when [pygame.quit()] is called, and it is otherwise what it was
    when the loop began; in particular it is unchanged whenever the loop
    ends otherwise than by [SystemExit]. *)
Theorem frame_loop_keeps_the_registry (fs : list frame) (display : pygame.Surface)
    (s : state) :
  Forall (fun c => is_setup c = false) (trace_of (run_frames fs display) s) /\
  (In pygame_quit (trace_of (run_frames fs display) s) ->
   modules (state_of (run_frames fs display) s) = [] /\
   outcome_of (run_frames fs display) s = Raise SystemExit) /\
  (~ In pygame_quit (trace_of (run_frames fs display) s) ->
   modules (state_of (run_frames fs display) s) = modules s) /\
  (outcome_of (run_frames fs display) s <> Raise SystemExit ->
   modules (state_of (run_frames fs display) s) = modules s).
Proof.
  destruct (frames_keep_registry fs display s) as [Hsetup Hreg].
  destruct (orderly_run_frames fs display s) as (_ & _ & Hexit).
  split; [exact Hsetup|]. split; [|split].
  - intros Hin. split; [|exact (Hexit Hin)].
    destruct Hreg as [[N _] | [_ E]]; [contradiction | exact E].
  - intros N. destruct Hreg as [[_ E] | [I _]]; [exact E | contradiction].
  - intros Hout. destruct Hreg as [[_ E] | [I _]]; [exact E|].
    contradiction Hout. exact (Hexit I).
Qed.

(** ** Registering and looking up *)

(** The lookup makes no call, leaves the state alone, and its answer
    depends only on the names under which the references are registered. *)
Lemma get_module_in_names ms name s :
  exists answer,
    ModuleManager.get_module_in ms name s = (answer, s, []) /\
    forall s',
      (forall r, In r ms -> registered_name s' r = registered_name s r) ->
      ModuleManager.get_module_in ms name s' = (answer, s', []).
Proof.
  induction ms as [|r ms IH]; simpl.
  - exists (Return None). split; [reflexivity | intros; reflexivity].
  - destruct IH as (answer & Hs & Hext).
    unfold bind, deref, registered_name in *.
    destruct (object_at s r) as [o|] eqn:Ho.
    + destruct (String.eqb (name_of o) name) eqn:E.
      * exists (Return (Some r)). split; [reflexivity|].
        intros s' Hn. pose proof (Hn r (or_introl eq_refl)) as Hr. rewrite Ho in Hr.
        destruct (object_at s' r) as [o'|]; [|discriminate Hr].
        simpl in Hr. injection Hr as Hr. rewrite Hr, E. reflexivity.
      * exists answer. rewrite Hs. split; [reflexivity|].
        intros s' Hn. pose proof (Hn r (or_introl eq_refl)) as Hr. rewrite Ho in Hr.
        destruct (object_at s' r) as [o'|]; [|discriminate Hr].
        simpl in Hr. injection Hr as Hr. rewrite Hr, E.
        rewrite (Hext s' (fun r0 H0 => Hn r0 (or_intror H0))). reflexivity.
    + exists Wrong. split; [reflexivity|].
      intros s' Hn. pose proof (Hn r (or_introl eq_refl)) as Hr. rewrite Ho in Hr.
      destruct (object_at s' r) as [o'|]; [discriminate Hr | reflexivity].
Qed.

Lemma get_module_in_found ms more name s r :
  ModuleManager.get_module_in ms name s = (Return (Some r), s, []) ->
  ModuleManager.get_module_in (ms ++ more) name s = (Return (Some r), s, []).
Proof.
  induction ms as [|m ms IH]; simpl; [discriminate|].
  unfold bind, deref. destruct (object_at s m) as [o|]; [|discriminate].
  destruct (String.eqb (name_of o) name); [intros H; exact H|].
  destruct (ModuleManager.get_module_in ms name s) as [[a s1] t1] eqn:E.
  intros H. simpl in H. injection H as -> -> ->.
  rewrite (IH eq_refl). reflexivity.
Qed.

Lemma get_module_in_missing ms more name s :
  ModuleManager.get_module_in ms name s = (Return None, s, []) ->
  ModuleManager.get_module_in (ms ++ more) name s =
  ModuleManager.get_module_in more name s.
Proof.
  induction ms as [|m ms IH]; simpl; [reflexivity|].
  unfold bind, deref. destruct (object_at s m) as [o|]; [|discriminate].
  destruct (String.eqb (name_of o) name); [discriminate|].
  destruct (ModuleManager.get_module_in ms name s) as [[a s1] t1] eqn:E.
  intros H. simpl in H. injection H as -> -> ->.
  rewrite (IH eq_refl).
  destruct (ModuleManager.get_module_in more name s) as [[a2 s2] t2]. reflexivity.
Qed.

Lemma get_module_unfold name s :
  ModuleManager.get_module name s = ModuleManager.get_module_in (modules s) name s.
Proof.
  unfold ModuleManager.get_module, bind, gets.
  destruct (ModuleManager.get_module_in (modules s) name s) as [[r s2] t2]. reflexivity.
Qed.

(** X13.  Registration and lookup compose as a list searched from its
    start: a lookup that finds a module still finds that same module after
    any further registration (a later module of the same name is never
    returned); a name that is not found is found as the newly registered
    module exactly when that module bears it; and after [clear_modules]
    every lookup answers [None]. *)
Theorem first_registration_wins name s module :
  let s' := state_of (ModuleManager.register_module module) s in
  (forall r,
     ModuleManager.get_module name s = (Return (Some r), s, []) ->
     ModuleManager.get_module name s' = (Return (Some r), s', [])) /\
  (forall o,
     ModuleManager.get_module name s = (Return None, s, []) ->
     object_at s module = Some o ->
     ModuleManager.get_module name s' =
       (Return (if String.eqb (name_of o) name then Some module else None), s', [])) /\
  ModuleManager.get_module name (state_of ModuleManager.clear_modules s) =
    (Return None, state_of ModuleManager.clear_modules s, []).
Proof.
  intros s'. subst s'. unfold state_of. simpl.
  assert (Hsame : forall ms answer,
            ModuleManager.get_module_in ms name s = (answer, s, []) ->
            ModuleManager.get_module_in ms name (set_modules (fun l => l ++ [module]) s) =
              (answer, set_modules (fun l => l ++ [module]) s, [])).
  { intros ms answer H. destruct (get_module_in_names ms name s) as (a & Ha & Hext).
    rewrite Ha in H. injection H as ->. apply Hext. intros r _. reflexivity. }
  split; [|split].
  - intros r Hfound. rewrite get_module_unfold in Hfound |- *. simpl modules.
    apply Hsame. apply get_module_in_found. exact Hfound.
  - intros o Hmiss Ho. rewrite get_module_unfold in Hmiss |- *. simpl modules.
    apply Hsame. rewrite (get_module_in_missing _ _ _ _ Hmiss). simpl.
    rewrite (bind_pure _ _ s o (deref_object _ _ _ Ho)).
    destruct (String.eqb (name_of o) name); reflexivity.
  - reflexivity.
Qed.

(** ** The tick callback's other cases *)

(** X15.  While the world view lives, the callback raises instead of
    reporting when the lookup of 'Hud' does not give a HUD:
    [AttributeError] when no module is registered under that name or when
    the module found is an input handler, [TypeError] when it is a world
    view (whose [on_world_tick] is a static method of two parameters).  In
    each case it makes no call and changes nothing. *)
Theorem tick_callback_without_hud weak_self timestamp rate s self :
  object_at s weak_self = Some self ->
  (ModuleManager.get_module MODULE_HUD s = (Return None, s, []) ->
   ModuleWorld.on_world_tick weak_self timestamp rate s = (Raise AttributeError, s, [])) /\
  (forall r i,
     ModuleManager.get_module MODULE_HUD s = (Return (Some r), s, []) ->
     object_at s r = Some (input i) ->
     ModuleWorld.on_world_tick weak_self timestamp rate s = (Raise AttributeError, s, [])) /\
  (forall r w,
     ModuleManager.get_module MODULE_HUD s = (Return (Some r), s, []) ->
     object_at s r = Some (world w) ->
     ModuleWorld.on_world_tick weak_self timestamp rate s = (Raise TypeError, s, [])).
Proof.
  intros Hlive.
  assert (Hstart : forall k : option ref -> M unit,
            ModuleWorld.on_world_tick weak_self timestamp rate s =
            bind (ModuleManager.get_module MODULE_HUD)
              (fun hud_module => call_on_world_tick hud_module timestamp rate) s).
  { intros _. unfold ModuleWorld.on_world_tick.
    rewrite (bind_pure _ _ s (object_at s weak_self)) by reflexivity.
    rewrite Hlive. reflexivity. }
  specialize (Hstart (fun _ => ret tt)). rewrite Hstart.
  split; [|split].
  - intros Hnone. rewrite (bind_pure _ _ s None Hnone). reflexivity.
  - intros r i Hfound Hr. rewrite (bind_pure _ _ s (Some r) Hfound).
    unfold call_on_world_tick.
    rewrite (bind_pure _ _ s (input i) (deref_object _ _ _ Hr)). reflexivity.
  - intros r w Hfound Hr. rewrite (bind_pure _ _ s (Some r) Hfound).
    unfold call_on_world_tick.
    rewrite (bind_pure _ _ s (world w) (deref_object _ _ _ Hr)). reflexivity.
Qed.

Lemma tick_callback_run weak_self timestamp rate s self r h :
  object_at s weak_self = Some self ->
  ModuleManager.get_module MODULE_HUD s = (Return (Some r), s, []) ->
  object_at s r = Some (hud h) ->
  exists s1,
    ModuleWorld.on_world_tick weak_self timestamp rate s = (Return tt, s1, []) /\
    is_Some (object_at s1 weak_self) /\
    ModuleManager.get_module MODULE_HUD s1 = (Return (Some r), s1, []) /\
    object_at s1 r =
      Some (hud (HUD.set_server_fps (PyFloat rate)
                   (HUD.set_server_clock (S (HUD._server_clock h)) h))).
Proof.
  intros Hlive Hfound Hr.
  set (h1 := HUD.set_server_clock (S (HUD._server_clock h)) h).
  set (h2 := HUD.set_server_fps (PyFloat rate) h1).
  set (s1 := set_heap (fun m => <[r := Some (hud h2)]> m)
               (set_heap (fun m => <[r := Some (hud h1)]> m) s)).
  assert (Hr1 : object_at s1 r = Some (hud h2)).
  { apply object_at_store_eq with (o := hud h1).
    apply object_at_store_eq with (o := hud h). exact Hr. }
  assert (Hother : forall r', r' <> r -> object_at s1 r' = object_at s r').
  { intros r' N. unfold s1. rewrite !object_at_store_ne by congruence. reflexivity. }
  assert (Hnames : forall r', registered_name s1 r' = registered_name s r').
  { intros r'. unfold registered_name. destruct (decide (r' = r)) as [->|N].
    - rewrite Hr1, Hr. reflexivity.
    - rewrite (Hother r' N). reflexivity. }
  exists s1. split; [|split; [|split; [|exact Hr1]]].
  - unfold ModuleWorld.on_world_tick.
    rewrite (bind_pure _ _ s (object_at s weak_self)) by reflexivity.
    rewrite Hlive. rewrite (bind_pure _ _ s (Some r) Hfound).
    unfold call_on_world_tick.
    rewrite (bind_pure _ _ s (hud h) (deref_object _ _ _ Hr)).
    apply (hud_on_world_tick_run r timestamp rate s h Hr).
  - destruct (decide (weak_self = r)) as [->|N].
    + rewrite Hr1. eexists. reflexivity.
    + rewrite (Hother weak_self N), Hlive. eexists. reflexivity.
  - rewrite get_module_unfold in Hfound |- *.
    destruct (get_module_in_names (modules s) MODULE_HUD s) as (answer & Ha & Hext).
    rewrite Ha in Hfound. injection Hfound as ->.
    apply (Hext s1). intros r' _. apply Hnames.
Qed.

(** X16.  The callbacks add up: once the lookup of 'Hud' finds a HUD, any
    run of simulator ticks returns without a call, ticks that HUD's server
    clock once per tick and leaves as its server rate the rate reported
    after the last tick (the rate it had, if there was no tick); the HUD's
    other fields are untouched. *)
Theorem server_ticks_accumulate weak_self ticks : forall s self r h,
  object_at s weak_self = Some self ->
  ModuleManager.get_module MODULE_HUD s = (Return (Some r), s, []) ->
  object_at s r = Some (hud h) ->
  outcome_of (server_ticks weak_self ticks) s = Return tt /\
  trace_of (server_ticks weak_self ticks) s = [] /\
  object_at (state_of (server_ticks weak_self ticks) s) r =
    Some (hud (HUD.set_server_fps
                 (fold_left (fun _ tick => PyFloat (snd tick)) ticks (HUD.server_fps h))
                 (HUD.set_server_clock (length ticks + HUD._server_clock h)%nat h))).
Proof.
  induction ticks as [|[timestamp rate] ticks IH]; intros s self r h Hlive Hfound Hr.
  - unfold outcome_of, trace_of, state_of. simpl.
    split; [reflexivity|]. split; [reflexivity|]. rewrite Hr. destruct h. reflexivity.
  - destruct (tick_callback_run weak_self timestamp rate s self r h Hlive Hfound Hr)
      as (s1 & Hrun & [self1 Hlive1] & Hfound1 & Hr1).
    destruct (IH s1 self1 r _ Hlive1 Hfound1 Hr1) as (Hout & Htrace & Hobj).
    unfold outcome_of, trace_of, state_of, server_ticks in *. simpl for_each.
    rewrite (bind_Return _ _ _ _ _ _ Hrun). simpl fst. simpl snd.
    split; [exact Hout|]. split; [rewrite Htrace; reflexivity|].
    rewrite Hobj. simpl. destruct h. simpl.
    rewrite Nat.add_succ_r. reflexivity.
Qed.

(** ** Running on *)

Lemma main_goes_on env cli w h s' t :
  ints_of (py_split "x" (cli_res cli)) = Ok [w; h] ->
  game_loop env
    {| debug := cli_debug cli; host := cli_host cli; port := cli_port cli;
       res := cli_res cli; description := "CARLA No Rendering Mode Visualizer";
       width := w; height := h |} initial_state = (Return tt, s', t) ->
  main env cli initial_state =
    (Return tt, s',
     [logging_info ("listening to server " ++ cli_host cli ++ ":" ++
                    str_of_int (cli_port cli))%string; print __doc__] ++ t).
Proof.
  intros Hres Hloop. unfold main. rewrite Hres.
  rewrite (bind_pure _ _ _ [w; h]) by reflexivity.
  change ([logging_info ("listening to server " ++ cli_host cli ++ ":" ++
                         str_of_int (cli_port cli))%string; print __doc__] ++ t)
    with ([logging_info ("listening to server " ++ cli_host cli ++ ":" ++
                         str_of_int (cli_port cli))%string] ++ [print __doc__] ++ t).
  eapply (run_bind _ _ _ tt _ [logging_info _]); [reflexivity|].
  eapply (run_bind _ _ _ tt _ [print _]); [reflexivity|].
  unfold try_except. simpl host. simpl port. rewrite Hloop. reflexivity.
Qed.

(** X18.  Left alone, the program runs on and nothing moves: when the
    connection and the font are found and every frame is uneventful (no
    event, no button held, a fetch that succeeds), the loop has played all
    the frames and goes on, [pygame.quit()] has not been called, the three
    modules are registered in the order input handler, HUD, world view, and
    the pan offsets and zoom factors are the initial 250, 250, 1 and 1. *)
Theorem idle_program_runs_on env cli w h mono :
  ints_of (py_split "x" (cli_res cli)) = Ok [w; h] ->
  connection_failure (server env) = None ->
  ModuleHUD._init_hud_params (installed_fonts env) = Ok mono ->
  Forall calm_frame (frames env) ->
  let s' := state_of (main env cli) initial_state in
  outcome_of (main env cli) initial_state = Return tt /\
  ~ In pygame_quit (trace_of (main env cli) initial_state) /\
  modules s' = [0%nat; 2%nat; 1%nat] /\
  registered_name s' 0%nat = Some MODULE_INPUT /\
  registered_name s' 2%nat = Some MODULE_HUD /\
  registered_name s' 1%nat = Some MODULE_WORLD /\
  offset_x s' = 250 /\ offset_y s' = 250 /\
  scale_x s' = PyInt 1 /\ scale_y s' = PyInt 1.
Proof.
  intros Hres Hconn Hfonts Hcalm s'. subst s'.
  set (args := {| debug := cli_debug cli; host := cli_host cli; port := cli_port cli;
                  res := cli_res cli; description := "CARLA No Rendering Mode Visualizer";
                  width := w; height := h |}).
  destruct (calm_frames_run (pygame.display (w, h)) program_input (program_world args)
              (carla.world_of (host args) (port args)) 250 250 (PyInt 1) (PyInt 1)
              (PyInt 1280) (PyInt 720) 1280 720 eq_refl eq_refl eq_refl eq_refl eq_refl
              (frames env) (program_hud args mono) "               0" Hcalm eq_refl eq_refl)
    as (h' & t & [text ->] & Hrun).
  specialize (Hrun [] _ _ _ eq_refl). rewrite app_nil_r in Hrun.
  pose proof (game_loop_setup env args mono _ _ _ Hconn Hfonts Hrun) as Hloop.
  pose proof (main_goes_on env cli w h _ _ Hres Hloop) as Hmain.
  assert (Hout : outcome_of (main env cli) initial_state = Return tt)
    by (unfold outcome_of; rewrite Hmain; reflexivity).
  split; [exact Hout|]. split.
  - intros Hin. destruct (orderly_main env cli initial_state) as (_ & _ & Hexit).
    rewrite (Hexit Hin) in Hout. discriminate Hout.
  - unfold state_of. rewrite Hmain. simpl. repeat split; reflexivity.
Qed.

(** ** Dragging *)

Lemma last_cons {A} (a d : A) (l : list A) : List.last (a :: l) d = List.last l a.
Proof.
  revert a d. induction l as [|b l IH]; intros a d; [reflexivity|].
  change (List.last (a :: b :: l) d) with (List.last (b :: l) d).
  rewrite (IH b d), (IH b a). reflexivity.
Qed.

(** X19.  Dragging depends on where the pointer ends, not on its path: over
    any run of ticks without events in which the left button is held, the
    pan offsets move in all by the difference between the pointer's last
    position and the position the handler remembered at the start, and the
    handler ends up remembering the last position. *)
Theorem drag_is_path_independent self clock polls : forall s i,
  object_at s self = Some (input i) ->
  Forall (fun io => event_get io = [] /\ fst (fst (mouse_get_pressed io)) = true) polls ->
  let final := List.last (map mouse_get_pos polls) (Input.mouse_pos i) in
  let s' := state_of (input_ticks self clock polls) s in
  outcome_of (input_ticks self clock polls) s = Return tt /\
  offset_x s' = offset_x s + (fst final - fst (Input.mouse_pos i)) /\
  offset_y s' = offset_y s + (snd final - snd (Input.mouse_pos i)) /\
  object_at s' self = Some (input (Input.set_mouse_pos final i)).
Proof.
  induction polls as [|io polls IH]; intros s i Hself Hpolls final s'; subst final s'.
  - unfold outcome_of, state_of. simpl.
    split; [reflexivity|]. split; [lia|]. split; [lia|].
    rewrite Hself. destruct i. reflexivity.
  - inversion Hpolls as [|? ? [Hev Hheld] Hrest]; subst.
    pose proof (parse_mouse_held io self s i Hheld Hself) as Hm.
    match type of Hm with _ = (_, ?st, _) => set (s1 := st) in Hm end.
    assert (Hs1 : object_at s1 self = Some (input (Input.set_mouse_pos (mouse_get_pos io) i)))
      by (apply object_at_store_eq with (o := input i); exact Hself).
    assert (Htick : ModuleInput.tick io self clock s = (Return tt, s1, [])).
    { unfold ModuleInput.tick, ModuleInput.parse_input, ModuleInput._parse_events,
        ModuleInput._parse_keys. rewrite Hev.
      eapply (run_bind _ _ _ tt s [] _ _ []); [reflexivity|].
      eapply (run_bind _ _ _ tt s [] _ _ []); [reflexivity | exact Hm]. }
    destruct (IH s1 _ Hs1 Hrest) as (Hout & Hx & Hy & Hobj).
    simpl map. rewrite last_cons.
    unfold outcome_of, state_of, input_ticks in *. simpl for_each.
    rewrite (bind_Return _ _ _ _ _ _ Htick). simpl fst. simpl snd.
    simpl Input.mouse_pos in *.
    split; [exact Hout|]. split; [rewrite Hx; unfold s1; simpl; lia|].
    split; [rewrite Hy; unfold s1; simpl; lia|].
    rewrite Hobj. reflexivity.
Qed.

(** ** Sample runs of the further properties *)

Lemma render_map_draws_waypoints_in_order_witness :
  object_at running_state 1%nat = Some (world sample_world) /\
  carla.generate_waypoints sample_map = Ok sample_waypoints /\
  ((exists point_list,
      Forall2 waypoint_at sample_waypoints point_list /\
      ModuleWorld.render_map 1%nat sample_display sample_map running_state =
        (Return tt, running_state,
         [draw_lines (World.surface sample_world) (255, 0, 255) false point_list 1]))
   \/
   (exists e,
      Exists waypoint_off_map sample_waypoints /\
      (e = ValueError \/ e = OverflowError) /\
      ModuleWorld.render_map 1%nat sample_display sample_map running_state =
        (Raise e, running_state, []))).
Proof.
  split; [reflexivity|]. split; [reflexivity|].
  apply (render_map_draws_waypoints_in_order 1%nat sample_display sample_map running_state
           sample_world sample_waypoints); reflexivity.
Defined.

Lemma fontless_env_has_no_mono :
  Forall (fun x => py_in "mono" x = false) (installed_fonts fontless_env).
Proof. repeat (constructor; [vm_compute; reflexivity|]). constructor. Defined.

Lemma missing_mono_font_ends_setup_witness :
  ints_of (py_split "x" (cli_res cli_800x600)) = Ok [800; 600] /\
  connection_failure (server fontless_env) = None /\
  Forall (fun x => py_in "mono" x = false) (installed_fonts fontless_env) /\
  outcome_of (main fontless_env cli_800x600) initial_state = Raise IndexError /\
  trace_of (main fontless_env cli_800x600) initial_state =
    [logging_info ("listening to server " ++ cli_host cli_800x600 ++ ":" ++
                   str_of_int (cli_port cli_800x600))%string;
     print __doc__; pygame_init; set_mode (800, 600);
     set_caption "CARLA No Rendering Mode Visualizer"; on_tick 1%nat] /\
  modules (state_of (main fontless_env cli_800x600) initial_state) = [].
Proof.
  split; [vm_compute; reflexivity|]. split; [reflexivity|].
  split; [exact fontless_env_has_no_mono|].
  apply (missing_mono_font_ends_setup fontless_env cli_800x600 800 600).
  - vm_compute. reflexivity.
  - reflexivity.
  - exact fontless_env_has_no_mono.
Defined.

Lemma hud_lines_stay_within_panel_witness :
  object_at running_state 2%nat = Some (hud running_hud) /\
  HUD._show_info running_hud = true /\
  4 + 18 * Z.of_nat (length (HUD._info_text running_hud)) <= snd (HUD.dim running_hud) /\
  exists t,
    ModuleHUD.render 2%nat sample_display running_state = (Return tt, running_state, t) /\
    map fst (text_blits t) =
      ["Server:                 0 FPS"; "Client:                59 FPS"].
Proof.
  assert (Hroom : 4 + 18 * Z.of_nat (length (HUD._info_text running_hud))
                  <= snd (HUD.dim running_hud)) by (vm_compute; discriminate).
  split; [reflexivity|]. split; [reflexivity|]. split; [exact Hroom|].
  destruct (hud_lines_stay_within_panel 2%nat sample_display running_state running_hud
              eq_refl) as (t & Hrun & _ & Hall & _).
  exists t. split; [exact Hrun | exact (Hall eq_refl Hroom)].
Defined.

Lemma hud_tick_rewrites_text_only_witness :
  object_at running_state 2%nat = Some (hud running_hud) /\
  trace_of (ModuleHUD.tick 2%nat sample_clock) running_state = [] /\
  (exists text,
     object_at (state_of (ModuleHUD.tick 2%nat sample_clock) running_state) 2%nat =
       Some (hud (HUD.set_info_text text running_hud))) /\
  object_at (state_of (ModuleHUD.tick 2%nat sample_clock) running_state) 1%nat =
    object_at running_state 1%nat /\
  modules (state_of (ModuleHUD.tick 2%nat sample_clock) running_state) =
    modules running_state.
Proof.
  split; [reflexivity|].
  destruct (hud_tick_rewrites_text_only 2%nat sample_clock running_state running_hud
              eq_refl) as (Htrace & Htext & Hothers & Hmodules & _).
  split; [exact Htrace|]. split; [exact Htext|].
  split; [apply Hothers; discriminate | exact Hmodules].
Defined.

Lemma quit_event_ends_the_poll_witness :
  event_get closing_inputs =
    [pygame.MOUSEBUTTONDOWN 4 (3, 3)] ++ pygame.QUIT :: [pygame.MOUSEBUTTONDOWN 5 (3, 3)] /\
  is_quit_event pygame.QUIT = true /\
  ModuleInput.tick closing_inputs 0%nat sample_clock running_state =
    (Raise SystemExit,
     set_modules (fun _ => [])
       (state_of (for_each [pygame.MOUSEBUTTONDOWN 4 (3, 3)] (ModuleInput.handle_event 0%nat))
          running_state),
     [print "mouse wheel up"; pygame_quit]).
Proof.
  split; [reflexivity|]. split; [reflexivity|].
  apply (proj2 (quit_event_ends_the_poll closing_inputs 0%nat sample_clock running_state
                  [pygame.MOUSEBUTTONDOWN 4 (3, 3)] pygame.QUIT
                  [pygame.MOUSEBUTTONDOWN 5 (3, 3)]
                  (state_of (for_each [pygame.MOUSEBUTTONDOWN 4 (3, 3)]
                               (ModuleInput.handle_event 0%nat)) running_state)
                  [print "mouse wheel up"] eq_refl eq_refl
                  ltac:(vm_compute; reflexivity))).
Defined.

Lemma drag_is_measured_from_the_press_witness :
  object_at running_state 0%nat = Some (input program_input) /\
  event_get dragging_inputs = [pygame.MOUSEBUTTONDOWN 1 (100, 100)] /\
  fst (fst (mouse_get_pressed dragging_inputs)) = true /\
  offset_x (state_of (ModuleInput.tick dragging_inputs 0%nat sample_clock) running_state)
    = offset_x running_state + (130 - 100) /\
  offset_y (state_of (ModuleInput.tick dragging_inputs 0%nat sample_clock) running_state)
    = offset_y running_state + (90 - 100).
Proof.
  split; [reflexivity|]. split; [reflexivity|]. split; [reflexivity|].
  pose proof (drag_is_measured_from_the_press dragging_inputs 0%nat sample_clock
                running_state program_input 1 (100, 100) eq_refl eq_refl
                ltac:(discriminate) ltac:(discriminate) eq_refl) as H.
  cbv zeta in H. destruct H as (_ & _ & Hx & Hy & _).
  split; [exact Hx | exact Hy].
Defined.

Lemma two_idle_frames_calm : Forall calm_frame [idle_frame; idle_frame].
Proof. repeat (constructor; [exact idle_frame_calm|]). constructor. Defined.

Lemma quit_event_shuts_down_before_rendering_witness :
  frames escape_env = [idle_frame; idle_frame] ++ escape_frame :: [idle_frame] /\
  Forall calm_frame [idle_frame; idle_frame] /\
  event_get (tick_inputs escape_frame 0%nat) = pygame.KEYUP pygame.K_ESCAPE :: [pygame.OTHER] /\
  is_quit_event (pygame.KEYUP pygame.K_ESCAPE) = true /\
  outcome_of (main escape_env default_command_line) initial_state = Raise SystemExit /\
  modules (state_of (main escape_env default_command_line) initial_state) = [] /\
  exists t,
    trace_of (main escape_env default_command_line) initial_state =
      t ++ [tick_busy_loop 60; tick_call 0%nat (clock escape_frame); pygame_quit].
Proof.
  split; [reflexivity|]. split; [exact two_idle_frames_calm|].
  split; [reflexivity|]. split; [reflexivity|].
  apply (quit_event_shuts_down_before_rendering escape_env default_command_line 1280 720
           "dejavusansmono" [idle_frame; idle_frame] escape_frame [idle_frame]
           (pygame.KEYUP pygame.K_ESCAPE) [pygame.OTHER]).
  - vm_compute. reflexivity.
  - reflexivity.
  - vm_compute. reflexivity.
  - reflexivity.
  - exact two_idle_frames_calm.
  - reflexivity.
  - reflexivity.
Defined.

Lemma interrupted_frame_failing : failing_frame interrupted_frame KeyboardInterrupt.
Proof.
  split.
  - split; [reflexivity|]. split; [reflexivity|].
    exists "              59". vm_compute. reflexivity.
  - right. exists sample_actors. split; reflexivity.
Defined.

Lemma keyboard_interrupt_is_reported_witness :
  frames interrupted_env = [idle_frame] ++ interrupted_frame :: [idle_frame] /\
  Forall calm_frame [idle_frame] /\
  failing_frame interrupted_frame KeyboardInterrupt /\
  outcome_of (main interrupted_env default_command_line) initial_state = Return tt /\
  (exists t,
     trace_of (main interrupted_env default_command_line) initial_state =
       t ++ [print (newline ++ "Cancelled by user. Bye!")%string]) /\
  ~ In pygame_quit (trace_of (main interrupted_env default_command_line) initial_state) /\
  modules (state_of (main interrupted_env default_command_line) initial_state)
    = [0%nat; 2%nat; 1%nat].
Proof.
  split; [reflexivity|].
  split; [constructor; [exact idle_frame_calm | constructor]|].
  split; [exact interrupted_frame_failing|].
  apply (keyboard_interrupt_is_reported interrupted_env default_command_line 1280 720
           "dejavusansmono" [idle_frame] interrupted_frame [idle_frame]).
  - vm_compute. reflexivity.
  - reflexivity.
  - vm_compute. reflexivity.
  - reflexivity.
  - constructor; [exact idle_frame_calm | constructor].
  - exact interrupted_frame_failing.
Defined.

Lemma interrupt_during_connection_is_not_a_failure_witness :
  ints_of (py_split "x" (cli_res cli_800x600)) = Ok [800; 600] /\
  connection_failure (server interrupted_connection_env) = Some KeyboardInterrupt /\
  outcome_of (main interrupted_connection_env cli_800x600) initial_state = Return tt /\
  trace_of (main interrupted_connection_env cli_800x600) initial_state =
    [logging_info ("listening to server " ++ cli_host cli_800x600 ++ ":" ++
                   str_of_int (cli_port cli_800x600))%string;
     print __doc__; pygame_init; set_mode (800, 600);
     set_caption "CARLA No Rendering Mode Visualizer";
     print (newline ++ "Cancelled by user. Bye!")%string] /\
  modules (state_of (main interrupted_connection_env cli_800x600) initial_state) = [].
Proof.
  split; [vm_compute; reflexivity|]. split; [reflexivity|].
  apply (interrupt_during_connection_is_not_a_failure interrupted_connection_env
           cli_800x600 800 600).
  - vm_compute. reflexivity.
  - reflexivity.
Defined.

Lemma malformed_resolution_is_rejected_first_witness :
  count_char "x" (cli_res cli_no_height) <> 1%nat /\
  main sample_env cli_no_height initial_state = (Raise ValueError, initial_state, []) /\
  ints_of (py_split "x" "800x600") = Ok [800; 600] /\
  count_char "x" "800x600" = 1%nat.
Proof.
  assert (Hnone : count_char "x" (cli_res cli_no_height) <> 1%nat)
    by (vm_compute; discriminate).
  assert (Hres : ints_of (py_split "x" "800x600") = Ok [800; 600])
    by (vm_compute; reflexivity).
  split; [exact Hnone|]. split.
  - exact (proj2 (proj2 malformed_resolution_is_rejected_first) sample_env cli_no_height
             initial_state Hnone).
  - split; [exact Hres|].
    exact (proj1 (proj2 malformed_resolution_is_rejected_first) "800x600" 800 600 Hres).
Defined.

Lemma first_registration_wins_witness :
  ModuleManager.get_module MODULE_HUD running_state =
    (Return (Some 2%nat), running_state, []) /\
  ModuleManager.get_module MODULE_HUD
    (state_of (ModuleManager.register_module 1%nat) running_state) =
    (Return (Some 2%nat), state_of (ModuleManager.register_module 1%nat) running_state, []) /\
  ModuleManager.get_module MODULE_WORLD before_registration =
    (Return None, before_registration, []) /\
  object_at before_registration 1%nat = Some (world sample_world) /\
  ModuleManager.get_module MODULE_WORLD
    (state_of (ModuleManager.register_module 1%nat) before_registration) =
    (Return (Some 1%nat),
     state_of (ModuleManager.register_module 1%nat) before_registration, []).
Proof.
  assert (Hfound : ModuleManager.get_module MODULE_HUD running_state =
                     (Return (Some 2%nat), running_state, []))
    by (vm_compute; reflexivity).
  assert (Hmissing : ModuleManager.get_module MODULE_WORLD before_registration =
                       (Return None, before_registration, []))
    by (vm_compute; reflexivity).
  split; [exact Hfound|]. split.
  - exact (proj1 (first_registration_wins MODULE_HUD running_state 1%nat) 2%nat Hfound).
  - split; [exact Hmissing|]. split; [reflexivity|].
    exact (proj1 (proj2 (first_registration_wins MODULE_WORLD before_registration 1%nat))
             (world sample_world) Hmissing eq_refl).
Defined.

Lemma zoom_stays_uniform_witness :
  scale_x initial_state = scale_y initial_state /\
  outcome_of (main zooming_env default_command_line) initial_state = Return tt /\
  scale_x (state_of (main zooming_env default_command_line) initial_state) =
    scale_y (state_of (main zooming_env default_command_line) initial_state).
Proof.
  split; [reflexivity|]. split; [vm_compute; reflexivity|].
  apply (zoom_stays_uniform zooming_env default_command_line initial_state). reflexivity.
Defined.

Lemma frame_loop_keeps_the_registry_witness :
  outcome_of (run_frames [idle_frame; zooming_frame] sample_display) running_state
    <> Raise SystemExit /\
  modules (state_of (run_frames [idle_frame; zooming_frame] sample_display) running_state)
    = modules running_state /\
  In pygame_quit (trace_of (run_frames [idle_frame; escape_frame] sample_display)
                    running_state) /\
  modules (state_of (run_frames [idle_frame; escape_frame] sample_display) running_state)
    = [].
Proof.
  assert (Hgoes : outcome_of (run_frames [idle_frame; zooming_frame] sample_display)
                    running_state <> Raise SystemExit)
    by (vm_compute; discriminate).
  assert (Hquit : In pygame_quit (trace_of (run_frames [idle_frame; escape_frame]
                                              sample_display) running_state))
    by (vm_compute; repeat (first [left; reflexivity | right])).
  split; [exact Hgoes|]. split.
  - exact (proj2 (proj2 (proj2 (frame_loop_keeps_the_registry [idle_frame; zooming_frame]
                                  sample_display running_state))) Hgoes).
  - split; [exact Hquit|].
    exact (proj1 (proj1 (proj2 (frame_loop_keeps_the_registry [idle_frame; escape_frame]
                                  sample_display running_state)) Hquit)).
Defined.

Lemma tick_callback_without_hud_witness :
  object_at before_registration 1%nat = Some (world sample_world) /\
  ModuleManager.get_module MODULE_HUD before_registration =
    (Return None, before_registration, []) /\
  ModuleWorld.on_world_tick 1%nat sample_timestamp 20 before_registration =
    (Raise AttributeError, before_registration, []).
Proof.
  assert (Hmissing : ModuleManager.get_module MODULE_HUD before_registration =
                       (Return None, before_registration, []))
    by (vm_compute; reflexivity).
  split; [reflexivity|]. split; [exact Hmissing|].
  exact (proj1 (tick_callback_without_hud 1%nat sample_timestamp 20%float
                  before_registration (world sample_world) eq_refl) Hmissing).
Defined.

Lemma server_ticks_accumulate_witness :
  object_at running_state 1%nat = Some (world sample_world) /\
  ModuleManager.get_module MODULE_HUD running_state =
    (Return (Some 2%nat), running_state, []) /\
  object_at running_state 2%nat = Some (hud running_hud) /\
  outcome_of (server_ticks 1%nat [(sample_timestamp, 20%float); (sample_timestamp, 30%float)])
    running_state = Return tt /\
  trace_of (server_ticks 1%nat [(sample_timestamp, 20%float); (sample_timestamp, 30%float)])
    running_state = [] /\
  object_at
    (state_of (server_ticks 1%nat [(sample_timestamp, 20%float); (sample_timestamp, 30%float)])
       running_state) 2%nat =
    Some (hud (HUD.set_server_fps (PyFloat 30) (HUD.set_server_clock 2%nat running_hud))).
Proof.
  split; [reflexivity|]. split; [vm_compute; reflexivity|]. split; [reflexivity|].
  apply (server_ticks_accumulate 1%nat
           [(sample_timestamp, 20%float); (sample_timestamp, 30%float)]
           running_state (world sample_world) 2%nat running_hud).
  - reflexivity.
  - vm_compute. reflexivity.
  - reflexivity.
Defined.

Lemma idle_program_runs_on_witness :
  Forall calm_frame (frames sample_env) /\
  outcome_of (main sample_env default_command_line) initial_state = Return tt /\
  ~ In pygame_quit (trace_of (main sample_env default_command_line) initial_state) /\
  modules (state_of (main sample_env default_command_line) initial_state)
    = [0%nat; 2%nat; 1%nat] /\
  offset_x (state_of (main sample_env default_command_line) initial_state) = 250 /\
  scale_x (state_of (main sample_env default_command_line) initial_state) = PyInt 1.
Proof.
  assert (Hcalm : Forall calm_frame (frames sample_env))
    by (constructor; [exact idle_frame_calm | constructor]).
  split; [exact Hcalm|].
  pose proof (idle_program_runs_on sample_env default_command_line 1280 720
                "dejavusansmono" ltac:(vm_compute; reflexivity) eq_refl
                ltac:(vm_compute; reflexivity) Hcalm) as H.
  cbv zeta in H. destruct H as (Hout & Hquit & Hmodules & _ & _ & _ & Hx & _ & Hsx & _).
  split; [exact Hout|]. split; [exact Hquit|]. split; [exact Hmodules|].
  split; [exact Hx | exact Hsx].
Defined.

Lemma drag_is_path_independent_witness :
  object_at after_click 0%nat =
    Some (input {| Input.name := MODULE_INPUT; Input.mouse_pos := (100, 100) |}) /\
  Forall (fun io => event_get io = [] /\ fst (fst (mouse_get_pressed io)) = true)
    [held_at (110, 100); held_at (90, 130); held_at (130, 90)] /\
  offset_x (state_of (input_ticks 0%nat sample_clock
                        [held_at (110, 100); held_at (90, 130); held_at (130, 90)])
              after_click) = offset_x after_click + (130 - 100) /\
  offset_y (state_of (input_ticks 0%nat sample_clock
                        [held_at (110, 100); held_at (90, 130); held_at (130, 90)])
              after_click) = offset_y after_click + (90 - 100).
Proof.
  assert (Hheld : Forall (fun io => event_get io = [] /\
                                    fst (fst (mouse_get_pressed io)) = true)
                    [held_at (110, 100); held_at (90, 130); held_at (130, 90)])
    by (repeat (constructor; [split; reflexivity|]); constructor).
  split; [reflexivity|]. split; [exact Hheld|].
  pose proof (drag_is_path_independent 0%nat sample_clock
                [held_at (110, 100); held_at (90, 130); held_at (130, 90)] after_click
                {| Input.name := MODULE_INPUT; Input.mouse_pos := (100, 100) |}
                eq_refl Hheld) as H.
  cbv zeta in H. destruct H as (_ & Hx & Hy & _).
  split; [exact Hx | exact Hy].
Defined.
